(** * fastapi-simple-profiler: the metrics store and its middleware

    A shallow embedding of [fastapi_simple_profiler/profiler_data.py]
    (class [FastAPIProfiler]) and [fastapi_simple_profiler/middleware.py]
    (class [ProfilerMiddleware]).

    Python objects live in a heap of mutable objects addressed by
    references; a method is a program of atomic actions on that heap
    (one action per attribute load, attribute store or list operation),
    so that the same definitions can be run by one thread to completion
    ([run]) or interleaved with other threads ([run_schedule]). *)

From Stdlib Require Import ZArith String Ascii List Lia Floats DecimalString.
From stdpp Require Import gmap strings list.

Local Open Scope Z_scope.

(** ** Python values and exceptions *)

(** The values the profile dictionaries hold ([Dict[str, Any]]): the
    middleware stores strings, an [int] status and two [float]s. *)
Inductive pyval :=
| PyStr (s : string)
| PyInt (z : Z)
| PyFloat (f : float)
| PyNone.

Inductive exn :=
| ValueError (msg : string)
| AttributeError (msg : string)
| TypeError (msg : string)
| OtherException (name : string)
| OtherBaseException (name : string).

(** [isinstance(e, Exception)]: what an [except Exception] clause catches.
    [OtherBaseException] stands for the classes outside [Exception]
    ([asyncio.CancelledError], [KeyboardInterrupt], ...). *)
Definition is_Exception (e : exn) : bool :=
  match e with
  | OtherBaseException _ => false
  | _ => true
  end.

Inductive result (A : Type) :=
| Ok (a : A)
| Err (e : exn).
Arguments Ok {A} a.
Arguments Err {A} e.

(** [l[start:]] for a Python list: a negative start counts from the end,
    and both ends are clamped to the list. *)
Definition slice_from {A : Type} (start : Z) (l : list A) : list A :=
  let n := Z.of_nat (length l) in
  let lo := if start <? 0 then Z.max (start + n) 0 else Z.min start n in
  drop (Z.to_nat lo) l.

(** ** The object heap *)

(** References are positions in the heap. *)
Abbreviation loc := nat.

Inductive obj :=
| ODict (d : gmap string pyval)
| OList (l : list loc)
| OProfiler (profiled_requests_data : option loc)
            (max_retained_requests : option Z).

(** [_instance] and [_lock] are the two class attributes of
    [FastAPIProfiler]; [_lock] is [true] while the lock is held. *)
Record world := World {
  heap : list obj;
  _instance : option loc;
  _lock : bool
}.

Definition set_heap (h : list obj) (w : world) : world :=
  World h (_instance w) (_lock w).
Definition set_lock (b : bool) (w : world) : world :=
  World (heap w) (_instance w) b.

(** ** Programs of atomic actions *)

Inductive prog (A : Type) : Type :=
| Ret (a : A)
| Raise (e : exn)
| Atomic {B : Type} (op : world -> B * world) (k : B -> prog A)
| Acquire (k : prog A).
Arguments Ret {A} a.
Arguments Raise {A} e.
Arguments Atomic {A B} op k.
Arguments Acquire {A} k.

Fixpoint bind {A B : Type} (p : prog A) (f : A -> prog B) : prog B :=
  match p with
  | Ret a => f a
  | Raise e => Raise e
  | Atomic op k => Atomic op (fun b => bind (k b) f)
  | Acquire k => Acquire (bind k f)
  end.

Notation "x <- p ;; q" := (bind p (fun x => q))
  (at level 100, p at next level, right associativity).
Notation "p ;; q" := (bind p (fun _ => q))
  (at level 100, right associativity).

(** An atomic operation that may raise. *)
Definition prim {B : Type} (op : world -> result B * world) : prog B :=
  Atomic op (fun r => match r with Ok b => Ret b | Err e => Raise e end).

(** [try: p finally: fin], where [fin] completes normally or raises. *)
Fixpoint try_finally {A : Type} (p : prog A) (fin : prog unit) : prog A :=
  match p with
  | Ret a => fin ;; Ret a
  | Raise e => fin ;; Raise e
  | Atomic op k => Atomic op (fun b => try_finally (k b) fin)
  | Acquire k => Acquire (try_finally k fin)
  end.

(** [p], with its exception (if any) turned into a value. *)
Fixpoint catch {A : Type} (p : prog A) : prog (result A) :=
  match p with
  | Ret a => Ret (Ok a)
  | Raise e => Ret (Err e)
  | Atomic op k => Atomic op (fun b => catch (k b))
  | Acquire k => Acquire (catch k)
  end.

Definition release : prog unit :=
  Atomic (fun w => (tt, set_lock false w)) Ret.

(** [with cls._lock: body] *)
Definition with_lock {A : Type} (body : prog A) : prog A :=
  Acquire (try_finally body release).

(** How a call ends when one thread runs it alone: [Blocked] is a thread
    waiting for a lock that nobody will release. *)
Inductive outcome (A : Type) :=
| Returned (a : A)
| Raised (e : exn)
| Blocked.
Arguments Returned {A} a.
Arguments Raised {A} e.
Arguments Blocked {A}.

Fixpoint run {A : Type} (p : prog A) (w : world) : outcome A * world :=
  match p with
  | Ret a => (Returned a, w)
  | Raise e => (Raised e, w)
  | Atomic op k => let '(b, w') := op w in run (k b) w'
  | Acquire k => if _lock w then (Blocked, w) else run k (set_lock true w)
  end.

(** ** Atomic operations on objects *)

(** An operation applied to an object of the wrong kind, or reading an
    attribute that is not set, raises.  The attribute
    [profiled_requests_data] only ever refers to a list ([store_inv]),
    so the list operations below are not defined on other objects. *)

Definition get_instance (w : world) : option loc * world := (_instance w, w).

Definition set_instance (r : loc) (w : world) : unit * world :=
  (tt, World (heap w) (Some r) (_lock w)).

Definition alloc (o : obj) (w : world) : loc * world :=
  (length (heap w), set_heap (heap w ++ [o]) w).

Definition getattr_profiled_requests_data (self : loc) (w : world)
  : result loc * world :=
  (match heap w !! self with
   | Some (OProfiler (Some d) _) => Ok d
   | _ => Err (AttributeError "profiled_requests_data")
   end, w).

Definition getattr_max_retained_requests (self : loc) (w : world)
  : result Z * world :=
  (match heap w !! self with
   | Some (OProfiler _ (Some c)) => Ok c
   | _ => Err (AttributeError "max_retained_requests")
   end, w).

Definition setattr_profiled_requests_data (self d : loc) (w : world)
  : result unit * world :=
  match heap w !! self with
  | Some (OProfiler _ c) =>
      (Ok tt, set_heap (<[self := OProfiler (Some d) c]> (heap w)) w)
  | _ => (Err (AttributeError "profiled_requests_data"), w)
  end.

Definition setattr_max_retained_requests (self : loc) (c : Z) (w : world)
  : result unit * world :=
  match heap w !! self with
  | Some (OProfiler d _) =>
      (Ok tt, set_heap (<[self := OProfiler d (Some c)]> (heap w)) w)
  | _ => (Err (AttributeError "max_retained_requests"), w)
  end.

(** [l.append(x)]: in place. *)
Definition list_append (l x : loc) (w : world) : result unit * world :=
  match heap w !! l with
  | Some (OList xs) => (Ok tt, set_heap (<[l := OList (xs ++ [x])]> (heap w)) w)
  | _ => (Err (AttributeError "append"), w)
  end.

(** [len(l)] *)
Definition list_len (l : loc) (w : world) : result Z * world :=
  (match heap w !! l with
   | Some (OList xs) => Ok (Z.of_nat (length xs))
   | _ => Err (TypeError "len")
   end, w).

(** [l[start:]]: a new list object. *)
Definition list_slice_from (l : loc) (start : Z) (w : world)
  : result loc * world :=
  match heap w !! l with
  | Some (OList xs) =>
      let '(r, w') := alloc (OList (slice_from start xs)) w in (Ok r, w')
  | _ => (Err (TypeError "slice"), w)
  end.

(** [list(l)]: a new list object with the same elements. *)
Definition list_copy (l : loc) (w : world) : result loc * world :=
  match heap w !! l with
  | Some (OList xs) => let '(r, w') := alloc (OList xs) w in (Ok r, w')
  | _ => (Err (TypeError "list"), w)
  end.



(** ** Observing a store *)

Definition data_loc (w : world) (self : loc) : option loc :=
  match heap w !! self with
  | Some (OProfiler d _) => d
  | _ => None
  end.

(** The capacity of the store [self]. *)
Definition capacity (w : world) (self : loc) : option Z :=
  match heap w !! self with
  | Some (OProfiler _ c) => c
  | _ => None
  end.

Definition list_at (w : world) (r : loc) : option (list loc) :=
  match heap w !! r with
  | Some (OList l) => Some l
  | _ => None
  end.

Definition dict_at (w : world) (r : loc) : option (gmap string pyval) :=
  match heap w !! r with
  | Some (ODict d) => Some d
  | _ => None
  end.

(** The entries of the store [self], oldest first: references to the
    recorded dictionaries. *)
Definition entries (w : world) (self : loc) : option (list loc) :=
  match data_loc w self with
  | Some d => list_at w d
  | None => None
  end.

(** What [_prune_old_data] leaves of the entries [l] under capacity [c]. *)
Definition prune {A : Type} (c : Z) (l : list A) : list A :=
  if c <? Z.of_nat (length l) then slice_from (- c) l else l.

(** The last [n] elements of [l]. *)
Definition lastn {A : Type} (n : nat) (l : list A) : list A :=
  drop (length l - n) l.

(** [p] returns from [w], and its result and final world satisfy [Q]. *)
Definition wp {A : Type} (p : prog A) (Q : A -> world -> Prop) (w : world) : Prop :=
  match run p w with
  | (Returned a, w') => Q a w'
  | _ => False
  end.

(** A store operation took [w] to [w']: the store [self] now has entries
    [l'] and capacity [c'], and nothing else changed. *)
Record updated (w w' : world) (self : loc) (l' : list loc) (c' : Z) : Prop := {
  upd_entries : entries w' self = Some l';
  upd_capacity : capacity w' self = Some c';
  upd_lock : _lock w' = _lock w;
  upd_instance : _instance w' = _instance w;
  upd_length : (length (heap w) <= length (heap w'))%nat;
  upd_frame : forall r, r <> self -> data_loc w self <> Some r ->
                (r < length (heap w))%nat -> heap w' !! r = heap w !! r
}.

(** ** pandas and the CSV writer *)

(** What the Python runtime supplies for [float]: the text written for a
    float ([repr], which pandas' writer agrees with), [float(n)] and
    [round(x, 3)]. *)
Record pyruntime := PyRuntime {
  float_repr : float -> string;
  float_of_int : Z -> float;
  round3 : float -> float
}.

Definition comma : ascii := ","%char.
Definition dquote : ascii := "034"%char.
Definition LF : ascii := "010"%char.
Definition CR : ascii := "013"%char.

Definition str (cs : list ascii) : string := string_of_list_ascii cs.

(** [str(n)] for an [int]. *)
Definition int_repr (z : Z) : string :=
  DecimalString.NilZero.string_of_int (Z.to_int z).

(** The [csv] writer pandas drives, with its defaults: [QUOTE_MINIMAL],
    [doublequote], delimiter [,] and line terminator [\n]. *)
Definition csv_special (c : ascii) : bool :=
  bool_decide (c = comma) || bool_decide (c = dquote)
  || bool_decide (c = LF) || bool_decide (c = CR).

Definition csv_escape (cs : list ascii) : list ascii :=
  flat_map (fun c => if bool_decide (c = dquote) then [dquote; dquote] else [c]) cs.

Definition csv_field (s : string) : string :=
  let cs := list_ascii_of_string s in
  if existsb csv_special cs then str ([dquote] ++ csv_escape cs ++ [dquote])
  else s.

Definition csv_row (cells : list string) : string :=
  String.append (String.concat (str [comma]) (map csv_field cells)) (str [LF]).

(** A [DataFrame]: its column labels in order, and per row the values
    given for some of them. *)
Record DataFrame := Frame {
  columns : list string;
  rows : list (gmap string pyval)
}.

(** [pd.DataFrame(columns=cols)] *)
Definition DataFrame_columns (cols : list string) : DataFrame :=
  Frame cols [].

(** [pd.DataFrame(records)]: the columns are the keys of the records, in
    order of first appearance. *)
Definition DataFrame_records (records : list (gmap string pyval)) : DataFrame :=
  Frame (foldl (fun cols d => cols ++ list_difference (map_to_list d).*1 cols) [] records)
        records.

(** [if col not in df.columns: df[col] = pd.NA] *)
Definition fill_missing (df : DataFrame) (col : string) : DataFrame :=
  if bool_decide (col ∈ columns df) then df
  else Frame (columns df ++ [col]) (rows df).

(** [df[cols]]: the columns [cols], in this order; a label that is not a
    column of [df] raises [KeyError]. *)
Definition select (cols : list string) (df : DataFrame) : result DataFrame :=
  if forallb (fun col => bool_decide (col ∈ columns df)) cols
  then Ok (Frame cols (rows df))
  else Err (OtherException "KeyError").

(** The value of a row in a column; [None] is a missing value (an absent
    key, [None] or a NaN). *)
Definition cell (d : gmap string pyval) (col : string) : option pyval :=
  match d !! col with
  | Some PyNone => None
  | Some (PyFloat f) => if PrimFloat.is_nan f then None else Some (PyFloat f)
  | o => o
  end.

Inductive dtype := DInt | DFloat | DObject.

Definition is_str (c : option pyval) : bool :=
  match c with Some (PyStr _) => true | _ => false end.
Definition is_int (c : option pyval) : bool :=
  match c with Some (PyInt _) => true | _ => false end.
Definition is_float (c : option pyval) : bool :=
  match c with Some (PyFloat _) => true | _ => false end.
Definition is_missing (c : option pyval) : bool :=
  match c with None => true | _ => false end.

(** The type pandas infers for a column: text makes it [object]; a float,
    or an int next to a missing value, makes it [float64]. *)
Definition column_dtype (cs : list (option pyval)) : dtype :=
  if existsb is_str cs then DObject
  else if existsb is_float cs || (existsb is_int cs && existsb is_missing cs)
       then DFloat
  else if existsb is_int cs then DInt
  else DObject.

Definition render_cell (rt : pyruntime) (dt : dtype) (c : option pyval) : string :=
  match c with
  | Some (PyStr s) => s
  | Some (PyInt z) =>
      match dt with
      | DFloat => float_repr rt (float_of_int rt z)
      | _ => int_repr z
      end
  | Some (PyFloat f) => float_repr rt f
  | _ => EmptyString
  end.

(** [df.to_csv(buffer, index=False)]: the header row, then one row per
    record; a missing value is written as an empty field. *)
Definition to_csv (rt : pyruntime) (df : DataFrame) : string :=
  let dt col := column_dtype (map (fun d => cell d col) (rows df)) in
  let row d := csv_row (map (fun col => render_cell rt (dt col) (cell d col)) (columns df)) in
  String.append (csv_row (columns df)) (String.concat EmptyString (map row (rows df))).

Definition desired_columns : list string :=
  ["Timestamp"; "RequestPath"; "HTTPMethod"; "StatusCode";
   "TotalTimeMs"; "CPUTimeMs"]%string.

(** The dictionaries a list object refers to. *)
Definition read_records (l : loc) (w : world)
  : result (list (gmap string pyval)) * world :=
  (match heap w !! l with
   | Some (OList rs) =>
       match mapM (dict_at w) rs with
       | Some ds => Ok ds
       | None => Err (TypeError "DataFrame")
       end
   | _ => Err (TypeError "DataFrame")
   end, w).

(** ** class FastAPIProfiler *)

Module FastAPIProfiler.

(** [__new__]: the double-checked creation of the singleton.  The call
    returns [cls._instance], whatever it holds. *)
Definition __new__ : prog (option loc) :=
  i <- Atomic get_instance Ret ;;
  match i with
  | None =>
      with_lock (
        i' <- Atomic get_instance Ret ;;
        match i' with
        | None =>
            o <- Atomic (alloc (OProfiler None None)) Ret ;;
            Atomic (set_instance o) Ret ;;
            l <- Atomic (alloc (OList [])) Ret ;;
            inst <- Atomic get_instance Ret ;;
            match inst with
            | Some s => prim (setattr_profiled_requests_data s l)
            | None => Raise (AttributeError "profiled_requests_data")
            end ;;
            inst' <- Atomic get_instance Ret ;;
            match inst' with
            | Some s => prim (setattr_max_retained_requests s 1000)
            | None => Raise (AttributeError "max_retained_requests")
            end
        | Some _ => Ret tt
        end)
  | Some _ => Ret tt
  end ;;
  Atomic get_instance Ret.

Definition _prune_old_data (self : loc) : prog unit :=
  d <- prim (getattr_profiled_requests_data self) ;;
  n <- prim (list_len d) ;;
  c <- prim (getattr_max_retained_requests self) ;;
  if c <? n then
    d' <- prim (getattr_profiled_requests_data self) ;;
    c' <- prim (getattr_max_retained_requests self) ;;
    s <- prim (list_slice_from d' (- c')) ;;
    prim (setattr_profiled_requests_data self s)
  else Ret tt.

Definition configure (self : loc) (max_retained_requests : Z) : prog unit :=
  if max_retained_requests <? 1 then
    Raise (ValueError "max_retained_requests must be at least 1.")
  else
    prim (setattr_max_retained_requests self max_retained_requests) ;;
    _prune_old_data self.

Definition add_profile_data (self data : loc) : prog unit :=
  with_lock (
    d <- prim (getattr_profiled_requests_data self) ;;
    prim (list_append d data) ;;
    _prune_old_data self).

Definition get_profile_data (self : loc) : prog loc :=
  with_lock (
    d <- prim (getattr_profiled_requests_data self) ;;
    prim (list_copy d)).

Definition clear_data (self : loc) : prog unit :=
  with_lock (
    l <- Atomic (alloc (OList [])) Ret ;;
    prim (setattr_profiled_requests_data self l)).

(** [export_to_csv]: the text of the returned [StringIO]. *)
Definition export_to_csv (rt : pyruntime) (self : loc) : prog string :=
  data_to_export <- FastAPIProfiler.get_profile_data self ;;
  n <- prim (list_len data_to_export) ;;
  if n =? 0 then
    Ret (to_csv rt (DataFrame_columns desired_columns))
  else
    records <- prim (read_records data_to_export) ;;
    let df := DataFrame_records records in
    let df := foldl fill_missing df desired_columns in
    match select desired_columns df with
    | Ok df => Ret (to_csv rt df)
    | Err e => Raise e
    end.

End FastAPIProfiler.

(** ** class ProfilerMiddleware *)

Record Request := MkRequest {
  url_path : string;
  method : string;
  query_params : gmap string string
}.

Record Response := MkResponse {
  body : string;
  status_code : Z
}.

(** What the clocks and pyinstrument report while one request is handled:
    the two readings of [time.perf_counter()], the text of
    [time.strftime("%Y-%m-%d %H:%M:%S", time.localtime())], whether
    [pyinstrument] could be imported, and [profile_json.get("cpu_time", 0)]
    (or the exception raised while reading the profile). *)
Record probe := MkProbe {
  start_time : float;
  end_time : float;
  strftime_localtime : string;
  Profiler : bool;
  cpu_time : result float
}.

(** [s.lower()]: the letters A to Z are lowered, every other character
    is left as it is (no character outside ASCII lowers to a letter of
    [true] or [false]). *)
Definition lower_ascii (c : ascii) : ascii :=
  let n := nat_of_ascii c in
  if ((65 <=? n) && (n <=? 90))%nat then ascii_of_nat (n + 32) else c.

Definition lower (s : string) : string :=
  str (map lower_ascii (list_ascii_of_string s)).

(** [x is None] *)
Definition is_None {A : Type} (x : option A) : bool :=
  match x with
  | None => true
  | Some _ => false
  end.

(** How a block of statements ends. *)
Inductive signal (R : Type) :=
| Normal
| Return (r : R)
| Raising (e : exn).
Arguments Normal {R}.
Arguments Return {R} r.
Arguments Raising {R} e.

(** A statement of a function body with local variables [L] and return
    type [R].  It never raises at the level of [prog]: an exception is the
    signal [Raising], next to the locals at the point of the raise. *)
Definition stmt (L R : Type) := L -> prog (L * signal R).

Section Statements.
Context {L R : Type}.

(** [x = f(...)], or a call for its effect: [set] stores the result. *)
Definition call {B : Type} (f : L -> prog B) (set : B -> L -> L) : stmt L R :=
  fun l =>
    r <- catch (f l) ;;
    match r with
    | Ok b => Ret (set b l, Normal)
    | Err e => Ret (l, Raising e)
    end.

Definition assign (set : L -> L) : stmt L R :=
  fun l => Ret (set l, Normal).

Definition raise (e : exn) : stmt L R :=
  fun l => Ret (l, Raising e).

Definition return_ (v : L -> R) : stmt L R :=
  fun l => Ret (l, Return (v l)).

Definition skip : stmt L R :=
  fun l => Ret (l, Normal).

Definition seq_stmt (s1 s2 : stmt L R) : stmt L R :=
  fun l =>
    r <- s1 l ;;
    match snd r with
    | Normal => s2 (fst r)
    | _ => Ret r
    end.

Definition if_ (c : L -> bool) (s1 s2 : stmt L R) : stmt L R :=
  fun l => if c l then s1 l else s2 l.

(** [try: body except Exception as e: handler e] *)
Definition try_except_Exception (body : stmt L R) (handler : exn -> stmt L R)
  : stmt L R :=
  fun l =>
    r <- body l ;;
    match snd r with
    | Raising e => if is_Exception e then handler e (fst r) else Ret r
    | _ => Ret r
    end.

(** [try: body finally: fin].  When [fin] itself returns or raises, that
    is how the statement ends, and what [body] was doing (a return or an
    exception in flight) is discarded. *)
Definition try_finally_stmt (body fin : stmt L R) : stmt L R :=
  fun l =>
    r <- body l ;;
    r' <- fin (fst r) ;;
    match snd r' with
    | Normal => Ret (fst r', snd r)
    | _ => Ret r'
    end.

(** A function with body [s]: falling off the end returns [none], the
    value [None]. *)
Definition def (none : R) (s : stmt L R) (l0 : L) : prog R :=
  r <- s l0 ;;
  match snd r with
  | Normal => Ret none
  | Return v => Ret v
  | Raising e => Raise e
  end.

End Statements.

Module ProfilerMiddleware.

Record t := Mk {
  enable_by_default : bool;
  profile_query_param : string
}.

(** [__init__]: configures the global [profiler_instance]. *)
Definition __init__ (profiler_instance : loc) (enable_by_default : bool)
    (profile_query_param : string) (max_retained_requests : Z) : prog t :=
  FastAPIProfiler.configure profiler_instance max_retained_requests ;;
  Ret (Mk enable_by_default profile_query_param).

Definition is_enabled_by_env (environ : gmap string string) : bool :=
  bool_decide
    (lower (default "false"%string (environ !! "FASTAPI_SIMPLE_PROFILER_ENABLED"%string))
     = "true"%string).

Definition query_param_value (self : t) (request : Request) : string :=
  lower (default EmptyString (query_params request !! profile_query_param self)).

Definition is_enabled_by_query (self : t) (request : Request) : bool :=
  bool_decide (query_param_value self request = "true"%string).

Definition is_disabled_by_query (self : t) (request : Request) : bool :=
  bool_decide (query_param_value self request = "false"%string).

Definition profile_active (self : t) (environ : gmap string string)
    (request : Request) : bool :=
  (enable_by_default self && negb (is_disabled_by_query self request))
  || (negb (enable_by_default self)
      && (is_enabled_by_query self request || is_enabled_by_env environ)).

(** The local variables of [dispatch] that change while it runs;
    [profiler] is whether a pyinstrument profiler was started. *)
Record locals := Locals {
  profiler : bool;
  response : option Response;
  cpu_time_ms : float
}.

Definition set_response (r : Response) (l : locals) : locals :=
  Locals (profiler l) (Some r) (cpu_time_ms l).
Definition set_cpu_time_ms (f : float) (l : locals) : locals :=
  Locals (profiler l) (response l) f.

(** The dictionary built at the end of [dispatch]; reading
    [response.status_code] fails when [response] is [None]. *)
Definition profile_data (rt : pyruntime) (pr : probe) (request : Request)
    (l : locals) : result (gmap string pyval) :=
  match response l with
  | None => Err (AttributeError "status_code")
  | Some r =>
      let total_time_ms := ((end_time pr - start_time pr) * 1000)%float in
      Ok (<["Timestamp"%string := PyStr (strftime_localtime pr)]>
         (<["RequestPath"%string := PyStr (url_path request)]>
         (<["HTTPMethod"%string := PyStr (method request)]>
         (<["StatusCode"%string := PyInt (status_code r)]>
         (<["TotalTimeMs"%string := PyFloat (round3 rt total_time_ms)]>
         (<["CPUTimeMs"%string := PyFloat (cpu_time_ms l)]> ∅))))))
  end.

Definition record_profile_data (rt : pyruntime) (pr : probe)
    (profiler_instance : loc) (request : Request) (l : locals) : prog unit :=
  match profile_data rt pr request l with
  | Err e => Raise e
  | Ok d =>
      r <- Atomic (alloc (ODict d)) Ret ;;
      FastAPIProfiler.add_profile_data profiler_instance r
  end.

Definition dispatch (rt : pyruntime) (environ : gmap string string) (pr : probe)
    (profiler_instance : loc) (self : t) (request : Request)
    (call_next : Request -> prog Response) : prog (option Response) :=
  let active := profile_active self environ request in
  def None
    (try_finally_stmt
       (try_except_Exception
          (call (fun _ => call_next request) set_response)
          (fun e =>
             seq_stmt (if_ (fun l => is_None (response l))
                      (assign (set_response (MkResponse "Internal Server Error" 500)))
                      skip)
                 (raise e)))
       (seq_stmt (if_ profiler
                 (match cpu_time pr with
                  | Ok c => assign (set_cpu_time_ms (round3 rt (c * 1000)%float))
                  | Err e => if is_Exception e then skip else raise e
                  end)
                 skip)
       (seq_stmt (call (record_profile_data rt pr profiler_instance request)
                  (fun _ l => l))
            (return_ response))))
    (Locals (active && Profiler pr) None 0%float).

End ProfilerMiddleware.

(** ** Threads *)

(** One atomic step of a thread; [None] when it has finished or waits for
    the lock. *)
Definition tstep {A : Type} (p : prog A) (w : world) : option (prog A * world) :=
  match p with
  | Ret _ | Raise _ => None
  | Atomic op k => let '(b, w') := op w in Some (k b, w')
  | Acquire k => if _lock w then None else Some (k, set_lock true w)
  end.

Definition finished {A : Type} (p : prog A) : bool :=
  match p with
  | Ret _ | Raise _ => true
  | _ => false
  end.

(** The shared world and the threads' remaining programs. *)
Definition config (A : Type) : Type := world * list (prog A).

(** Thread [i] takes a step. *)
Definition sched_step {A : Type} (i : nat) (c : config A) : option (config A) :=
  match snd c !! i with
  | None => None
  | Some p =>
      match tstep p (fst c) with
      | None => None
      | Some (p', w') => Some (w', <[i := p']> (snd c))
      end
  end.

(** A schedule names the thread that moves at each step. *)
Fixpoint run_schedule {A : Type} (s : list nat) (c : config A) : option (config A) :=
  match s with
  | [] => Some c
  | i :: s' =>
      match sched_step i c with
      | None => None
      | Some c' => run_schedule s' c'
      end
  end.

(** The dictionaries behind the entries of the store [self]. *)
Definition contents (w : world) (self : loc) : option (list (gmap string pyval)) :=
  match entries w self with
  | Some l => mapM (dict_at w) l
  | None => None
  end.

(** ** Callers of the store *)

(** [for x in xs: profiler.add_profile_data(x)] *)
Fixpoint record_all (self : loc) (xs : list loc) : prog unit :=
  match xs with
  | [] => Ret tt
  | x :: xs' => FastAPIProfiler.add_profile_data self x ;; record_all self xs'
  end.

(** The calls that change a store. *)
Inductive op :=
| Configure (n : Z)
| Record (x : loc)
| Clear.

Definition call_op (self : loc) (o : op) : prog unit :=
  match o with
  | Configure n => FastAPIProfiler.configure self n
  | Record x => FastAPIProfiler.add_profile_data self x
  | Clear => FastAPIProfiler.clear_data self
  end.

(** A caller that makes the calls [os] one after the other and carries on
    after a call that raised. *)
Definition run_ops (self : loc) (os : list op) (w : world) : world :=
  foldl (fun w o => snd (run (call_op self o) w)) w os.

(** What a caller can do to the list [get_profile_data] gave it:
    [snap.append(x)], [snap[i] = x], [snap.pop()], [snap.clear()],
    [snap.reverse()], and, through the list, to an entry: [snap[i][k] = v]
    and [snap[i].clear()]. *)
Inductive mutation :=
| ListAppend (x : loc)
| ListSetItem (i : nat) (x : loc)
| ListPop
| ListClear
| ListReverse
| EntrySetItem (i : nat) (k : string) (v : pyval)
| EntryClear (i : nat).

Definition touches_list_only (m : mutation) : bool :=
  match m with
  | EntrySetItem _ _ _ | EntryClear _ => false
  | _ => true
  end.

Definition list_update (snap : loc) (f : list loc -> result (list loc)) (w : world)
  : result unit * world :=
  match heap w !! snap with
  | Some (OList xs) =>
      match f xs with
      | Ok xs' => (Ok tt, set_heap (<[snap := OList xs']> (heap w)) w)
      | Err e => (Err e, w)
      end
  | _ => (Err (TypeError "list"), w)
  end.

Definition list_getitem (snap : loc) (i : nat) (w : world) : result loc * world :=
  (match heap w !! snap with
   | Some (OList xs) =>
       match xs !! i with
       | Some r => Ok r
       | None => Err (OtherException "IndexError")
       end
   | _ => Err (TypeError "list")
   end, w).

Definition dict_update (r : loc) (f : gmap string pyval -> gmap string pyval)
    (w : world) : result unit * world :=
  match heap w !! r with
  | Some (ODict d) => (Ok tt, set_heap (<[r := ODict (f d)]> (heap w)) w)
  | _ => (Err (TypeError "dict"), w)
  end.

Definition mutate (snap : loc) (m : mutation) : prog unit :=
  match m with
  | ListAppend x => prim (list_update snap (fun xs => Ok (xs ++ [x])))
  | ListSetItem i x =>
      prim (list_update snap (fun xs =>
              if bool_decide (i < length xs)%nat then Ok (<[i := x]> xs)
              else Err (OtherException "IndexError")))
  | ListPop =>
      prim (list_update snap (fun xs =>
              match xs with
              | [] => Err (OtherException "IndexError")
              | _ => Ok (removelast xs)
              end))
  | ListClear => prim (list_update snap (fun _ => Ok []))
  | ListReverse => prim (list_update snap (fun xs => Ok (reverse xs)))
  | EntrySetItem i k v =>
      r <- prim (list_getitem snap i) ;;
      prim (dict_update r (fun d => <[k := v]> d))
  | EntryClear i =>
      r <- prim (list_getitem snap i) ;;
      prim (dict_update r (fun _ => ∅))
  end.

(** The store is in order: it has entries and a capacity of at least one,
    no more entries than that, and nobody holds the lock. *)
Definition store_ok (w : world) (self : loc) : Prop :=
  exists l c, entries w self = Some l /\ capacity w self = Some c
              /\ 1 <= c /\ Z.of_nat (length l) <= c /\ _lock w = false.

(** The header row of the export. *)
Definition header_line : string :=
  String.append "Timestamp,RequestPath,HTTPMethod,StatusCode,TotalTimeMs,CPUTimeMs"
                (str [LF]).

(** The text of a value of an entry written on its own; nothing for a
    missing one. *)
Definition field_text (rt : pyruntime) (o : option pyval) : string :=
  match o with
  | Some (PyStr s) => s
  | Some (PyInt z) => int_repr z
  | Some (PyFloat f) => if PrimFloat.is_nan f then EmptyString else float_repr rt f
  | _ => EmptyString
  end.

(** ** Examples *)

(** A store of capacity [c] at reference 0 whose entries are the
    dictionaries [ds], at the references 2, 3, ... *)
Definition example_store_of (c : Z) (ds : list (gmap string pyval)) : world :=
  World ([OProfiler (Some 1%nat) (Some c); OList (seq 2 (length ds))] ++ map ODict ds)
        (Some 0%nat) false.

Definition example_store (c : Z) (n : nat) : world :=
  example_store_of c (replicate n ∅).

Definition example_entry : gmap string pyval :=
  <["Timestamp"%string := PyStr "2025-01-01 12:00:00"]>
  (<["RequestPath"%string := PyStr "/items/1"]>
  (<["HTTPMethod"%string := PyStr "GET"]>
  (<["StatusCode"%string := PyInt 200]>
  (<["TotalTimeMs"%string := PyFloat 12.5%float]>
  (<["CPUTimeMs"%string := PyFloat 0%float]> ∅))))).

Definition example_runtime : pyruntime :=
  PyRuntime (fun f => if (f =? 12.5)%float then "12.5"%string else "0.0"%string)
            (fun _ => 0%float) (fun f => f).

Definition example_request : Request :=
  MkRequest "/items/1" "GET" ∅.

Definition example_probe : probe :=
  MkProbe 1%float 1.5%float "2025-01-01 12:00:00" true (Ok 0%float).

(** Two threads on the store [example_store 1000 2]: one calls
    [configure(1)], the other [add_profile_data] with the entry 9. *)
Definition race_threads : list (prog unit) :=
  [FastAPIProfiler.configure 0%nat 1; FastAPIProfiler.add_profile_data 0%nat 9%nat].

(** ** Threads that record *)

(** The thread that holds the lock keeps it up to its last step, which
    ends its call in the world [wf]. *)
Inductive holds_until_done : prog unit -> world -> world -> Prop :=
| hud_last (p : prog unit) (w wf : world) :
    tstep p w = Some (Ret tt, wf) ->
    holds_until_done p w wf
| hud_step (p p' : prog unit) (w w' wf : world) :
    tstep p w = Some (p', w') ->
    _lock w' = true ->
    holds_until_done p' w' wf ->
    holds_until_done p w wf.

(** A thread that records [x]: not started, or done. *)
Definition recorder (self : loc) (xb : loc * bool) : prog unit :=
  if snd xb then Ret tt else FastAPIProfiler.add_profile_data self (fst xb).

(** The entries of the threads that are done. *)
Definition recorded (st : list (loc * bool)) : list loc :=
  flat_map (fun xb : loc * bool => if snd xb then [fst xb] else []) st.

(** A thread that was started to record [x] is inside its call: it has
    taken its first step and has not returned. *)
Definition in_call (self x : loc) (p : prog unit) : Prop :=
  p <> FastAPIProfiler.add_profile_data self x /\ finished p = false.

(** No thread is inside [add_profile_data]: the lock is free and the
    store holds what remains of the entries of the threads that are
    done, recorded one after the other in some order. *)
Definition quiet (self : loc) (c : Z) (st : list (loc * bool)) (w : world) : Prop :=
  _lock w = false
  /\ exists d order,
       heap w !! self = Some (OProfiler (Some d) (Some c))
       /\ heap w !! d = Some (OList (lastn (Z.to_nat c) order))
       /\ order ≡ₚ recorded st.

(** The threads [st] are between calls, or one of them is inside
    [add_profile_data] and on its way to a world where they are. *)
Definition recording (self : loc) (c : Z) (st : list (loc * bool))
    (cf : config unit) : Prop :=
  (quiet self c st (fst cf) /\ snd cf = map (recorder self) st)
  \/ (exists i x p wf,
        st !! i = Some (x, false)
        /\ _lock (fst cf) = true
        /\ snd cf = <[i := p]> (map (recorder self) st)
        /\ holds_until_done p (fst cf) wf
        /\ quiet self c (<[i := (x, true)]> st) wf).

(** ** The claim of snapshot isolation *)

(** After the caller has applied [m] to a snapshot, the store holds what
    it held before. *)
Definition snapshot_isolated (m : mutation) : Prop :=
  forall (w : world) (self : loc) (ds : list (gmap string pyval)) (c : Z),
    _lock w = false ->
    contents w self = Some ds ->
    capacity w self = Some c ->
    forall r w1 o w2,
      run (FastAPIProfiler.get_profile_data self) w = (Returned r, w1) ->
      run (mutate r m) w1 = (o, w2) ->
      contents w2 self = Some ds.

(** ** main.py: the handlers that use the store *)

Module Main.

(** [startup_event] *)
Definition startup_event (profiler_instance : loc) : prog unit :=
  FastAPIProfiler.clear_data profiler_instance.

(** [clear_profiler_data]: the dictionary the handler returns. *)
Definition clear_profiler_data (profiler_instance : loc)
  : prog (gmap string string) :=
  FastAPIProfiler.clear_data profiler_instance ;;
  Ret (<["message"%string := "Profiler data cleared."%string]> ∅).

(** A [StreamingResponse] over a buffer: the text it will send, its media
    type and its headers. *)
Record StreamingResponse := MkStreamingResponse {
  content : string;
  media_type : string;
  headers : gmap string string
}.

(** [get_profiler_metrics_csv] *)
Definition get_profiler_metrics_csv (rt : pyruntime) (profiler_instance : loc)
  : prog StreamingResponse :=
  csv_buffer <- FastAPIProfiler.export_to_csv rt profiler_instance ;;
  Ret (MkStreamingResponse csv_buffer "text/csv"
         (<["Content-Disposition"%string
            := "attachment; filename=fastapi_profile_metrics.csv"%string]> ∅)).

End Main.

(** ** Threads that create the instance *)

(** Where a thread that calls [FastAPIProfiler()] is, outside the lock:
    it has not started; it found no instance and waits for the lock; it
    is about to read [cls._instance] for its result; it has returned. *)
Inductive caller_state := Fresh | Waiting | Reading | Done.

(** What is left of [__new__] once the first check has found no
    instance, and once the lock is taken. *)
Definition new_waiting : prog (option loc) :=
  match tstep FastAPIProfiler.__new__ (World [] None false) with
  | Some (p, _) => p
  | None => FastAPIProfiler.__new__
  end.

Definition new_in_lock : prog (option loc) :=
  match tstep new_waiting (World [] None false) with
  | Some (p, _) => p
  | None => new_waiting
  end.

Definition caller (o : loc) (s : caller_state) : prog (option loc) :=
  match s with
  | Fresh => FastAPIProfiler.__new__
  | Waiting => new_waiting
  | Reading => Atomic get_instance Ret
  | Done => Ret (Some o)
  end.

Definition early (s : caller_state) : bool :=
  match s with
  | Fresh | Waiting => true
  | Reading | Done => false
  end.

(** The instance [o] is in place, with both attributes set. *)
Definition created (o : loc) (w : world) : Prop :=
  _instance w = Some o /\ entries w o = Some [] /\ capacity w o = Some 1000.

(** The thread inside [with cls._lock] keeps the lock up to the step that
    releases it, in the world [wf]; the final read is what is left then.
    Until [cls._instance] is assigned there is no instance, and from then
    on it is [o]. *)
Inductive holds_until_released (o : loc)
  : prog (option loc) -> world -> world -> Prop :=
| hur_last (p : prog (option loc)) (w wf : world) :
    tstep p w = Some (Atomic get_instance Ret, wf) ->
    holds_until_released o p w wf
| hur_step (p p' : prog (option loc)) (w w' wf : world) :
    tstep p w = Some (p', w') ->
    _lock w' = true ->
    (_instance w = None /\ _instance w' = None) \/ _instance w' = Some o ->
    holds_until_released o p' w' wf ->
    holds_until_released o p w wf.

(** The threads [st] call [FastAPIProfiler()]: the lock is free, and
    there is no instance yet or [o] is in place; or one thread is inside
    the lock, on its way to a world where [o] is in place. *)
Definition calling (o : loc) (st : list caller_state)
    (cf : config (option loc)) : Prop :=
  (_lock (fst cf) = false
   /\ snd cf = map (caller o) st
   /\ ((_instance (fst cf) = None /\ length (heap (fst cf)) = o
        /\ Forall (fun s => early s = true) st)
       \/ created o (fst cf)))
  \/ (exists i p wf,
        st !! i = Some Waiting
        /\ _lock (fst cf) = true
        /\ snd cf = <[i := p]> (map (caller o) st)
        /\ holds_until_released o p (fst cf) wf
        /\ _lock wf = false
        /\ created o wf
        /\ ((_instance (fst cf) = None /\ Forall (fun s => early s = true) st)
            \/ _instance (fst cf) = Some o)).

(** ** Requests, one after the other *)

(** The middleware handles the requests [rs] in turn; for each, [rs] gives
    what the clocks report, the request and the response its handler
    returns. *)
Fixpoint serve_all (rt : pyruntime) (environ : gmap string string) (inst : loc)
    (self : ProfilerMiddleware.t) (rs : list (probe * Request * Response))
  : prog unit :=
  match rs with
  | [] => Ret tt
  | (pr, rq, resp) :: rs' =>
      ProfilerMiddleware.dispatch rt environ pr inst self rq (fun _ => Ret resp) ;;
      serve_all rt environ inst self rs'
  end.

(** The path an entry was recorded for. *)
Definition entry_path (d : gmap string pyval) : option pyval :=
  d !! "RequestPath"%string.

Definition served_path (r : probe * Request * Response) : option pyval :=
  Some (PyStr (url_path (snd (fst r)))).

(** ** Programs that do not wait *)

(** [p] never tries to take the lock. *)
Inductive no_acquire {A : Type} : prog A -> Prop :=
| na_ret (a : A) : no_acquire (Ret a)
| na_raise (e : exn) : no_acquire (Raise e)
| na_atomic {B : Type} (op : world -> B * world) (k : B -> prog A) :
    (forall b, no_acquire (k b)) -> no_acquire (Atomic op k).

(** The value [dispatch] stores under [CPUTimeMs]: the profile's CPU time
    in milliseconds when a profiler ran and its output could be read,
    [0.0] otherwise. *)
Definition recorded_cpu_time_ms (rt : pyruntime) (pr : probe) (active : bool) : float :=
  if active && Profiler pr then
    match cpu_time pr with
    | Ok c => round3 rt (c * 1000)%float
    | Err _ => 0%float
    end
  else 0%float.

(** Two entries that agree on the six exported columns. *)
Definition same_columns (d d' : gmap string pyval) : Prop :=
  forall col, In col desired_columns -> d !! col = d' !! col.

(** * Proofs *)

(** ** Running programs *)

Lemma run_bind {A B : Type} (p : prog A) (f : A -> prog B) (w : world) :
  run (bind p f) w =
  match run p w with
  | (Returned a, w') => run (f a) w'
  | (Raised e, w') => (Raised e, w')
  | (Blocked, w') => (Blocked, w')
  end.
Proof.
  revert w. induction p as [a|e|C op k IH|k IH]; intros w; simpl; try reflexivity.
  - destruct (op w) as [b w']. apply IH.
  - destruct (_lock w); [reflexivity | apply IH].
Qed.

Lemma run_try_finally_release {A : Type} (p : prog A) (w : world) :
  run (try_finally p release) w =
  match run p w with
  | (Blocked, w') => (Blocked, w')
  | (r, w') => (r, set_lock false w')
  end.
Proof.
  revert w. induction p as [a|e|C op k IH|k IH]; intros w; simpl; try reflexivity.
  - destruct (op w) as [b w']. apply IH.
  - destruct (_lock w); [reflexivity | apply IH].
Qed.

Lemma wp_run {A : Type} (p : prog A) (Q : A -> world -> Prop) (w : world) :
  wp p Q w <-> exists a w', run p w = (Returned a, w') /\ Q a w'.
Proof.
  unfold wp. destruct (run p w) as [[a| |] w']; split.
  - intros H. exists a, w'. split; [reflexivity | exact H].
  - intros (a' & w'' & Heq & H). congruence.
  - intros [].
  - intros (a' & w'' & Heq & H). discriminate.
  - intros [].
  - intros (a' & w'' & Heq & H). discriminate.
Qed.

Lemma wp_mono {A : Type} (p : prog A) (Q Q' : A -> world -> Prop) (w : world) :
  (forall a w', Q a w' -> Q' a w') -> wp p Q w -> wp p Q' w.
Proof.
  unfold wp. intros HQ. destruct (run p w) as [[a| |] w']; auto.
Qed.

Lemma wp_ret {A : Type} (a : A) (Q : A -> world -> Prop) (w : world) :
  Q a w -> wp (Ret a) Q w.
Proof. intros H. exact H. Qed.

Lemma wp_bind {A B : Type} (p : prog A) (f : A -> prog B)
    (Q : B -> world -> Prop) (w : world) :
  wp p (fun a w' => wp (f a) Q w') w -> wp (bind p f) Q w.
Proof.
  unfold wp. rewrite run_bind. destruct (run p w) as [[a| |] w']; auto.
Qed.

Lemma wp_atomic {A B : Type} (op : world -> B * world) (k : B -> prog A)
    (Q : A -> world -> Prop) (w : world) :
  wp (k (fst (op w))) Q (snd (op w)) -> wp (Atomic op k) Q w.
Proof. unfold wp. simpl. destruct (op w) as [b w']. auto. Qed.

Lemma wp_prim {B : Type} (op : world -> result B * world) (b : B)
    (Q : B -> world -> Prop) (w w' : world) :
  op w = (Ok b, w') -> Q b w' -> wp (prim op) Q w.
Proof. intros Hop HQ. unfold wp, prim. simpl. rewrite Hop. exact HQ. Qed.

Lemma wp_with_lock {A : Type} (body : prog A) (Q : A -> world -> Prop) (w : world) :
  _lock w = false ->
  wp body (fun a w' => Q a (set_lock false w')) (set_lock true w) ->
  wp (with_lock body) Q w.
Proof.
  intros Hl. unfold wp, with_lock. simpl. rewrite Hl.
  rewrite run_try_finally_release.
  destruct (run body (set_lock true w)) as [[a| |] w']; auto.
Qed.

(** ** The store operations, one at a time *)

Lemma store_locs_differ (w : world) (self d : loc) (od : option loc)
    (oc : option Z) (l : list loc) :
  heap w !! self = Some (OProfiler od oc) ->
  heap w !! d = Some (OList l) ->
  self <> d.
Proof. intros Hs Hd ->. rewrite Hs in Hd. discriminate. Qed.

Lemma entries_intro (w : world) (self d : loc) (oc : option Z) (l : list loc) :
  heap w !! self = Some (OProfiler (Some d) oc) ->
  heap w !! d = Some (OList l) ->
  entries w self = Some l.
Proof.
  intros Hs Hd. unfold entries, data_loc, list_at. rewrite Hs, Hd. reflexivity.
Qed.

Lemma store_inv (w : world) (self : loc) (l : list loc) (c : Z) :
  entries w self = Some l ->
  capacity w self = Some c ->
  exists d, heap w !! self = Some (OProfiler (Some d) (Some c))
            /\ heap w !! d = Some (OList l).
Proof.
  unfold entries, capacity, data_loc, list_at.
  destruct (heap w !! self) as [[?|?|[d|] [c'|]]|]; try discriminate.
  intros Hl [= ->]. exists d. split; [reflexivity|].
  destruct (heap w !! d) as [[?|l'|]|]; try discriminate.
  congruence.
Qed.

Lemma updated_refl (w : world) (self : loc) (l : list loc) (c : Z) :
  entries w self = Some l -> capacity w self = Some c ->
  updated w w self l c.
Proof. intros He Hc. split; auto. Qed.

Lemma wp_prune (w : world) (self d : loc) (l : list loc) (c : Z) :
  heap w !! self = Some (OProfiler (Some d) (Some c)) ->
  heap w !! d = Some (OList l) ->
  wp (FastAPIProfiler._prune_old_data self)
     (fun _ w' => updated w w' self (prune c l) c) w.
Proof.
  intros Hs Hd. unfold FastAPIProfiler._prune_old_data, prune.
  assert (Hlt : (self < length (heap w))%nat) by (eapply lookup_lt_Some; eauto).
  assert (Hne : self <> d) by (eapply store_locs_differ; eauto).
  apply wp_bind. eapply wp_prim.
  { unfold getattr_profiled_requests_data. rewrite Hs. reflexivity. }
  apply wp_bind. eapply wp_prim.
  { unfold list_len. rewrite Hd. reflexivity. }
  apply wp_bind. eapply wp_prim.
  { unfold getattr_max_retained_requests. rewrite Hs. reflexivity. }
  destruct (c <? Z.of_nat (length l)) eqn:Hc.
  - apply wp_bind. eapply wp_prim.
    { unfold getattr_profiled_requests_data. rewrite Hs. reflexivity. }
    apply wp_bind. eapply wp_prim.
    { unfold getattr_max_retained_requests. rewrite Hs. reflexivity. }
    apply wp_bind. eapply wp_prim.
    { unfold list_slice_from. rewrite Hd. reflexivity. }
    eapply wp_prim.
    { unfold setattr_profiled_requests_data. simpl.
      rewrite lookup_app_l by exact Hlt. rewrite Hs. reflexivity. }
    assert (Hlt' : (self < length (heap w ++ [OList (slice_from (- c) l)]))%nat)
      by (rewrite length_app; lia).
    split; simpl.
    + eapply entries_intro; simpl.
      * apply list_lookup_insert_eq. exact Hlt'.
      * rewrite list_lookup_insert_ne by lia.
        rewrite lookup_app_r by lia. rewrite Nat.sub_diag. reflexivity.
    + unfold capacity. simpl. rewrite list_lookup_insert_eq by exact Hlt'.
      reflexivity.
    + reflexivity.
    + reflexivity.
    + rewrite length_insert, length_app. lia.
    + intros r Hr _ Hrl. rewrite list_lookup_insert_ne by congruence.
      apply lookup_app_l. exact Hrl.
  - apply wp_ret. apply updated_refl.
    + eapply entries_intro; eauto.
    + unfold capacity. rewrite Hs. reflexivity.
Qed.

Lemma wp_add_profile_data (w : world) (self x : loc) (l : list loc) (c : Z) :
  _lock w = false ->
  entries w self = Some l ->
  capacity w self = Some c ->
  wp (FastAPIProfiler.add_profile_data self x)
     (fun _ w' => updated w w' self (prune c (l ++ [x])) c) w.
Proof.
  intros Hl He Hc. destruct (store_inv _ _ _ _ He Hc) as (d & Hs & Hd).
  assert (Hne : self <> d) by (eapply store_locs_differ; eauto).
  assert (Hdl : (d < length (heap w))%nat) by (eapply lookup_lt_Some; eauto).
  unfold FastAPIProfiler.add_profile_data.
  apply wp_with_lock; [exact Hl|].
  apply wp_bind. eapply wp_prim.
  { unfold getattr_profiled_requests_data. simpl. rewrite Hs. reflexivity. }
  apply wp_bind. eapply wp_prim.
  { unfold list_append. simpl. rewrite Hd. reflexivity. }
  eapply wp_mono; [| eapply (wp_prune _ self d (l ++ [x]) c)].
  - intros _ w' [H1 H2 H3 H4 H5 H6]. simpl in *.
    rewrite length_insert in *.
    split; simpl; auto.
    intros r Hr Hrd Hrl.
    rewrite H6; auto.
    + apply list_lookup_insert_ne. intros ->. apply Hrd.
      unfold data_loc. rewrite Hs. reflexivity.
    + unfold data_loc. simpl. rewrite list_lookup_insert_ne by congruence.
      rewrite Hs. intros [= ->]. apply Hrd. unfold data_loc. rewrite Hs. reflexivity.
  - simpl. rewrite list_lookup_insert_ne by congruence. exact Hs.
  - simpl. apply list_lookup_insert_eq. exact Hdl.
Qed.

Lemma wp_configure (w : world) (self : loc) (n : Z) (l : list loc) (c : Z) :
  1 <= n ->
  entries w self = Some l ->
  capacity w self = Some c ->
  wp (FastAPIProfiler.configure self n)
     (fun _ w' => updated w w' self (prune n l) n) w.
Proof.
  intros Hn He Hc. destruct (store_inv _ _ _ _ He Hc) as (d & Hs & Hd).
  assert (Hne : self <> d) by (eapply store_locs_differ; eauto).
  assert (Hsl : (self < length (heap w))%nat) by (eapply lookup_lt_Some; eauto).
  unfold FastAPIProfiler.configure.
  destruct (n <? 1) eqn:Hlt; [apply Z.ltb_lt in Hlt; lia|].
  apply wp_bind. eapply wp_prim.
  { unfold setattr_max_retained_requests. rewrite Hs. reflexivity. }
  eapply wp_mono; [| eapply (wp_prune _ self d l n)].
  - intros _ w' [H1 H2 H3 H4 H5 H6]. simpl in *.
    rewrite length_insert in *.
    split; simpl; auto.
    intros r Hr Hrd Hrl.
    rewrite H6; auto.
    + apply list_lookup_insert_ne. congruence.
    + unfold data_loc in *. simpl. rewrite list_lookup_insert_eq by exact Hsl.
      rewrite Hs in Hrd. exact Hrd.
  - simpl. apply list_lookup_insert_eq. exact Hsl.
  - simpl. rewrite list_lookup_insert_ne by congruence. exact Hd.
Qed.

Lemma run_configure_invalid (w : world) (self : loc) (n : Z) :
  n < 1 ->
  run (FastAPIProfiler.configure self n) w
  = (Raised (ValueError "max_retained_requests must be at least 1."), w).
Proof.
  intros Hn. unfold FastAPIProfiler.configure.
  apply Z.ltb_lt in Hn. rewrite Hn. reflexivity.
Qed.

Lemma wp_get_profile_data (w : world) (self : loc) (l : list loc) (c : Z) :
  _lock w = false ->
  entries w self = Some l ->
  capacity w self = Some c ->
  wp (FastAPIProfiler.get_profile_data self)
     (fun r w' => r = length (heap w) /\ w' = set_heap (heap w ++ [OList l]) w) w.
Proof.
  intros Hl He Hc. destruct (store_inv _ _ _ _ He Hc) as (d & Hs & Hd).
  unfold FastAPIProfiler.get_profile_data.
  apply wp_with_lock; [exact Hl|].
  apply wp_bind. eapply wp_prim.
  { unfold getattr_profiled_requests_data. simpl. rewrite Hs. reflexivity. }
  eapply wp_prim.
  { unfold list_copy. simpl. rewrite Hd. reflexivity. }
  simpl. split; [reflexivity|].
  destruct w as [h i k]. simpl in *. subst k. reflexivity.
Qed.

Lemma wp_clear_data (w : world) (self : loc) (l : list loc) (c : Z) :
  _lock w = false ->
  entries w self = Some l ->
  capacity w self = Some c ->
  wp (FastAPIProfiler.clear_data self)
     (fun _ w' => updated w w' self [] c) w.
Proof.
  intros Hl He Hc. destruct (store_inv _ _ _ _ He Hc) as (d & Hs & Hd).
  assert (Hsl : (self < length (heap w))%nat) by (eapply lookup_lt_Some; eauto).
  unfold FastAPIProfiler.clear_data.
  apply wp_with_lock; [exact Hl|].
  apply wp_bind. apply wp_atomic. simpl. apply wp_ret.
  eapply wp_prim.
  { unfold setattr_profiled_requests_data. simpl.
    rewrite lookup_app_l by exact Hsl. rewrite Hs. reflexivity. }
  assert (Hlt' : (self < length (heap w ++ [OList []]))%nat)
    by (rewrite length_app; lia).
  split; simpl.
  - eapply entries_intro; simpl.
    + apply list_lookup_insert_eq. exact Hlt'.
    + rewrite list_lookup_insert_ne by lia.
      rewrite lookup_app_r by lia. rewrite Nat.sub_diag. reflexivity.
  - unfold capacity. simpl. rewrite list_lookup_insert_eq by exact Hlt'.
    reflexivity.
  - congruence.
  - reflexivity.
  - rewrite length_insert, length_app. lia.
  - intros r Hr _ Hrl. rewrite list_lookup_insert_ne by congruence.
    apply lookup_app_l. exact Hrl.
Qed.

(** ** Pruning keeps the most recent entries *)

Lemma length_lastn {A : Type} (n : nat) (l : list A) :
  length (lastn n l) = Nat.min n (length l).
Proof. unfold lastn. rewrite length_drop. lia. Qed.

Lemma lastn_all {A : Type} (n : nat) (l : list A) :
  (length l <= n)%nat -> lastn n l = l.
Proof.
  intros H. unfold lastn. replace (length l - n)%nat with 0%nat by lia.
  reflexivity.
Qed.

Lemma lastn_app_lastn {A : Type} (n : nat) (l k : list A) :
  lastn n (lastn n l ++ k) = lastn n (l ++ k).
Proof.
  unfold lastn at 2.
  rewrite <- drop_app_le by lia.
  unfold lastn. rewrite drop_drop, length_drop, length_app.
  f_equal. lia.
Qed.

Lemma prune_lastn {A : Type} (c : Z) (l : list A) :
  1 <= c -> prune c l = lastn (Z.to_nat c) l.
Proof.
  intros Hc. unfold prune, slice_from, lastn.
  destruct (c <? Z.of_nat (length l)) eqn:Hlt.
  - apply Z.ltb_lt in Hlt.
    destruct (- c <? 0) eqn:Hneg; [|apply Z.ltb_ge in Hneg; lia].
    f_equal. lia.
  - apply Z.ltb_ge in Hlt.
    replace (length l - Z.to_nat c)%nat with 0%nat by lia. reflexivity.
Qed.

Lemma length_prune {A : Type} (c : Z) (l : list A) :
  1 <= c -> Z.of_nat (length (prune c l)) = Z.min (Z.of_nat (length l)) c.
Proof.
  intros Hc. rewrite prune_lastn by exact Hc. rewrite length_lastn. lia.
Qed.

Lemma foldl_prune_lastn {A : Type} (c : Z) (l xs : list A) :
  1 <= c -> Z.of_nat (length l) <= c ->
  foldl (fun acc x => prune c (acc ++ [x])) l xs = lastn (Z.to_nat c) (l ++ xs).
Proof.
  intros Hc. revert l. induction xs as [|x xs IH]; intros l Hl; simpl.
  - rewrite app_nil_r. symmetry. apply lastn_all. lia.
  - rewrite IH.
    + rewrite prune_lastn by exact Hc. rewrite lastn_app_lastn.
      rewrite <- app_assoc. reflexivity.
    + rewrite length_prune by exact Hc. lia.
Qed.

(** ** Sequences of calls *)

Lemma wp_record_all (self : loc) (xs : list loc) (w : world) (l : list loc) (c : Z) :
  _lock w = false ->
  entries w self = Some l ->
  capacity w self = Some c ->
  wp (record_all self xs)
     (fun _ w' => entries w' self = Some (foldl (fun acc x => prune c (acc ++ [x])) l xs)
                  /\ capacity w' self = Some c /\ _lock w' = false
                  /\ _instance w' = _instance w) w.
Proof.
  revert w l. induction xs as [|x xs IH]; intros w l Hl He Hc.
  - apply wp_ret. simpl. auto.
  - cbn [record_all]. apply wp_bind.
    eapply wp_mono; [| apply (wp_add_profile_data w self x l c Hl He Hc)].
    intros _ w' [H1 H2 H3 H4 _ _].
    eapply wp_mono; [| apply (IH w' (prune c (l ++ [x]))); congruence].
    cbn [foldl]. intros _ w'' (? & ? & ? & ?). repeat split; congruence.
Qed.

Lemma store_ok_call_op (self : loc) (o : op) (w : world) :
  store_ok w self -> store_ok (snd (run (call_op self o) w)) self.
Proof.
  intros (l & c & He & Hc & Hc1 & Hlen & Hl). destruct o as [n|x|]; cbn [call_op].
  - destruct (Z.lt_ge_cases n 1) as [Hn|Hn].
    + rewrite run_configure_invalid by exact Hn. exists l, c. cbn [snd]. auto.
    + pose proof (wp_configure w self n l c Hn He Hc) as H.
      apply wp_run in H. destruct H as ([] & w' & -> & [H1 H2 H3 H4 _ _]).
      exists (prune n l), n. cbn [snd]; repeat split; auto; try congruence.
      rewrite length_prune by exact Hn. lia.
  - pose proof (wp_add_profile_data w self x l c Hl He Hc) as H.
    apply wp_run in H. destruct H as ([] & w' & -> & [H1 H2 H3 H4 _ _]).
    exists (prune c (l ++ [x])), c. cbn [snd]; repeat split; auto; try congruence.
    rewrite length_prune by exact Hc1. lia.
  - pose proof (wp_clear_data w self l c Hl He Hc) as H.
    apply wp_run in H. destruct H as ([] & w' & -> & [H1 H2 H3 H4 _ _]).
    exists [], c. cbn [snd]; repeat split; auto; try congruence. simpl. lia.
Qed.

Lemma store_ok_run_ops (self : loc) (os : list op) (w : world) :
  store_ok w self -> store_ok (run_ops self os w) self.
Proof.
  unfold run_ops. revert w. induction os as [|o os IH]; intros w H; simpl.
  - exact H.
  - apply IH. apply store_ok_call_op. exact H.
Qed.

(** ** Export *)

Lemma rows_fill_missing (df : DataFrame) (cols : list string) :
  rows (foldl fill_missing df cols) = rows df.
Proof.
  revert df. induction cols as [|col cols IH]; intros df; simpl.
  - reflexivity.
  - rewrite IH. unfold fill_missing. destruct (bool_decide _); reflexivity.
Qed.

Lemma columns_fill_missing (df : DataFrame) (cols : list string) (col : string) :
  col ∈ columns df \/ col ∈ cols -> col ∈ columns (foldl fill_missing df cols).
Proof.
  revert df. induction cols as [|c' cols IH]; intros df; simpl.
  - intros [H|H]; [exact H | inversion H].
  - intros H. apply IH. unfold fill_missing.
    destruct (bool_decide (c' ∈ columns df)) eqn:Hc'; simpl.
    + apply bool_decide_eq_true in Hc'.
      destruct H as [H|H]; [left; exact H|].
      apply elem_of_cons in H. destruct H as [->|H]; [left; exact Hc' | right; exact H].
    + destruct H as [H|H]; [left; apply elem_of_app; left; exact H|].
      apply elem_of_cons in H. destruct H as [->|H]; [|right; exact H].
      left. apply elem_of_app. right. apply list_elem_of_singleton. reflexivity.
Qed.

(** After the loop of [export_to_csv] every wanted column is there, so
    [df[desired_columns]] does not raise. *)
Lemma forallb_filled (df : DataFrame) :
  forallb (fun col => bool_decide (col ∈ columns (foldl fill_missing df desired_columns)))
          desired_columns = true.
Proof.
  apply forallb_forall. intros col Hcol. apply bool_decide_eq_true.
  apply columns_fill_missing. right. apply list_elem_of_In. exact Hcol.
Qed.

Lemma dict_at_alloc (w : world) (o : obj) (r : loc) (d : gmap string pyval) :
  dict_at w r = Some d -> dict_at (set_heap (heap w ++ [o]) w) r = Some d.
Proof.
  unfold dict_at. simpl. intros H.
  destruct (heap w !! r) as [x|] eqn:Hr; [|discriminate].
  rewrite lookup_app_l by (eapply lookup_lt_Some; eauto).
  rewrite Hr. exact H.
Qed.

Lemma wp_export_to_csv (rt : pyruntime) (w : world) (self : loc)
    (l : list loc) (c : Z) (ds : list (gmap string pyval)) :
  _lock w = false ->
  entries w self = Some l ->
  capacity w self = Some c ->
  mapM (dict_at w) l = Some ds ->
  wp (FastAPIProfiler.export_to_csv rt self)
     (fun s w' => s = to_csv rt (Frame desired_columns ds)
                  /\ w' = set_heap (heap w ++ [OList l]) w) w.
Proof.
  intros Hl He Hc Hds. unfold FastAPIProfiler.export_to_csv.
  apply wp_bind.
  eapply wp_mono; [| apply (wp_get_profile_data w self l c Hl He Hc)].
  intros r w' [-> ->].
  assert (Hr : heap (set_heap (heap w ++ [OList l]) w) !! length (heap w)
               = Some (OList l)).
  { simpl. rewrite lookup_app_r by lia. rewrite Nat.sub_diag. reflexivity. }
  apply wp_bind. eapply wp_prim.
  { unfold list_len. rewrite Hr. reflexivity. }
  destruct l as [|x l].
  - simpl. apply wp_ret. simpl in Hds. injection Hds as <-. auto.
  - replace (Z.of_nat (length (x :: l)) =? 0) with false
      by (symmetry; apply Z.eqb_neq; simpl; lia).
    apply wp_bind. eapply wp_prim.
    { unfold read_records. rewrite Hr.
      replace (mapM (dict_at (set_heap (heap w ++ [OList (x :: l)]) w)) (x :: l))
        with (Some ds); [reflexivity|].
      symmetry. apply mapM_Some. apply mapM_Some in Hds.
      eapply Forall2_impl; [exact Hds|].
      intros y d Hy. apply dict_at_alloc. exact Hy. }
    unfold select. rewrite forallb_filled. apply wp_ret. split; [|reflexivity].
    rewrite rows_fill_missing. reflexivity.
Qed.

(** * The metrics store *)

(** A snapshot lists the entries of the store, and leaves them in place. *)
Lemma snapshot_lists_entries (w : world) (self : loc) (l : list loc) (c : Z) :
  _lock w = false ->
  entries w self = Some l ->
  capacity w self = Some c ->
  exists r w',
    run (FastAPIProfiler.get_profile_data self) w = (Returned r, w')
    /\ list_at w' r = Some l
    /\ entries w' self = Some l /\ capacity w' self = Some c /\ _lock w' = false.
Proof.
  intros Hl He Hc.
  pose proof (wp_get_profile_data w self l c Hl He Hc) as H.
  apply wp_run in H. destruct H as (r & w' & Hrun & -> & ->).
  destruct (store_inv _ _ _ _ He Hc) as (d & Hs & Hd).
  eexists _, _. split; [exact Hrun|]. split; [|split; [|split]].
  - unfold list_at. simpl. rewrite lookup_app_r by lia.
    rewrite Nat.sub_diag. reflexivity.
  - eapply entries_intro; simpl; rewrite lookup_app_l;
      eauto using lookup_lt_Some.
  - unfold capacity. simpl. rewrite lookup_app_l by eauto using lookup_lt_Some.
    rewrite Hs. reflexivity.
  - exact Hl.
Qed.

(** C1. Capacity bound: after [configure(C)] on an empty store and [N]
    calls of [add_profile_data], [get_profile_data] returns a list of
    [min(N, C)] entries; and after any sequence of calls that change the
    store ([configure], also a rejected one, [add_profile_data],
    [clear_data]) the store holds no more entries than its capacity. *)
Theorem capacity_bound (w : world) (self : loc) (c0 C : Z) (xs : list loc) :
  1 <= C ->
  _lock w = false ->
  entries w self = Some [] ->
  capacity w self = Some c0 ->
  (exists r w' snap,
      run (FastAPIProfiler.configure self C ;;
           record_all self xs ;;
           FastAPIProfiler.get_profile_data self) w = (Returned r, w')
      /\ list_at w' r = Some snap
      /\ Z.of_nat (length snap) = Z.min (Z.of_nat (length xs)) C)
  /\ (forall os : list op,
        exists l c,
          entries (run_ops self (Configure C :: os) w) self = Some l
          /\ capacity (run_ops self (Configure C :: os) w) self = Some c
          /\ Z.of_nat (length l) <= c).
Proof.
  intros HC Hl He Hc. split.
  - enough (H : wp (FastAPIProfiler.configure self C ;;
                     record_all self xs ;;
                     FastAPIProfiler.get_profile_data self)
                    (fun r w' => exists snap, list_at w' r = Some snap
                       /\ Z.of_nat (length snap) = Z.min (Z.of_nat (length xs)) C) w).
    { apply wp_run in H. destruct H as (r & w' & Hrun & snap & H1 & H2).
      exists r, w', snap. auto. }
    apply wp_bind.
    eapply wp_mono; [| apply (wp_configure w self C [] c0 HC He Hc)].
    intros _ w1 [H1 H2 H3 H4 _ _].
    apply wp_bind.
    eapply wp_mono;
      [| apply (wp_record_all self xs w1 (prune C []) C); congruence].
    cbn beta. intros _ w2 (E1 & E2 & E3 & _).
    eapply wp_mono; [| apply (wp_get_profile_data w2 self _ C E3 E1 E2)].
    cbn beta. intros r w3 [-> ->].
    eexists. split.
    + unfold list_at. simpl. rewrite lookup_app_r by lia.
      rewrite Nat.sub_diag. reflexivity.
    + rewrite foldl_prune_lastn; [| exact HC | rewrite length_prune by exact HC; simpl; lia].
      rewrite length_lastn, length_app.
      rewrite prune_lastn by exact HC. rewrite length_lastn. simpl. lia.
  - intros os. cbn [run_ops foldl].
    pose proof (wp_configure w self C [] c0 HC He Hc) as H.
    apply wp_run in H. destruct H as ([] & w1 & Hrun & [H1 H2 H3 H4 _ _]).
    cbn [call_op]. rewrite Hrun. cbn [snd].
    destruct (store_ok_run_ops self os w1) as (l & c & E1 & E2 & _ & E3 & _).
    + exists (prune C []), C. repeat split; auto; try congruence.
      rewrite length_prune by exact HC. simpl. lia.
    + exists l, c. auto.
Qed.

Lemma capacity_bound_witness :
  1 <= 2
  /\ (exists r w' snap,
        run (FastAPIProfiler.configure 0%nat 2 ;;
             record_all 0%nat [7; 8; 9]%nat ;;
             FastAPIProfiler.get_profile_data 0%nat) (example_store 1000 0)
        = (Returned r, w')
        /\ list_at w' r = Some snap
        /\ Z.of_nat (length snap) = Z.min (Z.of_nat (length [7; 8; 9]%nat)) 2).
Proof.
  split; [lia|].
  apply (capacity_bound (example_store 1000 0) 0%nat 1000 2 [7; 8; 9]%nat);
    [lia | reflexivity | reflexivity | reflexivity].
Defined.

(** C2. FIFO eviction: from a store in order, [add_profile_data(x)] leaves
    the last [capacity] of the entries followed by [x], [configure(n)]
    leaves the last [n] entries, and a run of [add_profile_data] calls
    leaves the last [capacity] of all entries recorded so far: in each
    case a suffix of the recorded sequence, in its order.  (A snapshot
    lists exactly these entries: [snapshot_lists_entries].) *)
Theorem fifo_eviction (w : world) (self : loc) (l : list loc) (c : Z) :
  _lock w = false ->
  entries w self = Some l ->
  capacity w self = Some c ->
  1 <= c ->
  Z.of_nat (length l) <= c ->
  (forall x, exists w',
      run (FastAPIProfiler.add_profile_data self x) w = (Returned tt, w')
      /\ entries w' self = Some (lastn (Z.to_nat c) (l ++ [x]))
      /\ capacity w' self = Some c)
  /\ (forall n, 1 <= n -> exists w',
      run (FastAPIProfiler.configure self n) w = (Returned tt, w')
      /\ entries w' self = Some (lastn (Z.to_nat n) l)
      /\ capacity w' self = Some n)
  /\ (forall xs, exists w',
      run (record_all self xs) w = (Returned tt, w')
      /\ entries w' self = Some (lastn (Z.to_nat c) (l ++ xs))
      /\ capacity w' self = Some c).
Proof.
  intros Hl He Hc Hc1 Hlen. repeat split.
  - intros x. pose proof (wp_add_profile_data w self x l c Hl He Hc) as H.
    apply wp_run in H. destruct H as ([] & w' & Hrun & [H1 H2 _ _ _ _]).
    exists w'. rewrite <- prune_lastn by exact Hc1. auto.
  - intros n Hn. pose proof (wp_configure w self n l c Hn He Hc) as H.
    apply wp_run in H. destruct H as ([] & w' & Hrun & [H1 H2 _ _ _ _]).
    exists w'. rewrite <- prune_lastn by exact Hn. auto.
  - intros xs. pose proof (wp_record_all self xs w l c Hl He Hc) as H.
    apply wp_run in H. destruct H as ([] & w' & Hrun & H1 & H2 & _).
    exists w'. rewrite <- foldl_prune_lastn by assumption. auto.
Qed.

Lemma fifo_eviction_witness :
  Z.of_nat (length (seq 2 10)) <= 10
  /\ exists w',
      run (FastAPIProfiler.configure 0%nat 3) (example_store 10 10) = (Returned tt, w')
      /\ entries w' 0%nat = Some (lastn (Z.to_nat 3) (seq 2 10))
      /\ capacity w' 0%nat = Some 3.
Proof.
  split; [simpl; lia|].
  apply (fifo_eviction (example_store 10 10) 0%nat (seq 2 10) 10);
    [reflexivity | reflexivity | reflexivity | lia | simpl; lia | lia].
Defined.

(** Reconfigure-shrink, run: ten entries under capacity ten, then
    [configure(3)]; the store holds the three most recent entries. *)
Example reconfigure_shrink :
  let w := snd (run (FastAPIProfiler.configure 0%nat 3) (example_store 10 10)) in
  entries (example_store 10 10) 0%nat = Some [2; 3; 4; 5; 6; 7; 8; 9; 10; 11]%nat
  /\ entries w 0%nat = Some [9; 10; 11]%nat
  /\ capacity w 0%nat = Some 3.
Proof. vm_compute. auto. Qed.

(** C3. [configure] is the only call that fails: with a capacity below 1
    it raises [ValueError] and leaves the whole world, so the capacity and
    the entries, as it was; with a capacity of at least 1 it returns; and
    [add_profile_data], [get_profile_data], [clear_data] and
    [export_to_csv] return from every store in order. *)
Theorem configure_only_failure (rt : pyruntime) (w : world) (self : loc)
    (l : list loc) (c : Z) (ds : list (gmap string pyval)) :
  _lock w = false ->
  entries w self = Some l ->
  capacity w self = Some c ->
  mapM (dict_at w) l = Some ds ->
  (forall n, n < 1 ->
     run (FastAPIProfiler.configure self n) w
     = (Raised (ValueError "max_retained_requests must be at least 1."), w))
  /\ (forall n, 1 <= n ->
        exists w', run (FastAPIProfiler.configure self n) w = (Returned tt, w'))
  /\ (forall x,
        exists w', run (FastAPIProfiler.add_profile_data self x) w = (Returned tt, w'))
  /\ (exists r w', run (FastAPIProfiler.get_profile_data self) w = (Returned r, w'))
  /\ (exists w', run (FastAPIProfiler.clear_data self) w = (Returned tt, w'))
  /\ (exists s w', run (FastAPIProfiler.export_to_csv rt self) w = (Returned s, w')).
Proof.
  intros Hl He Hc Hds. repeat split.
  - intros n Hn. apply run_configure_invalid. exact Hn.
  - intros n Hn. pose proof (wp_configure w self n l c Hn He Hc) as H.
    apply wp_run in H. destruct H as ([] & w' & Hrun & _). eauto.
  - intros x. pose proof (wp_add_profile_data w self x l c Hl He Hc) as H.
    apply wp_run in H. destruct H as ([] & w' & Hrun & _). eauto.
  - pose proof (wp_get_profile_data w self l c Hl He Hc) as H.
    apply wp_run in H. destruct H as (r & w' & Hrun & _). eauto.
  - pose proof (wp_clear_data w self l c Hl He Hc) as H.
    apply wp_run in H. destruct H as ([] & w' & Hrun & _). eauto.
  - pose proof (wp_export_to_csv rt w self l c ds Hl He Hc Hds) as H.
    apply wp_run in H. destruct H as (s & w' & Hrun & _). eauto.
Qed.

Lemma configure_only_failure_witness :
  run (FastAPIProfiler.configure 0%nat 0) (example_store 10 2)
  = (Raised (ValueError "max_retained_requests must be at least 1."),
     example_store 10 2)
  /\ run (FastAPIProfiler.configure 0%nat (-1)) (example_store 10 2)
     = (Raised (ValueError "max_retained_requests must be at least 1."),
        example_store 10 2).
Proof.
  destruct (configure_only_failure example_runtime (example_store 10 2) 0%nat
              [2; 3]%nat 10 [∅; ∅]) as (H & _);
    [reflexivity | reflexivity | reflexivity | reflexivity |].
  split; apply H; lia.
Defined.

(** C7. [clear_data] empties the entries and keeps the capacity; a
    snapshot taken afterwards is empty; and a second [clear_data] leaves
    the entries empty, the capacity as it was and every other object
    untouched. *)
Theorem clear_idempotent (w : world) (self : loc) (l : list loc) (c : Z) :
  _lock w = false ->
  entries w self = Some l ->
  capacity w self = Some c ->
  exists w1,
    run (FastAPIProfiler.clear_data self) w = (Returned tt, w1)
    /\ entries w1 self = Some [] /\ capacity w1 self = Some c
    /\ (exists r w2, run (FastAPIProfiler.get_profile_data self) w1 = (Returned r, w2)
                     /\ list_at w2 r = Some [])
    /\ exists w3,
         run (FastAPIProfiler.clear_data self) w1 = (Returned tt, w3)
         /\ updated w1 w3 self [] c
         /\ (exists r w4, run (FastAPIProfiler.get_profile_data self) w3 = (Returned r, w4)
                          /\ list_at w4 r = Some []).
Proof.
  intros Hl He Hc.
  assert (Hsnap : forall v, _lock v = false -> entries v self = Some [] ->
            capacity v self = Some c ->
            exists r v', run (FastAPIProfiler.get_profile_data self) v = (Returned r, v')
                         /\ list_at v' r = Some []).
  { intros v Hvl Hve Hvc.
    pose proof (wp_get_profile_data v self [] c Hvl Hve Hvc) as H.
    apply wp_run in H. destruct H as (r & v' & Hrun & -> & ->).
    exists (length (heap v)). eexists. split; [exact Hrun|].
    unfold list_at. simpl. rewrite lookup_app_r by lia.
    rewrite Nat.sub_diag. reflexivity. }
  pose proof (wp_clear_data w self l c Hl He Hc) as H.
  apply wp_run in H. destruct H as ([] & w1 & Hrun1 & [H1 H2 H3 H4 _ _]).
  assert (Hl1 : _lock w1 = false) by congruence.
  pose proof (wp_clear_data w1 self [] c Hl1 H1 H2) as H.
  apply wp_run in H. destruct H as ([] & w3 & Hrun3 & Hupd).
  exists w1. repeat split; auto.
  exists w3. repeat split; try apply Hupd; auto.
  apply Hsnap; try apply Hupd. destruct Hupd. congruence.
Qed.

Lemma clear_idempotent_witness :
  entries (example_store 5 3) 0%nat = Some [2; 3; 4]%nat
  /\ exists w1,
       run (FastAPIProfiler.clear_data 0%nat) (example_store 5 3) = (Returned tt, w1)
       /\ entries w1 0%nat = Some [] /\ capacity w1 0%nat = Some 5.
Proof.
  split; [reflexivity|].
  destruct (clear_idempotent (example_store 5 3) 0%nat [2; 3; 4]%nat 5)
    as (w1 & H1 & H2 & H3 & _); [reflexivity | reflexivity | reflexivity |].
  exists w1. auto.
Defined.

(** ** The text of an export *)

Lemma lookup_map {A B : Type} (f : A -> B) (l : list A) (i : nat) :
  map f l !! i = f <$> (l !! i).
Proof.
  revert i. induction l as [|x l IH]; intros [|i]; simpl; auto.
Qed.

Lemma csv_row_desired_columns : csv_row desired_columns = header_line.
Proof. vm_compute. reflexivity. Qed.

Lemma render_cell_alone (rt : pyruntime) (d : gmap string pyval) (col : string) :
  render_cell rt (column_dtype [cell d col]) (cell d col) = field_text rt (d !! col).
Proof.
  unfold cell, field_text.
  destruct (d !! col) as [[s|z|f|]|]; try reflexivity.
  destruct (PrimFloat.is_nan f); reflexivity.
Qed.

Lemma render_cell_missing (rt : pyruntime) (dt : dtype) (d : gmap string pyval)
    (col : string) :
  d !! col = None -> render_cell rt dt (cell d col) = EmptyString.
Proof. intros H. unfold cell. rewrite H. reflexivity. Qed.

(** C4. [export_to_csv] of an empty store is the header row alone, the six
    column names separated by commas; of a store with one entry it is the
    header row and one row with the entry's six fields in the order of
    the header, each written as its own text (a missing one as an empty
    field); and for any store, the export is the header row and one row
    of six fields per entry, the field of an absent key being empty. *)
Theorem export_csv (rt : pyruntime) (w : world) (self : loc) (c : Z) :
  _lock w = false ->
  capacity w self = Some c ->
  (entries w self = Some [] ->
   exists w', run (FastAPIProfiler.export_to_csv rt self) w = (Returned header_line, w'))
  /\ (forall r d,
        entries w self = Some [r] -> dict_at w r = Some d ->
        exists w',
          run (FastAPIProfiler.export_to_csv rt self) w
          = (Returned
               (String.append header_line
                  (csv_row (map (fun col => field_text rt (d !! col)) desired_columns))),
             w'))
  /\ (forall l ds,
        entries w self = Some l -> mapM (dict_at w) l = Some ds ->
        exists table w',
          run (FastAPIProfiler.export_to_csv rt self) w
          = (Returned
               (String.append header_line
                  (String.concat EmptyString (map csv_row table))), w')
          /\ length table = length ds
          /\ Forall (fun row => length row = 6%nat) table
          /\ (forall i j d col row,
                ds !! i = Some d -> desired_columns !! j = Some col ->
                d !! col = None -> table !! i = Some row ->
                row !! j = Some EmptyString)).
Proof.
  intros Hl Hc. repeat split.
  - intros He.
    pose proof (wp_export_to_csv rt w self [] c [] Hl He Hc eq_refl) as H.
    apply wp_run in H. destruct H as (s & w' & Hrun & -> & _).
    exists w'. rewrite Hrun. reflexivity.
  - intros r d He Hd.
    assert (Hds : mapM (dict_at w) [r] = Some [d]).
    { simpl. rewrite Hd. reflexivity. }
    pose proof (wp_export_to_csv rt w self [r] c [d] Hl He Hc Hds) as H.
    apply wp_run in H. destruct H as (s & w' & Hrun & -> & _).
    exists w'. rewrite Hrun. f_equal. f_equal.
    unfold to_csv. cbn [columns rows map String.concat].
    rewrite csv_row_desired_columns. f_equal. f_equal.
    apply map_ext. intros col. apply render_cell_alone.
  - intros l ds He Hds.
    pose proof (wp_export_to_csv rt w self l c ds Hl He Hc Hds) as H.
    apply wp_run in H. destruct H as (s & w' & Hrun & -> & _).
    set (dt := fun col => column_dtype (map (fun d => cell d col) ds)).
    exists (map (fun d => map (fun col => render_cell rt (dt col) (cell d col))
                              desired_columns) ds), w'.
    split; [| split; [| split]].
    + rewrite Hrun. f_equal. f_equal.
      unfold to_csv. cbn [columns rows]. rewrite csv_row_desired_columns.
      rewrite map_map. reflexivity.
    + apply length_map.
    + apply Forall_map. apply Forall_forall. intros d _.
      rewrite length_map. reflexivity.
    + intros i j d col row Hi Hj Hmiss Hrow.
      rewrite lookup_map, Hi in Hrow. injection Hrow as <-.
      change (map (fun col => render_cell rt (dt col) (cell d col)) desired_columns !! j
              = Some EmptyString).
      rewrite lookup_map, Hj. simpl. f_equal.
      apply render_cell_missing. exact Hmiss.
Qed.

Lemma export_csv_witness :
  capacity (example_store_of 10 [example_entry]) 0%nat = Some 10
  /\ exists w',
       run (FastAPIProfiler.export_to_csv example_runtime 0%nat)
           (example_store_of 10 [example_entry])
       = (Returned
            (String.append header_line
               (String.append "2025-01-01 12:00:00,/items/1,GET,200,12.5,0.0"
                              (str [LF]))), w').
Proof.
  split; [reflexivity|].
  destruct (export_csv example_runtime (example_store_of 10 [example_entry]) 0%nat 10)
    as (_ & H & _); [reflexivity | reflexivity |].
  destruct (H 2%nat example_entry eq_refl eq_refl) as [w' Hw].
  exists w'. rewrite Hw. vm_compute. reflexivity.
Defined.

(** The six fields of the entry [dispatch] builds for a request, as the
    export writes them: the text of [strftime], the path, the method, the
    status, and the two durations as [round(x, 3)] left them. *)
Lemma profile_data_row (rt : pyruntime) (pr : probe) (request : Request)
    (lcl : ProfilerMiddleware.locals) (r : Response) :
  ProfilerMiddleware.response lcl = Some r ->
  exists d,
    ProfilerMiddleware.profile_data rt pr request lcl = Ok d
    /\ map (fun col => field_text rt (d !! col)) desired_columns
       = [strftime_localtime pr; url_path request; method request;
          int_repr (status_code r);
          field_text rt (Some (PyFloat
            (round3 rt ((end_time pr - start_time pr) * 1000)%float)));
          field_text rt (Some (PyFloat (ProfilerMiddleware.cpu_time_ms lcl)))].
Proof.
  intros Hr. unfold ProfilerMiddleware.profile_data. rewrite Hr.
  eexists. split; [reflexivity|].
  unfold desired_columns. cbn [map].
  repeat (rewrite lookup_insert_eq || rewrite lookup_insert_ne by discriminate).
  reflexivity.
Qed.

(** The export of an empty store, run. *)
Example export_empty :
  fst (run (FastAPIProfiler.export_to_csv example_runtime 0%nat) (example_store 10 0))
  = Returned header_line.
Proof. vm_compute. reflexivity. Qed.

(** * Snapshots *)

Lemma lookup_alloc_old (h : list obj) (o : obj) (x : loc) :
  (x < length h)%nat -> (h ++ [o]) !! x = h !! x.
Proof. intros H. apply lookup_app_l. exact H. Qed.

Lemma lookup_alloc_new (h : list obj) (o : obj) :
  (h ++ [o]) !! length h = Some o.
Proof. rewrite lookup_app_r by lia. rewrite Nat.sub_diag. reflexivity. Qed.

(** A mutation of the list [r] changes, at most, the object at [r]. *)
Lemma mutate_list_only (r : loc) (m : mutation) (w : world) (o : outcome unit)
    (w' : world) :
  touches_list_only m = true ->
  run (mutate r m) w = (o, w') ->
  w' = w \/ exists xs xs', heap w !! r = Some (OList xs)
                           /\ w' = set_heap (<[r := OList xs']> (heap w)) w.
Proof.
  intros Hm Hrun.
  assert (Hupd : forall f, run (prim (list_update r f)) w = (o, w') ->
            w' = w \/ exists xs xs', heap w !! r = Some (OList xs)
                                     /\ w' = set_heap (<[r := OList xs']> (heap w)) w).
  { intros f. unfold prim, list_update. simpl.
    destruct (heap w !! r) as [[d|xs|? ?]|];
      try (simpl; intros [= _ <-]; left; reflexivity).
    destruct (f xs) as [xs'|e]; simpl; intros [= _ <-].
    - right. exists xs, xs'. auto.
    - left. reflexivity. }
  destruct m; try discriminate; simpl in Hrun; eapply Hupd; exact Hrun.
Qed.

(** Objects older than a snapshot are out of reach of a mutation of its
    list. *)
Lemma mutate_snapshot_frame (w : world) (l : list loc) (m : mutation)
    (o : outcome unit) (w2 : world) :
  touches_list_only m = true ->
  run (mutate (length (heap w)) m) (set_heap (heap w ++ [OList l]) w) = (o, w2) ->
  _lock w2 = _lock w /\ _instance w2 = _instance w
  /\ (forall x, (x < length (heap w))%nat -> heap w2 !! x = heap w !! x)
  /\ (forall x, dict_at w2 x = dict_at w x).
Proof.
  intros Hm Hrun.
  destruct (mutate_list_only _ _ _ _ _ Hm Hrun) as [->|(xs & xs' & Hr & ->)]; simpl.
  - repeat split; auto.
    + intros x Hx. apply lookup_alloc_old. exact Hx.
    + intros x. unfold dict_at. simpl.
      destruct (Nat.lt_trichotomy x (length (heap w))) as [Hx|[->|Hx]].
      * rewrite lookup_alloc_old by exact Hx. reflexivity.
      * rewrite lookup_alloc_new.
        rewrite (lookup_ge_None_2 (heap w)) by lia. reflexivity.
      * rewrite !lookup_ge_None_2; [reflexivity | lia | rewrite length_app; simpl; lia].
  - repeat split; auto.
    + intros x Hx. rewrite list_lookup_insert_ne by lia.
      apply lookup_alloc_old. exact Hx.
    + intros x. unfold dict_at. simpl.
      destruct (Nat.lt_trichotomy x (length (heap w))) as [Hx|[->|Hx]].
      * rewrite list_lookup_insert_ne by lia.
        rewrite lookup_alloc_old by exact Hx. reflexivity.
      * rewrite list_lookup_insert_eq by (rewrite length_app; simpl; lia).
        rewrite (lookup_ge_None_2 (heap w)) by lia. reflexivity.
      * rewrite !lookup_ge_None_2;
          [reflexivity | lia | rewrite length_insert, length_app; simpl; lia].
Qed.

Lemma store_frame (w w' : world) (self : loc) (l : list loc) (c : Z) :
  entries w self = Some l ->
  capacity w self = Some c ->
  (forall x, (x < length (heap w))%nat -> heap w' !! x = heap w !! x) ->
  entries w' self = Some l /\ capacity w' self = Some c.
Proof.
  intros He Hc Hfr. destruct (store_inv _ _ _ _ He Hc) as (d & Hs & Hd).
  assert (Hs' : heap w' !! self = Some (OProfiler (Some d) (Some c))).
  { rewrite Hfr; [exact Hs | eapply lookup_lt_Some; eauto]. }
  assert (Hd' : heap w' !! d = Some (OList l)).
  { rewrite Hfr; [exact Hd | eapply lookup_lt_Some; eauto]. }
  split.
  - eapply entries_intro; eauto.
  - unfold capacity. rewrite Hs'. reflexivity.
Qed.

(** C6, as the code has it. [get_profile_data] returns a new list object
    holding the references of the entries.  Whatever the caller does to
    that list (append, item assignment, pop, clear, reverse) leaves the
    entries, the capacity and the dictionaries of the store as they were,
    and the next snapshot lists the same entries. *)
Theorem snapshot_list_isolated (w : world) (self : loc) (l : list loc) (c : Z)
    (m : mutation) :
  _lock w = false ->
  entries w self = Some l ->
  capacity w self = Some c ->
  touches_list_only m = true ->
  exists r w1,
    run (FastAPIProfiler.get_profile_data self) w = (Returned r, w1)
    /\ list_at w1 r = Some l
    /\ data_loc w1 self <> Some r
    /\ forall o w2,
         run (mutate r m) w1 = (o, w2) ->
         entries w2 self = Some l
         /\ capacity w2 self = Some c
         /\ contents w2 self = contents w self
         /\ exists r' w3,
              run (FastAPIProfiler.get_profile_data self) w2 = (Returned r', w3)
              /\ list_at w3 r' = Some l.
Proof.
  intros Hl He Hc Hm.
  pose proof (wp_get_profile_data w self l c Hl He Hc) as H.
  apply wp_run in H. destruct H as (r & w1 & Hrun & -> & ->).
  destruct (store_inv _ _ _ _ He Hc) as (d & Hs & Hd).
  exists (length (heap w)), (set_heap (heap w ++ [OList l]) w).
  split; [exact Hrun|]. split; [|split].
  - unfold list_at. simpl. rewrite lookup_alloc_new. reflexivity.
  - unfold data_loc. simpl.
    rewrite lookup_alloc_old by (eapply lookup_lt_Some; eauto).
    rewrite Hs. intros [= ->]. apply lookup_lt_Some in Hd. lia.
  - intros o w2 Hmut.
    destruct (mutate_snapshot_frame w l m o w2 Hm Hmut) as (F1 & F2 & F3 & F4).
    destruct (store_frame w w2 self l c He Hc F3) as [He2 Hc2].
    split; [exact He2|]. split; [exact Hc2|]. split.
    + unfold contents. rewrite He2, He.
      apply mapM_ext. intros x. apply F4.
    + assert (Hl2 : _lock w2 = false) by congruence.
      pose proof (wp_get_profile_data w2 self l c Hl2 He2 Hc2) as H.
      apply wp_run in H. destruct H as (r' & w3 & Hrun' & -> & ->).
      eexists _, _. split; [exact Hrun'|].
      unfold list_at. simpl. rewrite lookup_alloc_new. reflexivity.
Qed.

Lemma snapshot_list_isolated_witness :
  touches_list_only ListClear = true
  /\ exists r w1,
       run (FastAPIProfiler.get_profile_data 0%nat) (example_store 10 3)
       = (Returned r, w1)
       /\ list_at w1 r = Some [2; 3; 4]%nat.
Proof.
  split; [reflexivity|].
  destruct (snapshot_list_isolated (example_store 10 3) 0%nat [2; 3; 4]%nat 10 ListClear)
    as (r & w1 & H1 & H2 & _);
    [reflexivity | reflexivity | reflexivity | reflexivity |].
  exists r, w1. auto.
Defined.

(** C6, as stated, fails: the copy is shallow.  A store holds one entry
    with status 200; the caller takes a snapshot and assigns
    [snap[0]["StatusCode"] = 999]; the store's entry now reads 999. *)
Lemma snapshot_entry_shared :
  ~ (forall m, snapshot_isolated m).
Proof.
  intros H.
  pose (d := <["StatusCode"%string := PyInt 200]> (∅ : gmap string pyval)).
  pose (w := example_store_of 10 [d]).
  specialize (H (EntrySetItem 0 "StatusCode" (PyInt 999)) w 0%nat [d] 10
                eq_refl eq_refl eq_refl).
  specialize (H _ _ _ _ eq_refl eq_refl).
  assert (Hk : forall a b : list (gmap string pyval),
             Some a = Some b ->
             (a !! 0%nat) ≫= (fun e => e !! "StatusCode"%string)
             = (b !! 0%nat) ≫= (fun e => e !! "StatusCode"%string)).
  { intros a b [= ->]. reflexivity. }
  apply Hk in H. vm_compute in H. discriminate H.
Qed.

(** The same, run: the status the store reports before and after. *)
Example shared_entry_run :
  let w := example_store_of 10 [<["StatusCode"%string := PyInt 200]> ∅] in
  let status (v : world) : option pyval :=
    match contents v 0%nat with
    | Some [e] => e !! "StatusCode"%string
    | _ => None
    end in
  let w2 := snd (run (snap <- FastAPIProfiler.get_profile_data 0%nat ;;
                      mutate snap (EntrySetItem 0 "StatusCode" (PyInt 999))) w) in
  status w = Some (PyInt 200) /\ status w2 = Some (PyInt 999).
Proof. vm_compute. auto. Qed.

(** * The singleton *)

Lemma run_new_existing (w : world) (s : loc) :
  _instance w = Some s ->
  run FastAPIProfiler.__new__ w = (Returned (Some s), w).
Proof.
  intros H. unfold FastAPIProfiler.__new__. simpl. rewrite H. simpl.
  rewrite H. reflexivity.
Qed.

Lemma wp_bind_atomic {A B : Type} (op : world -> B * world) (f : B -> prog A)
    (Q : A -> world -> Prop) (w : world) :
  wp (f (fst (op w))) Q (snd (op w)) -> wp (bind (Atomic op Ret) f) Q w.
Proof. intros H. apply wp_bind. apply wp_atomic. exact H. Qed.

Lemma wp_new_first (w : world) :
  _instance w = None ->
  _lock w = false ->
  wp FastAPIProfiler.__new__
     (fun r w' => r = Some (length (heap w))
                  /\ _instance w' = Some (length (heap w))
                  /\ entries w' (length (heap w)) = Some []
                  /\ capacity w' (length (heap w)) = Some 1000
                  /\ _lock w' = false
                  /\ (forall x, (x < length (heap w))%nat -> heap w' !! x = heap w !! x)) w.
Proof.
  intros Hi Hl. unfold FastAPIProfiler.__new__.
  apply wp_bind_atomic. cbn [fst snd get_instance]. rewrite Hi.
  apply wp_bind. apply wp_with_lock; [exact Hl|].
  apply wp_bind_atomic. cbn [fst snd get_instance set_lock _instance]. rewrite Hi.
  apply wp_bind_atomic. cbn [fst snd alloc].
  apply wp_bind_atomic. cbn [fst snd set_instance].
  apply wp_bind_atomic. cbn [fst snd alloc].
  apply wp_bind_atomic. cbn [fst snd get_instance _instance set_heap].
  set (o := length (heap w)).
  assert (Ho : ((heap w ++ [OProfiler None None]) ++ [OList []]) !! o
               = Some (OProfiler None None)).
  { rewrite lookup_app_l by (rewrite length_app; simpl; lia).
    apply lookup_alloc_new. }
  assert (Hlen : (o < length ((heap w ++ [OProfiler None None]) ++ [OList []]))%nat).
  { rewrite !length_app. simpl. lia. }
  apply wp_bind. eapply wp_prim.
  { unfold setattr_profiled_requests_data. simpl. fold o. rewrite Ho. reflexivity. }
  apply wp_bind_atomic. cbn [fst snd get_instance _instance set_heap].
  eapply wp_prim.
  { unfold setattr_max_retained_requests. simpl.
    rewrite list_lookup_insert_eq by exact Hlen. reflexivity. }
  apply wp_atomic. cbn [fst snd get_instance]. apply wp_ret.
  simpl. rewrite list_insert_insert_eq.
  split; [reflexivity|]. split; [reflexivity|]. split; [|split; [|split]].
  - eapply entries_intro; simpl.
    + apply list_lookup_insert_eq. exact Hlen.
    + rewrite length_app. simpl.
      rewrite list_lookup_insert_ne by (unfold o; lia).
      replace (length (heap w) + 1)%nat with (length (heap w ++ [OProfiler None None]))
        by (rewrite length_app; reflexivity).
      apply lookup_alloc_new.
  - unfold capacity. simpl. rewrite list_lookup_insert_eq by exact Hlen. reflexivity.
  - reflexivity.
  - intros x Hx. rewrite list_lookup_insert_ne by (unfold o; lia).
    rewrite lookup_app_l by (rewrite length_app; simpl; lia).
    apply lookup_alloc_old. exact Hx.
Qed.

Lemma call_op_instance (self : loc) (o : op) (w : world) :
  store_ok w self -> _instance (snd (run (call_op self o) w)) = _instance w.
Proof.
  intros (l & c & He & Hc & Hc1 & Hlen & Hl). destruct o as [n|x|]; cbn [call_op].
  - destruct (Z.lt_ge_cases n 1) as [Hn|Hn].
    + rewrite run_configure_invalid by exact Hn. reflexivity.
    + pose proof (wp_configure w self n l c Hn He Hc) as H.
      apply wp_run in H. destruct H as ([] & w' & -> & [_ _ _ H4 _ _]). exact H4.
  - pose proof (wp_add_profile_data w self x l c Hl He Hc) as H.
    apply wp_run in H. destruct H as ([] & w' & -> & [_ _ _ H4 _ _]). exact H4.
  - pose proof (wp_clear_data w self l c Hl He Hc) as H.
    apply wp_run in H. destruct H as ([] & w' & -> & [_ _ _ H4 _ _]). exact H4.
Qed.

Lemma run_ops_instance (self : loc) (os : list op) (w : world) :
  store_ok w self -> _instance (run_ops self os w) = _instance w.
Proof.
  unfold run_ops. revert w. induction os as [|o os IH]; intros w H; simpl.
  - reflexivity.
  - rewrite IH by (apply store_ok_call_op; exact H).
    apply call_op_instance. exact H.
Qed.

(** C10. The first [FastAPIProfiler()] creates the instance, with no
    entries and capacity 1000.  From then on, in any world that still has
    that instance (and every call on the store leaves it in place),
    [FastAPIProfiler()] returns the same instance and changes nothing:
    the entries and the capacity are not set again. *)
Theorem singleton (w : world) :
  _instance w = None ->
  _lock w = false ->
  exists s w1,
    run FastAPIProfiler.__new__ w = (Returned (Some s), w1)
    /\ _instance w1 = Some s
    /\ entries w1 s = Some [] /\ capacity w1 s = Some 1000 /\ _lock w1 = false
    /\ (forall w2, _instance w2 = Some s ->
          run FastAPIProfiler.__new__ w2 = (Returned (Some s), w2))
    /\ (forall os,
          run FastAPIProfiler.__new__ (run_ops s os w1)
          = (Returned (Some s), run_ops s os w1)).
Proof.
  intros Hi Hl. pose proof (wp_new_first w Hi Hl) as H.
  apply wp_run in H. destruct H as (r & w1 & Hrun & -> & H1 & H2 & H3 & H4 & _).
  exists (length (heap w)), w1. repeat split; auto.
  - intros w2. apply run_new_existing.
  - intros os. apply run_new_existing.
    rewrite run_ops_instance; [exact H1|].
    exists [], 1000. repeat split; auto; simpl; lia.
Qed.

Lemma singleton_witness :
  exists s w1,
    run FastAPIProfiler.__new__ (World [] None false) = (Returned (Some s), w1)
    /\ _instance w1 = Some s
    /\ entries w1 s = Some [] /\ capacity w1 s = Some 1000
    /\ run FastAPIProfiler.__new__ w1 = (Returned (Some s), w1).
Proof.
  destruct (singleton (World [] None false) eq_refl eq_refl)
    as (s & w1 & H1 & H2 & H3 & H4 & _ & H5 & _).
  exists s, w1. repeat split; auto.
Defined.

(** * The middleware *)

(** C9. With [enable_by_default] set, a query parameter that reads
    [false] (in any case) switches profiling off for the request; with
    [enable_by_default] unset, a query parameter that reads [true] or an
    environment variable that reads [true] switches it on. *)
Theorem activation_precedence (self : ProfilerMiddleware.t)
    (environ : gmap string string) (request : Request) :
  (ProfilerMiddleware.enable_by_default self = true ->
   (exists v, query_params request !! ProfilerMiddleware.profile_query_param self = Some v
              /\ lower v = "false"%string) ->
   ProfilerMiddleware.profile_active self environ request = false)
  /\ (ProfilerMiddleware.enable_by_default self = false ->
      (exists v, query_params request !! ProfilerMiddleware.profile_query_param self = Some v
                 /\ lower v = "true"%string)
      \/ (exists v, environ !! "FASTAPI_SIMPLE_PROFILER_ENABLED"%string = Some v
                    /\ lower v = "true"%string) ->
      ProfilerMiddleware.profile_active self environ request = true).
Proof.
  unfold ProfilerMiddleware.profile_active, ProfilerMiddleware.is_disabled_by_query,
    ProfilerMiddleware.is_enabled_by_query, ProfilerMiddleware.is_enabled_by_env,
    ProfilerMiddleware.query_param_value.
  split.
  - intros -> (v & -> & Hv). simpl. rewrite Hv. reflexivity.
  - intros -> [(v & -> & Hv)|(v & -> & Hv)]; simpl; rewrite Hv.
    + reflexivity.
    + apply orb_true_r.
Qed.

Lemma activation_precedence_witness :
  let on := ProfilerMiddleware.Mk true "profile" in
  let off := ProfilerMiddleware.Mk false "profile" in
  let q v := MkRequest "/items/1" "GET" (<["profile"%string := v]> ∅) in
  ProfilerMiddleware.profile_active on ∅ (q "False"%string) = false
  /\ ProfilerMiddleware.profile_active off ∅ (q "TRUE"%string) = true
  /\ ProfilerMiddleware.profile_active off
       (<["FASTAPI_SIMPLE_PROFILER_ENABLED"%string := "True"%string]> ∅)
       (MkRequest "/items/1" "GET" ∅) = true.
Proof.
  cbv zeta. split; [|split].
  - apply (activation_precedence (ProfilerMiddleware.Mk true "profile") ∅);
      [reflexivity|]. exists "False"%string. split; reflexivity.
  - apply (activation_precedence (ProfilerMiddleware.Mk false "profile") ∅);
      [reflexivity|]. left. exists "TRUE"%string. split; reflexivity.
  - apply (activation_precedence (ProfilerMiddleware.Mk false "profile"));
      [reflexivity|]. right. exists "True"%string. split; reflexivity.
Defined.

(** The decision for all three signals at once. *)
Lemma profile_active_table (p : string) (environ : gmap string string)
    (request : Request) :
  ProfilerMiddleware.profile_active (ProfilerMiddleware.Mk true p) environ request
  = negb (ProfilerMiddleware.is_disabled_by_query (ProfilerMiddleware.Mk true p) request)
  /\ ProfilerMiddleware.profile_active (ProfilerMiddleware.Mk false p) environ request
     = (ProfilerMiddleware.is_enabled_by_query (ProfilerMiddleware.Mk false p) request
        || ProfilerMiddleware.is_enabled_by_env environ).
Proof.
  unfold ProfilerMiddleware.profile_active. simpl. split.
  - apply orb_false_r.
  - reflexivity.
Qed.

(** ** Requests whose handler raises *)

Lemma run_catch {A : Type} (p : prog A) (w : world) :
  run (catch p) w =
  match run p w with
  | (Returned a, w') => (Returned (Ok a), w')
  | (Raised e, w') => (Returned (Err e), w')
  | (Blocked, w') => (Blocked, w')
  end.
Proof.
  revert w. induction p as [a|e|C op k IH|k IH]; intros w; simpl; try reflexivity.
  - destruct (op w) as [b w']. apply IH.
  - destruct (_lock w); [reflexivity | apply IH].
Qed.

Lemma wp_call {L R B : Type} (f : L -> prog B) (set : B -> L -> L) (l : L)
    (Q : L * signal R -> world -> Prop) (w : world) :
  match run (f l) w with
  | (Returned b, w') => Q (set b l, Normal) w'
  | (Raised e, w') => Q (l, Raising e) w'
  | (Blocked, _) => False
  end ->
  wp (call f set l) Q w.
Proof.
  unfold wp, call. rewrite run_bind, run_catch.
  destruct (run (f l) w) as [[b|e|] w']; simpl; auto.
Qed.

Lemma store_alloc (w : world) (self : loc) (l : list loc) (c : Z) (o : obj) :
  entries w self = Some l ->
  capacity w self = Some c ->
  entries (set_heap (heap w ++ [o]) w) self = Some l
  /\ capacity (set_heap (heap w ++ [o]) w) self = Some c
  /\ data_loc (set_heap (heap w ++ [o]) w) self <> Some (length (heap w)).
Proof.
  intros He Hc. destruct (store_inv _ _ _ _ He Hc) as (d & Hs & Hd).
  destruct (store_frame w (set_heap (heap w ++ [o]) w) self l c He Hc) as [H1 H2].
  { intros x Hx. simpl. apply lookup_alloc_old. exact Hx. }
  split; [exact H1|]. split; [exact H2|].
  unfold data_loc. simpl.
  rewrite lookup_alloc_old by (eapply lookup_lt_Some; eauto).
  rewrite Hs. intros [= ->]. apply lookup_lt_Some in Hd. lia.
Qed.

(** Recording the entry of a request that has a response. *)
Lemma wp_record_profile_data (rt : pyruntime) (pr : probe) (inst : loc)
    (request : Request) (lcl : ProfilerMiddleware.locals) (r : Response)
    (w : world) (l : list loc) (c : Z) :
  ProfilerMiddleware.response lcl = Some r ->
  _lock w = false ->
  entries w inst = Some l ->
  capacity w inst = Some c ->
  wp (ProfilerMiddleware.record_profile_data rt pr inst request lcl)
     (fun _ w' =>
        entries w' inst = Some (prune c (l ++ [length (heap w)]))
        /\ capacity w' inst = Some c
        /\ _lock w' = false
        /\ exists d, dict_at w' (length (heap w)) = Some d
                     /\ d !! "StatusCode"%string = Some (PyInt (status_code r))) w.
Proof.
  intros Hr Hl He Hc.
  unfold ProfilerMiddleware.record_profile_data, ProfilerMiddleware.profile_data.
  rewrite Hr. apply wp_bind_atomic. cbn [fst snd alloc].
  match goal with |- context [ODict ?d0] => set (d := d0) end.
  destruct (store_alloc w inst l c (ODict d) He Hc) as (He' & Hc' & Hd').
  eapply wp_mono;
    [| apply (wp_add_profile_data _ inst (length (heap w)) l c); [exact Hl | exact He' | exact Hc']].
  cbn beta. intros _ w' [H1 H2 H3 H4 _ H6].
  split; [exact H1|]. split; [exact H2|]. split; [simpl in H3; congruence|].
  exists d. split.
  - unfold dict_at. rewrite H6.
    + simpl. rewrite lookup_alloc_new. reflexivity.
    + intros Heq. destruct (store_inv _ _ _ _ He Hc) as (d0 & Hs & _).
      apply lookup_lt_Some in Hs. lia.
    + exact Hd'.
    + simpl. rewrite length_app. simpl. lia.
  - unfold d. rewrite !lookup_insert_ne by discriminate.
    apply lookup_insert_eq.
Qed.

(** The end of the [finally] block of [dispatch], from locals that hold a
    response: the entry is recorded and the block returns the response. *)
Lemma wp_record_and_return (rt : pyruntime) (pr : probe) (inst : loc)
    (request : Request) (lcl : ProfilerMiddleware.locals) (r : Response)
    (w : world) (l : list loc) (c : Z) :
  ProfilerMiddleware.response lcl = Some r ->
  _lock w = false ->
  entries w inst = Some l ->
  capacity w inst = Some c ->
  wp (seq_stmt (call (ProfilerMiddleware.record_profile_data rt pr inst request)
                     (fun _ l0 => l0))
               (return_ ProfilerMiddleware.response) lcl)
     (fun a w' =>
        snd a = Return (Some r)
        /\ entries w' inst = Some (prune c (l ++ [length (heap w)]))
        /\ capacity w' inst = Some c
        /\ _lock w' = false
        /\ exists d, dict_at w' (length (heap w)) = Some d
                     /\ d !! "StatusCode"%string = Some (PyInt (status_code r))) w.
Proof.
  intros Hresp Hl He Hc. unfold seq_stmt, return_.
  apply wp_bind. apply wp_call.
  pose proof (wp_record_profile_data rt pr inst request lcl r w l c Hresp Hl He Hc) as H.
  unfold wp in H.
  destruct (run (ProfilerMiddleware.record_profile_data rt pr inst request lcl) w)
    as [[[]| |] w']; try contradiction.
  cbn [snd fst]. apply wp_ret. cbn [snd fst]. rewrite Hresp.
  split; [reflexivity | exact H].
Qed.

(** C8, run on the code.  The handler raises an exception of class
    [Exception].  [dispatch] records one entry for the request, with
    status 500, and then returns the placeholder response: the [return]
    in the [finally] block ends the call, and the exception that
    [raise e] had put in flight is discarded instead of reaching the
    caller. *)
Theorem dispatch_swallows_exception (rt : pyruntime) (environ : gmap string string)
    (pr : probe) (inst : loc) (self : ProfilerMiddleware.t) (request : Request)
    (call_next : Request -> prog Response) (e : exn)
    (w w1 : world) (l : list loc) (c : Z) :
  run (call_next request) w = (Raised e, w1) ->
  is_Exception e = true ->
  (forall e', cpu_time pr = Err e' -> is_Exception e' = true) ->
  _lock w1 = false ->
  entries w1 inst = Some l ->
  capacity w1 inst = Some c ->
  exists w',
    run (ProfilerMiddleware.dispatch rt environ pr inst self request call_next) w
    = (Returned (Some (MkResponse "Internal Server Error" 500)), w')
    /\ entries w' inst = Some (prune c (l ++ [length (heap w1)]))
    /\ exists d, dict_at w' (length (heap w1)) = Some d
                 /\ d !! "StatusCode"%string = Some (PyInt 500).
Proof.
  intros Hcn He Hcpu Hl Hen Hc.
  enough (H : wp (ProfilerMiddleware.dispatch rt environ pr inst self request call_next)
                 (fun r w' => r = Some (MkResponse "Internal Server Error" 500)
                    /\ entries w' inst = Some (prune c (l ++ [length (heap w1)]))
                    /\ exists d, dict_at w' (length (heap w1)) = Some d
                                 /\ d !! "StatusCode"%string = Some (PyInt 500)) w).
  { apply wp_run in H. destruct H as (r & w' & Hrun & -> & H1 & H2). eauto. }
  pose proof (fun lcl Hresp =>
                wp_record_and_return rt pr inst request lcl
                  (MkResponse "Internal Server Error" 500) w1 l c Hresp Hl Hen Hc)
    as Hrest.
  unfold ProfilerMiddleware.dispatch, def, try_finally_stmt, try_except_Exception.
  apply wp_bind. apply wp_bind. apply wp_bind.
  apply wp_call. rewrite Hcn. cbn [snd fst]. rewrite He.
  unfold seq_stmt at 1. unfold if_ at 1. unfold assign, raise, skip.
  cbn [ProfilerMiddleware.response is_None].
  apply wp_bind. apply wp_ret. cbn [snd fst]. apply wp_ret. cbn [snd fst].
  apply wp_bind. unfold seq_stmt at 1. apply wp_bind. unfold if_.
  destruct (ProfilerMiddleware.profiler _);
    [destruct (cpu_time pr) as [ct|e'] eqn:Hct; [| rewrite (Hcpu e' eq_refl)] |];
    unfold assign, skip; apply wp_ret; cbn [snd fst];
    (eapply wp_mono; [| apply Hrest; reflexivity]);
    cbn beta; intros [lf sg] w' (Hsg & H1 & _ & _ & H2); cbn [snd fst] in *; subst sg;
    apply wp_ret; cbn [snd fst]; apply wp_ret; auto.
Qed.

Lemma dispatch_swallows_exception_witness :
  is_Exception (OtherException "RuntimeError") = true
  /\ exists w',
       run (ProfilerMiddleware.dispatch example_runtime ∅ example_probe 0%nat
              (ProfilerMiddleware.Mk false "profile") example_request
              (fun _ => Raise (OtherException "RuntimeError")))
           (example_store 10 0)
       = (Returned (Some (MkResponse "Internal Server Error" 500)), w')
       /\ entries w' 0%nat = Some (prune 10 ([] ++ [2%nat])).
Proof.
  split; [reflexivity|].
  destruct (dispatch_swallows_exception example_runtime ∅ example_probe 0%nat
              (ProfilerMiddleware.Mk false "profile") example_request
              (fun _ => Raise (OtherException "RuntimeError"))
              (OtherException "RuntimeError")
              (example_store 10 0) (example_store 10 0) [] 10)
    as (w' & H1 & H2 & _);
    [reflexivity | reflexivity | intros e' H; discriminate H
     | reflexivity | reflexivity | reflexivity |].
  exists w'. auto.
Defined.

(** The same request, run: what the caller of [dispatch] gets, the
    number of entries recorded, and the status of the recorded entry. *)
Example dispatch_failing_handler_run :
  let r := run (ProfilerMiddleware.dispatch example_runtime ∅ example_probe 0%nat
                  (ProfilerMiddleware.Mk false "profile") example_request
                  (fun _ => Raise (OtherException "RuntimeError")))
               (example_store 10 0) in
  fst r = Returned (Some (MkResponse "Internal Server Error" 500))
  /\ entries (snd r) 0%nat = Some [2%nat]
  /\ (dict_at (snd r) 2%nat ≫= (fun d : gmap string pyval => d !! "StatusCode"%string))
     = Some (PyInt 500).
Proof. vm_compute. auto. Qed.

(** A handler that returns: the response goes through and one entry with
    its status is recorded. *)
Lemma dispatch_records_response (rt : pyruntime) (environ : gmap string string)
    (pr : probe) (inst : loc) (self : ProfilerMiddleware.t) (request : Request)
    (call_next : Request -> prog Response) (r : Response)
    (w w1 : world) (l : list loc) (c : Z) :
  run (call_next request) w = (Returned r, w1) ->
  (forall e', cpu_time pr = Err e' -> is_Exception e' = true) ->
  _lock w1 = false ->
  entries w1 inst = Some l ->
  capacity w1 inst = Some c ->
  exists w',
    run (ProfilerMiddleware.dispatch rt environ pr inst self request call_next) w
    = (Returned (Some r), w')
    /\ entries w' inst = Some (prune c (l ++ [length (heap w1)]))
    /\ exists d, dict_at w' (length (heap w1)) = Some d
                 /\ d !! "StatusCode"%string = Some (PyInt (status_code r)).
Proof.
  intros Hcn Hcpu Hl Hen Hc.
  enough (H : wp (ProfilerMiddleware.dispatch rt environ pr inst self request call_next)
                 (fun r0 w' => r0 = Some r
                    /\ entries w' inst = Some (prune c (l ++ [length (heap w1)]))
                    /\ exists d, dict_at w' (length (heap w1)) = Some d
                                 /\ d !! "StatusCode"%string = Some (PyInt (status_code r))) w).
  { apply wp_run in H. destruct H as (r0 & w' & Hrun & -> & H1 & H2). eauto. }
  pose proof (fun lcl Hresp =>
                wp_record_and_return rt pr inst request lcl r w1 l c Hresp Hl Hen Hc)
    as Hrest.
  unfold ProfilerMiddleware.dispatch, def, try_finally_stmt, try_except_Exception.
  apply wp_bind. apply wp_bind. apply wp_bind.
  apply wp_call. rewrite Hcn. cbn [snd fst]. apply wp_ret. cbn [snd fst].
  apply wp_bind. unfold seq_stmt at 1. apply wp_bind. unfold if_.
  destruct (ProfilerMiddleware.profiler _);
    [destruct (cpu_time pr) as [ct|e'] eqn:Hct; [| rewrite (Hcpu e' eq_refl)] |];
    unfold assign, skip; apply wp_ret; cbn [snd fst];
    (eapply wp_mono; [| apply Hrest; reflexivity]);
    cbn beta; intros [lf sg] w' (Hsg & H1 & _ & _ & H2); cbn [snd fst] in *; subst sg;
    apply wp_ret; cbn [snd fst]; apply wp_ret; auto.
Qed.

(** A handler that raises outside [Exception] (a cancelled request): the
    [except] clause does not run, [response] is still [None] in the
    [finally] block, reading [response.status_code] raises, and no entry
    is recorded. *)
Lemma dispatch_base_exception_not_recorded (rt : pyruntime)
    (environ : gmap string string) (pr : probe) (inst : loc)
    (self : ProfilerMiddleware.t) (request : Request)
    (call_next : Request -> prog Response) (e : exn) (w w1 : world) :
  run (call_next request) w = (Raised e, w1) ->
  is_Exception e = false ->
  (forall e', cpu_time pr = Err e' -> is_Exception e' = true) ->
  run (ProfilerMiddleware.dispatch rt environ pr inst self request call_next) w
  = (Raised (AttributeError "status_code"), w1).
Proof.
  intros Hcn He Hcpu.
  unfold ProfilerMiddleware.dispatch, def, try_finally_stmt, try_except_Exception.
  rewrite !run_bind. unfold call at 1. rewrite run_bind, run_catch, Hcn.
  cbn [run snd fst]. rewrite He. cbn [run snd fst].
  unfold seq_stmt at 1. rewrite run_bind. unfold if_.
  destruct (ProfilerMiddleware.profiler _);
    [destruct (cpu_time pr) as [ct|e'] eqn:Hct; [| rewrite (Hcpu e' eq_refl)] |];
    reflexivity.
Qed.

(** * Threads *)

(** One thread alone takes the steps of [run]. *)
Lemma run_tstep {A : Type} (p p' : prog A) (w w' : world) :
  tstep p w = Some (p', w') -> run p w = run p' w'.
Proof.
  destruct p as [a|e|B op k|k]; simpl; try discriminate.
  - destruct (op w) as [b w1]. intros [= <- <-]. reflexivity.
  - destruct (_lock w); [discriminate|]. intros [= <- <-]. reflexivity.
Qed.

(** C5, run on the code.  [configure] does not take the lock.  (1) While
    the thread in [add_profile_data] holds the lock, the thread in
    [configure] runs from its first step to its last and changes the
    capacity and the entries.  (2) A second [add_profile_data], in the
    same place, waits.  (3) Interleaved with [add_profile_data],
    [configure] loses the entry just recorded: both calls return and the
    store holds the older entry 3, where either order of the two calls
    one after the other leaves the entry 9.  (Threads that only call
    [add_profile_data] do exclude each other: [concurrent_records].) *)
Theorem configure_ignores_lock :
  (exists w' p,
      run_schedule (1 :: replicate 8 0)%nat (example_store 1000 2, race_threads)
      = Some (w', [Ret tt; p])
      /\ finished p = false /\ _lock w' = true
      /\ capacity w' 0%nat = Some 1 /\ entries w' 0%nat = Some [3%nat])
  /\ run_schedule [1; 0]%nat
       (example_store 1000 2,
        [FastAPIProfiler.add_profile_data 0%nat 8%nat;
         FastAPIProfiler.add_profile_data 0%nat 9%nat]) = None
  /\ (exists w',
        run_schedule (replicate 7 0 ++ replicate 11 1 ++ [0])%nat
                     (example_store 1000 2, race_threads)
        = Some (w', [Ret tt; Ret tt])
        /\ _lock w' = false
        /\ capacity w' 0%nat = Some 1 /\ entries w' 0%nat = Some [3%nat])
  /\ entries (snd (run (FastAPIProfiler.configure 0%nat 1 ;;
                        FastAPIProfiler.add_profile_data 0%nat 9%nat)
                       (example_store 1000 2))) 0%nat = Some [9%nat]
  /\ entries (snd (run (FastAPIProfiler.add_profile_data 0%nat 9%nat ;;
                        FastAPIProfiler.configure 0%nat 1)
                       (example_store 1000 2))) 0%nat = Some [9%nat].
Proof.
  split; [|split; [|split; [|split]]].
  - eexists _, _. split; [vm_compute; reflexivity|]. vm_compute. auto.
  - vm_compute. reflexivity.
  - eexists. split; [vm_compute; reflexivity|]. vm_compute. auto.
  - vm_compute. reflexivity.
  - vm_compute. reflexivity.
Qed.

(** ** Threads that only record *)

(** The critical section of [add_profile_data], step by step: the thread
    that holds the lock appends [x], prunes if the list has grown past
    the capacity, and releases the lock with its last step. *)
Lemma add_profile_data_critical (w : world) (self x d : loc) (l : list loc) (c : Z) :
  heap w !! self = Some (OProfiler (Some d) (Some c)) ->
  heap w !! d = Some (OList l) ->
  _lock w = true ->
  exists wf d',
    holds_until_done
      (try_finally
         (d <- prim (getattr_profiled_requests_data self) ;;
          prim (list_append d x) ;;
          FastAPIProfiler._prune_old_data self)
         release)
      w wf
    /\ _lock wf = false
    /\ heap wf !! self = Some (OProfiler (Some d') (Some c))
    /\ heap wf !! d' = Some (OList (prune c (l ++ [x]))).
Proof.
  intros Hs Hd Hl.
  assert (Hne : self <> d) by (eapply store_locs_differ; eauto).
  assert (Hdl : (d < length (heap w))%nat) by (eapply lookup_lt_Some; eauto).
  assert (Hsl : (self < length (heap w))%nat) by (eapply lookup_lt_Some; eauto).
  remember (set_heap (<[d := OList (l ++ [x])]> (heap w)) w) as w1 eqn:Hw1.
  assert (Hs1 : heap w1 !! self = Some (OProfiler (Some d) (Some c))).
  { rewrite Hw1. simpl. rewrite list_lookup_insert_ne by congruence. exact Hs. }
  assert (Hd1 : heap w1 !! d = Some (OList (l ++ [x]))).
  { rewrite Hw1. simpl. apply list_lookup_insert_eq. exact Hdl. }
  assert (Hl1 : _lock w1 = true) by (rewrite Hw1; exact Hl).
  assert (Hlen1 : length (heap w1) = length (heap w)).
  { rewrite Hw1. simpl. apply length_insert. }
  destruct (c <? Z.of_nat (length (l ++ [x]))) eqn:Hlt.
  - remember (set_heap (heap w1 ++ [OList (slice_from (- c) (l ++ [x]))]) w1)
      as w2 eqn:Hw2.
    assert (Hs2 : heap w2 !! self = Some (OProfiler (Some d) (Some c))).
    { rewrite Hw2. simpl. rewrite lookup_app_l by lia. exact Hs1. }
    assert (Hl2 : _lock w2 = true) by (rewrite Hw2; exact Hl1).
    exists (set_lock false
              (set_heap (<[self := OProfiler (Some (length (heap w1))) (Some c)]> (heap w2))
                        w2)),
           (length (heap w1)).
    split; [|split; [reflexivity|split]].
    + eapply hud_step; [cbn; rewrite Hs; reflexivity | exact Hl |].
      eapply hud_step;
        [cbn; unfold list_append; rewrite Hd, <- Hw1; reflexivity | exact Hl1 |].
      eapply hud_step; [cbn; rewrite Hs1; reflexivity | exact Hl1 |].
      eapply hud_step; [cbn; rewrite Hd1; reflexivity | exact Hl1 |].
      eapply hud_step; [cbn; rewrite Hs1; reflexivity | exact Hl1 |].
      eapply hud_step; [cbn; rewrite Hlt; cbn; rewrite Hs1; reflexivity | exact Hl1 |].
      eapply hud_step; [cbn; rewrite Hs1; reflexivity | exact Hl1 |].
      eapply hud_step;
        [cbn; unfold list_slice_from; rewrite Hd1; cbn; rewrite <- Hw2; reflexivity
        | exact Hl2 |].
      eapply hud_step;
        [cbn; unfold setattr_profiled_requests_data; rewrite Hs2; reflexivity
        | exact Hl2 |].
      apply hud_last. reflexivity.
    + simpl. apply list_lookup_insert_eq. rewrite Hw2. simpl.
      rewrite length_app. lia.
    + simpl. rewrite list_lookup_insert_ne by lia.
      rewrite Hw2. simpl. unfold prune. rewrite Hlt. apply lookup_alloc_new.
  - exists (set_lock false w1), d.
    split; [|split; [reflexivity|split]].
    + eapply hud_step; [cbn; rewrite Hs; reflexivity | exact Hl |].
      eapply hud_step;
        [cbn; unfold list_append; rewrite Hd, <- Hw1; reflexivity | exact Hl1 |].
      eapply hud_step; [cbn; rewrite Hs1; reflexivity | exact Hl1 |].
      eapply hud_step; [cbn; rewrite Hd1; reflexivity | exact Hl1 |].
      eapply hud_step; [cbn; rewrite Hs1; reflexivity | exact Hl1 |].
      apply hud_last. cbn. rewrite Hlt. reflexivity.
    + exact Hs1.
    + simpl. unfold prune. rewrite Hlt. exact Hd1.
Qed.

Lemma holds_until_done_running (p : prog unit) (w wf : world) :
  holds_until_done p w wf -> finished p = false.
Proof.
  intros H. destruct H as [p w wf H|p p' w w' wf H _ _];
    destruct p; simpl in H; try discriminate; reflexivity.
Qed.

Lemma recorded_done (st : list (loc * bool)) (i : nat) (x : loc) :
  st !! i = Some (x, false) ->
  recorded (<[i := (x, true)]> st) ≡ₚ x :: recorded st.
Proof.
  revert i. induction st as [|[y b] st IH]; intros [|i]; simpl; try discriminate.
  - intros [= -> ->]. reflexivity.
  - intros H. rewrite (IH i H). destruct b; simpl.
    + apply Permutation_swap.
    + reflexivity.
Qed.

Lemma recorded_all (self : loc) (st : list (loc * bool)) :
  Forall (fun p => finished p = true) (map (recorder self) st) ->
  recorded st = map fst st /\ map (recorder self) st = map (fun _ => Ret tt) st.
Proof.
  induction st as [|[x b] st IH]; simpl; intros H.
  - auto.
  - inversion H as [|p ps Hp Hps]; subst. destruct (IH Hps) as [IH1 IH2].
    destruct b; [|discriminate Hp].
    simpl. rewrite IH1. unfold recorder at 1. simpl. rewrite IH2. auto.
Qed.

Lemma map_insert {A B : Type} (f : A -> B) (l : list A) (i : nat) (x : A) :
  map f (<[i := x]> l) = <[i := f x]> (map f l).
Proof.
  revert i. induction l as [|y l IH]; intros [|i]; simpl; try reflexivity.
  rewrite IH. reflexivity.
Qed.

Lemma map_fst_done (st : list (loc * bool)) (i : nat) (x : loc) (b b' : bool) :
  st !! i = Some (x, b) -> map fst (<[i := (x, b')]> st) = map fst st.
Proof.
  intros H. rewrite map_insert. simpl.
  apply list_insert_id. rewrite lookup_map, H. reflexivity.
Qed.

(** One step of any thread keeps the threads recording. *)
Lemma recording_step (self : loc) (c : Z) (st : list (loc * bool))
    (cf cf' : config unit) (j : nat) :
  1 <= c ->
  recording self c st cf ->
  sched_step j cf = Some cf' ->
  exists st', map fst st' = map fst st /\ recording self c st' cf'.
Proof.
  intros Hc1 Hrec Hstep. destruct cf as [w ts]. unfold sched_step in Hstep.
  cbn [fst snd] in *.
  destruct Hrec as [[(Hl & d & order & Hs & Hd & Hperm) Hts]
                   |(i & x & p & wf & Hi & Hl & Hts & Hhud & Hq)];
    cbn [fst snd] in *; subst ts.
  - rewrite lookup_map in Hstep.
    destruct (st !! j) as [[y b]|] eqn:Hj; simpl in Hstep; [|discriminate].
    destruct b; [discriminate|].
    unfold recorder, FastAPIProfiler.add_profile_data, with_lock in Hstep.
    cbn [fst snd tstep] in Hstep. rewrite Hl in Hstep.
    injection Hstep as <-.
    destruct (add_profile_data_critical (set_lock true w) self y d
                (lastn (Z.to_nat c) order) c Hs Hd eq_refl)
      as (wf & d' & Hhud & Hlf & Hsf & Hdf).
    exists st. split; [reflexivity|]. right.
    exists j, y. eexists _, wf. cbn [fst snd].
    split; [exact Hj|]. split; [reflexivity|]. split; [reflexivity|].
    split; [exact Hhud|].
    split; [exact Hlf|]. exists d', (order ++ [y]).
    split; [exact Hsf|]. split.
    + rewrite Hdf, prune_lastn by exact Hc1. rewrite lastn_app_lastn. reflexivity.
    + rewrite (recorded_done st j y Hj), <- Hperm.
      symmetry. apply Permutation_cons_append.
  - assert (Hil : (i < length (map (recorder self) st))%nat).
    { rewrite length_map. eapply lookup_lt_Some; eauto. }
    destruct (decide (j = i)) as [->|Hji].
    + rewrite list_lookup_insert_eq in Hstep by exact Hil.
      destruct (tstep p w) as [[p' w']|] eqn:Hp; [|discriminate].
      injection Hstep as <-.
      destruct Hhud as [p w wf Hlast|p p'' w w'' wf Hnext Hl' Hhud].
      * rewrite Hlast in Hp. injection Hp as <- <-.
        exists (<[i := (x, true)]> st).
        split; [eapply map_fst_done; eauto|]. left. cbn [fst snd].
        split; [exact Hq|].
        rewrite list_insert_insert_eq, map_insert. reflexivity.
      * rewrite Hnext in Hp. injection Hp as <- <-.
        exists st. split; [reflexivity|]. right.
        exists i, x, p'', wf. cbn [fst snd].
        rewrite list_insert_insert_eq. auto.
    + rewrite list_lookup_insert_ne in Hstep by congruence.
      rewrite lookup_map in Hstep.
      destruct (st !! j) as [[y b]|] eqn:Hj; simpl in Hstep; [|discriminate].
      destruct b; [discriminate|].
      unfold recorder, FastAPIProfiler.add_profile_data, with_lock in Hstep.
      cbn [fst snd tstep] in Hstep. rewrite Hl in Hstep. discriminate.
Qed.

Lemma recording_run (self : loc) (c : Z) (s : list nat) (st : list (loc * bool))
    (cf cf' : config unit) :
  1 <= c ->
  recording self c st cf ->
  run_schedule s cf = Some cf' ->
  exists st', map fst st' = map fst st /\ recording self c st' cf'.
Proof.
  revert st cf. induction s as [|j s IH]; intros st cf Hc1 Hrec Hrun; simpl in Hrun.
  - injection Hrun as <-. exists st. auto.
  - destruct (sched_step j cf) as [cf1|] eqn:Hstep; [|discriminate].
    destruct (recording_step self c st cf cf1 j Hc1 Hrec Hstep) as (st1 & E1 & R1).
    destruct (IH st1 cf1 Hc1 R1 Hrun) as (st' & E' & R').
    exists st'. split; [congruence | exact R'].
Qed.

(** A thread between calls is not inside one. *)
Lemma recorder_not_in_call (self : loc) (st : list (loc * bool)) (xs : list loc)
    (i : nat) (x : loc) (p : prog unit) :
  map fst st = xs ->
  xs !! i = Some x ->
  map (recorder self) st !! i = Some p ->
  ~ in_call self x p.
Proof.
  intros Hst Hx Hp [Hne Hfin]. rewrite lookup_map in Hp.
  rewrite <- Hst, lookup_map in Hx.
  destruct (st !! i) as [[y b]|]; simpl in Hx, Hp; [|discriminate].
  injection Hx as ->. injection Hp as <-.
  unfold recorder in Hne, Hfin. simpl in Hne, Hfin.
  destruct b; [discriminate Hfin | congruence].
Qed.

(** Threads that only record exclude each other.  Each thread calls
    [add_profile_data] once, on a store that starts empty.  Whatever the
    schedule, and at every moment of it: at most one thread is inside its
    call, and whenever one is, the lock is held.  Once all the calls have
    returned, the store holds what one call after the other, in some
    order, leaves: the last [c] entries of that order. *)
Theorem concurrent_records (self : loc) (xs : list loc) (w : world) (c : Z)
    (s : list nat) (w' : world) (ts' : list (prog unit)) :
  _lock w = false ->
  entries w self = Some [] ->
  capacity w self = Some c ->
  1 <= c ->
  run_schedule s (w, map (FastAPIProfiler.add_profile_data self) xs) = Some (w', ts') ->
  (forall i j xi xj pi pj,
      xs !! i = Some xi -> xs !! j = Some xj ->
      ts' !! i = Some pi -> ts' !! j = Some pj ->
      in_call self xi pi -> in_call self xj pj -> i = j)
  /\ (forall i xi pi,
        xs !! i = Some xi -> ts' !! i = Some pi -> in_call self xi pi ->
        _lock w' = true)
  /\ (Forall (fun p => finished p = true) ts' ->
      exists order,
        order ≡ₚ xs
        /\ entries w' self = Some (lastn (Z.to_nat c) order)
        /\ capacity w' self = Some c /\ _lock w' = false
        /\ ts' = map (fun _ => Ret tt) xs).
Proof.
  intros Hl He Hc Hc1 Hrun.
  destruct (store_inv _ _ _ _ He Hc) as (d & Hs & Hd).
  set (st := map (fun x => (x, false)) xs).
  assert (Hst : map fst st = xs).
  { unfold st. rewrite map_map. simpl. apply map_id. }
  assert (Hrec0 : recording self c st (w, map (FastAPIProfiler.add_profile_data self) xs)).
  { left. cbn [fst snd]. split.
    - split; [exact Hl|]. exists d, []. split; [exact Hs|].
      split; [unfold lastn; rewrite drop_nil; exact Hd|].
      unfold st. clear. induction xs; simpl; auto.
    - unfold st. rewrite map_map. reflexivity. }
  destruct (recording_run self c s st
              (w, map (FastAPIProfiler.add_profile_data self) xs) (w', ts'))
    as (st' & E' & R'); [exact Hc1 | exact Hrec0 | exact Hrun |].
  rewrite Hst in E'.
  destruct R' as [[(Hl' & d' & order & Hs' & Hd' & Hperm) Hts]
                 |(i0 & x0 & p0 & wf & Hi0 & Hl' & Hts & Hhud & _)];
    cbn [fst snd] in *; subst ts'.
  - split; [|split].
    + intros i j xi xj pi pj Hxi _ Hpi _ Hin _. exfalso.
      exact (recorder_not_in_call self st' xs i xi pi E' Hxi Hpi Hin).
    + intros i xi pi Hxi Hpi Hin. exfalso.
      exact (recorder_not_in_call self st' xs i xi pi E' Hxi Hpi Hin).
    + intros Hfin. destruct (recorded_all self st' Hfin) as [Hall Hret].
      exists order. split; [rewrite Hperm, Hall, E'; reflexivity|].
      split; [eapply entries_intro; eauto|].
      split; [unfold capacity; rewrite Hs'; reflexivity|].
      split; [exact Hl'|].
      rewrite Hret, <- E', map_map. reflexivity.
  - assert (Hil : (i0 < length (map (recorder self) st'))%nat).
    { rewrite length_map. eapply lookup_lt_Some; eauto. }
    assert (Hother : forall i xi pi,
               xs !! i = Some xi ->
               <[i0 := p0]> (map (recorder self) st') !! i = Some pi ->
               in_call self xi pi -> i = i0).
    { intros i xi pi Hxi Hpi Hin. destruct (decide (i = i0)) as [->|Hne]; [reflexivity|].
      exfalso. rewrite list_lookup_insert_ne in Hpi by congruence.
      exact (recorder_not_in_call self st' xs i xi pi E' Hxi Hpi Hin). }
    split; [|split].
    + intros i j xi xj pi pj Hxi Hxj Hpi Hpj Hini Hinj.
      rewrite (Hother i xi pi Hxi Hpi Hini), (Hother j xj pj Hxj Hpj Hinj).
      reflexivity.
    + intros _ _ _ _ _ _. exact Hl'.
    + intros Hfin. exfalso. rewrite Forall_lookup in Hfin.
      specialize (Hfin i0 p0 (list_lookup_insert_eq _ _ _ Hil)).
      rewrite (holds_until_done_running p0 w' wf Hhud) in Hfin. discriminate.
Qed.

(** Three threads and room for two entries: the threads run one after the
    other in the order 2, 0, 1, and the third call prunes. *)
Lemma concurrent_records_witness :
  1 <= 2
  /\ match run_schedule (replicate 7 2 ++ replicate 7 0 ++ replicate 11 1)%nat
             (example_store 2 0,
              map (FastAPIProfiler.add_profile_data 0%nat) [7; 8; 9]%nat) with
     | Some (w', _) =>
         exists order, order ≡ₚ [7; 8; 9]%nat
                       /\ entries w' 0%nat = Some (lastn 2 order)
     | None => False
     end.
Proof.
  split; [lia|].
  destruct (run_schedule (replicate 7 2 ++ replicate 7 0 ++ replicate 11 1)%nat
              (example_store 2 0,
               map (FastAPIProfiler.add_profile_data 0%nat) [7; 8; 9]%nat))
    as [[w' ts']|] eqn:Hr; [|vm_compute in Hr; discriminate Hr].
  assert (Hf : Forall (fun p => finished p = true) ts').
  { assert (E : exists a b c, ts' = [a; b; c] /\ finished a = true
                              /\ finished b = true /\ finished c = true).
    { vm_compute in Hr. injection Hr as _ <-. eexists _, _, _. repeat split. }
    destruct E as (a & b & c & -> & Ha & Hb & Hc). repeat constructor; assumption. }
  destruct (concurrent_records 0%nat [7; 8; 9]%nat (example_store 2 0) 2
              (replicate 7 2 ++ replicate 7 0 ++ replicate 11 1)%nat w' ts')
    as (_ & _ & Hall);
    [reflexivity | reflexivity | reflexivity | lia | exact Hr |].
  destruct (Hall Hf) as (order & H1 & H2 & _).
  exists order. auto.
Defined.

(** * More of the store *)

Lemma lastn_lastn {A : Type} (n m : nat) (l : list A) :
  lastn n (lastn m l) = lastn (Nat.min n m) l.
Proof.
  unfold lastn. rewrite drop_drop, length_drop. f_equal. lia.
Qed.

(** [configure] twice: the capacity is the second one, and the entries are
    the last [min(a, b)]: what the first call evicted does not come back
    when the second call gives more room. *)
Theorem configure_twice (w : world) (self : loc) (l : list loc) (c a b : Z) :
  entries w self = Some l ->
  capacity w self = Some c ->
  1 <= a ->
  1 <= b ->
  exists w',
    run (FastAPIProfiler.configure self a ;; FastAPIProfiler.configure self b) w
    = (Returned tt, w')
    /\ entries w' self = Some (lastn (Z.to_nat (Z.min a b)) l)
    /\ capacity w' self = Some b.
Proof.
  intros He Hc Ha Hb.
  enough (H : wp (FastAPIProfiler.configure self a ;; FastAPIProfiler.configure self b)
                 (fun _ w' => entries w' self = Some (lastn (Z.to_nat (Z.min a b)) l)
                              /\ capacity w' self = Some b) w).
  { apply wp_run in H. destruct H as ([] & w' & Hrun & H1 & H2). eauto. }
  apply wp_bind.
  eapply wp_mono; [| apply (wp_configure w self a l c Ha He Hc)].
  cbn beta. intros _ w1 [H1 H2 _ _ _ _].
  eapply wp_mono; [| apply (wp_configure w1 self b _ a Hb H1 H2)].
  cbn beta. intros _ w2 [E1 E2 _ _ _ _]. split; [|exact E2].
  rewrite E1. f_equal. rewrite !prune_lastn by assumption.
  rewrite lastn_lastn. f_equal. lia.
Qed.

Lemma configure_twice_witness :
  1 <= 2 /\ 1 <= 5
  /\ exists w',
       run (FastAPIProfiler.configure 0%nat 2 ;; FastAPIProfiler.configure 0%nat 5)
           (example_store 10 4)
       = (Returned tt, w')
       /\ entries w' 0%nat = Some (lastn (Z.to_nat (Z.min 2 5)) [2; 3; 4; 5]%nat)
       /\ capacity w' 0%nat = Some 5.
Proof.
  split; [lia|]. split; [lia|].
  apply (configure_twice (example_store 10 4) 0%nat [2; 3; 4; 5]%nat 10 2 5);
    [reflexivity | reflexivity | lia | lia].
Defined.

(** Creating the middleware configures the shared store: with
    [max_retained_requests] below 1 the constructor raises [ValueError]
    and the store is as before; otherwise the store gets that capacity
    and keeps its last [max_retained_requests] entries. *)
Theorem middleware_init (w : world) (inst : loc) (l : list loc) (c : Z)
    (enable : bool) (param : string) (n : Z) :
  entries w inst = Some l ->
  capacity w inst = Some c ->
  (n < 1 ->
   run (ProfilerMiddleware.__init__ inst enable param n) w
   = (Raised (ValueError "max_retained_requests must be at least 1."), w))
  /\ (1 <= n ->
      exists w',
        run (ProfilerMiddleware.__init__ inst enable param n) w
        = (Returned (ProfilerMiddleware.Mk enable param), w')
        /\ entries w' inst = Some (lastn (Z.to_nat n) l)
        /\ capacity w' inst = Some n).
Proof.
  intros He Hc. unfold ProfilerMiddleware.__init__. split; intros Hn.
  - rewrite run_bind, run_configure_invalid by exact Hn. reflexivity.
  - pose proof (wp_configure w inst n l c Hn He Hc) as H.
    apply wp_run in H. destruct H as ([] & w' & Hrun & [H1 H2 _ _ _ _]).
    exists w'. rewrite run_bind, Hrun. cbn [run].
    rewrite <- prune_lastn by exact Hn. auto.
Qed.

Lemma middleware_init_witness :
  run (ProfilerMiddleware.__init__ 0%nat false "profile" 0) (example_store 10 4)
  = (Raised (ValueError "max_retained_requests must be at least 1."),
     example_store 10 4)
  /\ exists w',
       run (ProfilerMiddleware.__init__ 0%nat false "profile" 3) (example_store 10 4)
       = (Returned (ProfilerMiddleware.Mk false "profile"), w')
       /\ entries w' 0%nat = Some (lastn (Z.to_nat 3) [2; 3; 4; 5]%nat)
       /\ capacity w' 0%nat = Some 3.
Proof.
  split.
  - apply (middleware_init (example_store 10 4) 0%nat [2; 3; 4; 5]%nat 10
             false "profile" 0); [reflexivity | reflexivity | lia].
  - apply (middleware_init (example_store 10 4) 0%nat [2; 3; 4; 5]%nat 10
             false "profile" 3); [reflexivity | reflexivity | lia].
Defined.

(** * More of the activation decision *)

(** With [enable_by_default] unset, an environment variable that reads
    [true] switches the profiler on for every request: no value of the
    query parameter, [false] included, switches it off. *)
Theorem env_enabled_always_active (self : ProfilerMiddleware.t)
    (environ : gmap string string) (request : Request) (v : string) :
  ProfilerMiddleware.enable_by_default self = false ->
  environ !! "FASTAPI_SIMPLE_PROFILER_ENABLED"%string = Some v ->
  lower v = "true"%string ->
  ProfilerMiddleware.profile_active self environ request = true.
Proof.
  intros Hd Hv Hl.
  unfold ProfilerMiddleware.profile_active, ProfilerMiddleware.is_enabled_by_env.
  rewrite Hd, Hv. simpl. rewrite Hl. simpl. apply orb_true_r.
Qed.

Lemma env_enabled_always_active_witness :
  ProfilerMiddleware.profile_active (ProfilerMiddleware.Mk false "profile")
    (<["FASTAPI_SIMPLE_PROFILER_ENABLED"%string := "TRUE"%string]> ∅)
    (MkRequest "/items/1" "GET" (<["profile"%string := "false"%string]> ∅))
  = true.
Proof.
  apply (env_enabled_always_active _ _ _ "TRUE"%string); reflexivity.
Defined.

(** With [enable_by_default] set, the environment variable plays no part,
    and only a query parameter that reads [false] changes the decision. *)
Theorem default_enabled_ignores_env (self : ProfilerMiddleware.t)
    (environ environ' : gmap string string) (request : Request) :
  ProfilerMiddleware.enable_by_default self = true ->
  ProfilerMiddleware.profile_active self environ request
  = ProfilerMiddleware.profile_active self environ' request
  /\ (lower (default EmptyString
               (query_params request !! ProfilerMiddleware.profile_query_param self))
      <> "false"%string ->
      ProfilerMiddleware.profile_active self environ request = true).
Proof.
  intros Hd. unfold ProfilerMiddleware.profile_active. rewrite Hd. simpl.
  rewrite !orb_false_r. split; [reflexivity|].
  intros Hq. unfold ProfilerMiddleware.is_disabled_by_query,
    ProfilerMiddleware.query_param_value.
  rewrite bool_decide_eq_false_2 by exact Hq. reflexivity.
Qed.

Lemma default_enabled_ignores_env_witness :
  let on := ProfilerMiddleware.Mk true "profile" in
  let rq := MkRequest "/items/1" "GET" (<["profile"%string := "no"%string]> ∅) in
  ProfilerMiddleware.profile_active on ∅ rq
  = ProfilerMiddleware.profile_active on
      (<["FASTAPI_SIMPLE_PROFILER_ENABLED"%string := "false"%string]> ∅) rq
  /\ ProfilerMiddleware.profile_active on ∅ rq = true.
Proof.
  cbv zeta.
  destruct (default_enabled_ignores_env (ProfilerMiddleware.Mk true "profile") ∅
              (<["FASTAPI_SIMPLE_PROFILER_ENABLED"%string := "false"%string]> ∅)
              (MkRequest "/items/1" "GET" (<["profile"%string := "no"%string]> ∅))
              eq_refl) as [H1 H2].
  split; [exact H1|]. apply H2. vm_compute. discriminate.
Defined.

(** A query parameter that reads neither [true] nor [false] counts for
    nothing: the decision is the one for a request without it. *)
Theorem unrecognised_query_ignored (self : ProfilerMiddleware.t)
    (environ : gmap string string) (request request' : Request) (v : string) :
  query_params request !! ProfilerMiddleware.profile_query_param self = Some v ->
  lower v <> "true"%string ->
  lower v <> "false"%string ->
  query_params request' !! ProfilerMiddleware.profile_query_param self = None ->
  ProfilerMiddleware.profile_active self environ request
  = ProfilerMiddleware.profile_active self environ request'.
Proof.
  intros Hv Ht Hf Hn.
  unfold ProfilerMiddleware.profile_active, ProfilerMiddleware.is_disabled_by_query,
    ProfilerMiddleware.is_enabled_by_query, ProfilerMiddleware.query_param_value.
  rewrite Hv, Hn. simpl.
  rewrite (bool_decide_eq_false_2 _ Ht), (bool_decide_eq_false_2 _ Hf).
  reflexivity.
Qed.

Lemma unrecognised_query_ignored_witness :
  ProfilerMiddleware.profile_active (ProfilerMiddleware.Mk false "profile") ∅
    (MkRequest "/items/1" "GET" (<["profile"%string := "1"%string]> ∅))
  = ProfilerMiddleware.profile_active (ProfilerMiddleware.Mk false "profile") ∅
      (MkRequest "/items/1" "GET" ∅).
Proof.
  apply (unrecognised_query_ignored _ _ _ _ "1"%string);
    [reflexivity | vm_compute; discriminate | vm_compute; discriminate | reflexivity].
Defined.

(** * The lock *)

Lemma no_acquire_bind {A B : Type} (p : prog A) (f : A -> prog B) :
  no_acquire p -> (forall a, no_acquire (f a)) -> no_acquire (bind p f).
Proof.
  intros Hp Hf. induction Hp as [a|e|C op k _ IH]; simpl.
  - apply Hf.
  - constructor.
  - constructor. exact IH.
Qed.

Lemma no_acquire_prim {B : Type} (op : world -> result B * world) :
  no_acquire (prim op).
Proof. unfold prim. constructor. intros [b|e]; constructor. Qed.

Lemma no_acquire_atomic_ret {B : Type} (op : world -> B * world) :
  no_acquire (Atomic op Ret).
Proof. constructor. intros b. constructor. Qed.

Lemma no_acquire_prune (self : loc) :
  no_acquire (FastAPIProfiler._prune_old_data self).
Proof.
  unfold FastAPIProfiler._prune_old_data.
  repeat (apply no_acquire_bind; [apply no_acquire_prim | intros ?]).
  destruct (_ <? _); [|constructor].
  repeat (apply no_acquire_bind; [apply no_acquire_prim | intros ?]).
  apply no_acquire_prim.
Qed.

(** A program that does not wait for the lock is not left waiting. *)
Lemma no_acquire_not_blocked {A : Type} (p : prog A) (w : world) :
  no_acquire p -> fst (run p w) <> Blocked.
Proof.
  intros Hp. revert w. induction Hp as [a|e|C op k _ IH]; intros w; simpl.
  - discriminate.
  - discriminate.
  - destruct (op w) as [b w']. apply IH.
Qed.

Lemma with_lock_releases {A : Type} (body : prog A) (w : world) :
  no_acquire body ->
  _lock w = false ->
  fst (run (with_lock body) w) <> Blocked
  /\ _lock (snd (run (with_lock body) w)) = false.
Proof.
  intros Hb Hl. unfold with_lock. simpl. rewrite Hl.
  rewrite run_try_finally_release.
  pose proof (no_acquire_not_blocked body (set_lock true w) Hb) as Hnb.
  destruct (run body (set_lock true w)) as [[a|e|] w']; simpl in *.
  - split; [discriminate | reflexivity].
  - split; [discriminate | reflexivity].
  - contradiction.
Qed.

(** Whatever the heap holds (also when the store's attributes are missing
    or refer to something else, so that the call raises),
    [add_profile_data], [get_profile_data] and [clear_data] called with
    the lock free do not wait for it and leave it free. *)
Theorem lock_always_released (w : world) (self x : loc) :
  _lock w = false ->
  (fst (run (FastAPIProfiler.add_profile_data self x) w) <> Blocked
   /\ _lock (snd (run (FastAPIProfiler.add_profile_data self x) w)) = false)
  /\ (fst (run (FastAPIProfiler.get_profile_data self) w) <> Blocked
      /\ _lock (snd (run (FastAPIProfiler.get_profile_data self) w)) = false)
  /\ (fst (run (FastAPIProfiler.clear_data self) w) <> Blocked
      /\ _lock (snd (run (FastAPIProfiler.clear_data self) w)) = false).
Proof.
  intros Hl. split; [|split].
  - apply with_lock_releases; [|exact Hl].
    apply no_acquire_bind; [apply no_acquire_prim | intros d].
    apply no_acquire_bind; [apply no_acquire_prim | intros _].
    apply no_acquire_prune.
  - apply with_lock_releases; [|exact Hl].
    apply no_acquire_bind; [apply no_acquire_prim | intros d].
    apply no_acquire_prim.
  - apply with_lock_releases; [|exact Hl].
    apply no_acquire_bind; [apply no_acquire_atomic_ret | intros l].
    apply no_acquire_prim.
Qed.

(** A store whose [profiled_requests_data] was never set: the call raises
    and the lock is free again. *)
Lemma lock_always_released_witness :
  let w := World [OProfiler None (Some 10)] (Some 0%nat) false in
  run (FastAPIProfiler.add_profile_data 0%nat 5%nat) w
  = (Raised (AttributeError "profiled_requests_data"), w)
  /\ _lock (snd (run (FastAPIProfiler.add_profile_data 0%nat 5%nat) w)) = false.
Proof.
  cbv zeta. split; [reflexivity|].
  apply (lock_always_released (World [OProfiler None (Some 10)] (Some 0%nat) false)
           0%nat 5%nat eq_refl).
Defined.

(** * Reading the store *)

(** [export_to_csv] only reads: the entries, their dictionaries and the
    capacity are as before and the lock is free, so a second export
    gives the same text. *)
Theorem export_reads_only (rt : pyruntime) (w : world) (self : loc)
    (l : list loc) (c : Z) (ds : list (gmap string pyval)) :
  _lock w = false ->
  entries w self = Some l ->
  capacity w self = Some c ->
  mapM (dict_at w) l = Some ds ->
  exists s w',
    run (FastAPIProfiler.export_to_csv rt self) w = (Returned s, w')
    /\ entries w' self = Some l /\ capacity w' self = Some c
    /\ mapM (dict_at w') l = Some ds /\ _lock w' = false
    /\ exists w'', run (FastAPIProfiler.export_to_csv rt self) w' = (Returned s, w'').
Proof.
  intros Hl He Hc Hds.
  pose proof (wp_export_to_csv rt w self l c ds Hl He Hc Hds) as H.
  apply wp_run in H. destruct H as (s & w' & Hrun & -> & ->).
  destruct (store_alloc w self l c (OList l) He Hc) as (He' & Hc' & _).
  assert (Hds' : mapM (dict_at (set_heap (heap w ++ [OList l]) w)) l = Some ds).
  { apply mapM_Some. apply mapM_Some in Hds.
    eapply Forall2_impl; [exact Hds|].
    intros y d Hy. apply dict_at_alloc. exact Hy. }
  eexists _, _. split; [exact Hrun|].
  split; [exact He'|]. split; [exact Hc'|]. split; [exact Hds'|]. split; [exact Hl|].
  pose proof (wp_export_to_csv rt (set_heap (heap w ++ [OList l]) w) self l c ds
                Hl He' Hc' Hds') as H.
  apply wp_run in H. destruct H as (s' & w'' & Hrun' & -> & _).
  exists w''. exact Hrun'.
Qed.

Lemma export_reads_only_witness :
  exists s w',
    run (FastAPIProfiler.export_to_csv example_runtime 0%nat)
        (example_store_of 10 [example_entry]) = (Returned s, w')
    /\ entries w' 0%nat = Some [2%nat] /\ capacity w' 0%nat = Some 10.
Proof.
  destruct (export_reads_only example_runtime (example_store_of 10 [example_entry])
              0%nat [2%nat] 10 [example_entry])
    as (s & w' & H1 & H2 & H3 & _);
    [reflexivity | reflexivity | reflexivity | reflexivity |].
  exists s, w'. auto.
Defined.

Lemma map_Forall2 {A B : Type} (P : A -> A -> Prop) (f g : A -> B) (l l' : list A) :
  Forall2 P l l' -> (forall x y, P x y -> f x = g y) -> map f l = map g l'.
Proof.
  intros H Hfg. induction H as [|x y l l' Hxy _ IH]; simpl; [reflexivity|].
  rewrite (Hfg x y Hxy), IH. reflexivity.
Qed.

Lemma to_csv_same_columns (rt : pyruntime) (ds ds' : list (gmap string pyval)) :
  Forall2 same_columns ds ds' ->
  to_csv rt (Frame desired_columns ds) = to_csv rt (Frame desired_columns ds').
Proof.
  intros H. unfold to_csv. cbn [columns rows]. f_equal. f_equal.
  assert (Hcell : forall d d' col, same_columns d d' -> In col desired_columns ->
                    cell d col = cell d' col).
  { intros d d' col Hs Hin. unfold cell. rewrite (Hs col Hin). reflexivity. }
  assert (Hcol : forall col, In col desired_columns ->
                   map (fun d => cell d col) ds = map (fun d => cell d col) ds').
  { intros col Hin. apply (map_Forall2 same_columns); [exact H|].
    intros d d' Hd. apply Hcell; assumption. }
  apply (map_Forall2 same_columns); [exact H|].
  intros d d' Hd. f_equal. apply map_ext_in. intros col Hin.
  rewrite (Hcol col Hin), (Hcell d d' col Hd Hin). reflexivity.
Qed.

(** The export depends on the six columns only: stores whose entries
    agree on them export the same text, whatever other keys the entries
    carry. *)
Theorem export_six_columns_only (rt : pyruntime) (w w' : world) (self self' : loc)
    (l l' : list loc) (c c' : Z) (ds ds' : list (gmap string pyval)) :
  _lock w = false -> entries w self = Some l -> capacity w self = Some c ->
  mapM (dict_at w) l = Some ds ->
  _lock w' = false -> entries w' self' = Some l' -> capacity w' self' = Some c' ->
  mapM (dict_at w') l' = Some ds' ->
  Forall2 same_columns ds ds' ->
  exists s,
    fst (run (FastAPIProfiler.export_to_csv rt self) w) = Returned s
    /\ fst (run (FastAPIProfiler.export_to_csv rt self') w') = Returned s.
Proof.
  intros Hl He Hc Hds Hl' He' Hc' Hds' Hsame.
  pose proof (wp_export_to_csv rt w self l c ds Hl He Hc Hds) as H.
  apply wp_run in H. destruct H as (s & w1 & Hrun & -> & _).
  pose proof (wp_export_to_csv rt w' self' l' c' ds' Hl' He' Hc' Hds') as H.
  apply wp_run in H. destruct H as (s' & w1' & Hrun' & -> & _).
  eexists. rewrite Hrun, Hrun'. cbn [fst]. split; [reflexivity|].
  f_equal. symmetry. apply to_csv_same_columns. exact Hsame.
Qed.

Lemma export_six_columns_only_witness :
  exists s,
    fst (run (FastAPIProfiler.export_to_csv example_runtime 0%nat)
             (example_store_of 10 [example_entry])) = Returned s
    /\ fst (run (FastAPIProfiler.export_to_csv example_runtime 0%nat)
                (example_store_of 5
                   [<["Note"%string := PyStr "not exported"]> example_entry]))
       = Returned s.
Proof.
  apply (export_six_columns_only example_runtime
           (example_store_of 10 [example_entry])
           (example_store_of 5 [<["Note"%string := PyStr "not exported"]> example_entry])
           0%nat 0%nat [2%nat] [2%nat] 10 5
           [example_entry] [<["Note"%string := PyStr "not exported"]> example_entry]);
    try reflexivity.
  constructor; [|constructor].
  intros col Hin. simpl in Hin.
  destruct Hin as [<-|[<-|[<-|[<-|[<-|[<-|[]]]]]]]; reflexivity.
Defined.

(** ** Snapshots and later calls *)

Lemma wp_conj {A : Type} (p : prog A) (Q Q' : A -> world -> Prop) (w : world) :
  wp p Q w -> wp p Q' w -> wp p (fun a w' => Q a w' /\ Q' a w') w.
Proof.
  unfold wp. destruct (run p w) as [[a| |] w']; auto.
Qed.

(** Where the entries live after a call: where they lived, or in a list
    made during the call. *)
Lemma wp_prune_data_loc (w : world) (self d : loc) (l : list loc) (c : Z) :
  heap w !! self = Some (OProfiler (Some d) (Some c)) ->
  heap w !! d = Some (OList l) ->
  wp (FastAPIProfiler._prune_old_data self)
     (fun _ w' => data_loc w' self = Some d
                  \/ data_loc w' self = Some (length (heap w))) w.
Proof.
  intros Hs Hd. unfold FastAPIProfiler._prune_old_data.
  assert (Hlt : (self < length (heap w))%nat) by (eapply lookup_lt_Some; eauto).
  apply wp_bind. eapply wp_prim.
  { unfold getattr_profiled_requests_data. rewrite Hs. reflexivity. }
  apply wp_bind. eapply wp_prim.
  { unfold list_len. rewrite Hd. reflexivity. }
  apply wp_bind. eapply wp_prim.
  { unfold getattr_max_retained_requests. rewrite Hs. reflexivity. }
  destruct (c <? Z.of_nat (length l)).
  - apply wp_bind. eapply wp_prim.
    { unfold getattr_profiled_requests_data. rewrite Hs. reflexivity. }
    apply wp_bind. eapply wp_prim.
    { unfold getattr_max_retained_requests. rewrite Hs. reflexivity. }
    apply wp_bind. eapply wp_prim.
    { unfold list_slice_from. rewrite Hd. reflexivity. }
    eapply wp_prim.
    { unfold setattr_profiled_requests_data. simpl.
      rewrite lookup_app_l by exact Hlt. rewrite Hs. reflexivity. }
    right. unfold data_loc. simpl.
    rewrite list_lookup_insert_eq by (rewrite length_app; lia). reflexivity.
  - apply wp_ret. left. unfold data_loc. rewrite Hs. reflexivity.
Qed.

Lemma call_op_data_loc (self : loc) (o : op) (w : world) :
  store_ok w self ->
  data_loc (snd (run (call_op self o) w)) self = data_loc w self
  \/ data_loc (snd (run (call_op self o) w)) self = Some (length (heap w)).
Proof.
  intros (l & c & He & Hc & Hc1 & Hlen & Hl).
  destruct (store_inv _ _ _ _ He Hc) as (d & Hs & Hd).
  assert (Hne : self <> d) by (eapply store_locs_differ; eauto).
  assert (Hsl : (self < length (heap w))%nat) by (eapply lookup_lt_Some; eauto).
  assert (Hdl : (d < length (heap w))%nat) by (eapply lookup_lt_Some; eauto).
  assert (Hdw : data_loc w self = Some d) by (unfold data_loc; rewrite Hs; reflexivity).
  rewrite Hdw.
  enough (H : wp (call_op self o)
                 (fun _ w' => data_loc w' self = Some d
                              \/ data_loc w' self = Some (length (heap w))) w
              \/ snd (run (call_op self o) w) = w).
  { destruct H as [H| ->]; [|left; exact Hdw].
    unfold wp in H. destruct (run (call_op self o) w) as [[a| |] w']; tauto. }
  destruct o as [n|x|]; cbn [call_op].
  - destruct (Z.lt_ge_cases n 1) as [Hn|Hn].
    + right. rewrite run_configure_invalid by exact Hn. reflexivity.
    + left. unfold FastAPIProfiler.configure.
      destruct (n <? 1) eqn:Hlt; [apply Z.ltb_lt in Hlt; lia|].
      apply wp_bind. eapply wp_prim.
      { unfold setattr_max_retained_requests. rewrite Hs. reflexivity. }
      eapply wp_mono; [| eapply (wp_prune_data_loc _ self d l n)].
      * cbn beta. simpl. rewrite length_insert. auto.
      * simpl. apply list_lookup_insert_eq. exact Hsl.
      * simpl. rewrite list_lookup_insert_ne by congruence. exact Hd.
  - left. unfold FastAPIProfiler.add_profile_data.
    apply wp_with_lock; [exact Hl|].
    apply wp_bind. eapply wp_prim.
    { unfold getattr_profiled_requests_data. simpl. rewrite Hs. reflexivity. }
    apply wp_bind. eapply wp_prim.
    { unfold list_append. simpl. rewrite Hd. reflexivity. }
    eapply wp_mono; [| eapply (wp_prune_data_loc _ self d (l ++ [x]) c)].
    + cbn beta. simpl. rewrite length_insert. auto.
    + simpl. rewrite list_lookup_insert_ne by congruence. exact Hs.
    + simpl. apply list_lookup_insert_eq. exact Hdl.
  - left. unfold FastAPIProfiler.clear_data.
    apply wp_with_lock; [exact Hl|].
    apply wp_bind_atomic. cbn [fst snd alloc].
    eapply wp_prim.
    { unfold setattr_profiled_requests_data. simpl.
      rewrite lookup_app_l by exact Hsl. rewrite Hs. reflexivity. }
    right. unfold data_loc. simpl.
    rewrite list_lookup_insert_eq by (rewrite length_app; lia). reflexivity.
Qed.

Lemma call_op_frame (self : loc) (o : op) (w : world) (r : loc) :
  store_ok w self ->
  r <> self -> data_loc w self <> Some r -> (r < length (heap w))%nat ->
  heap (snd (run (call_op self o) w)) !! r = heap w !! r.
Proof.
  intros (l & c & He & Hc & Hc1 & Hlen & Hl) Hr Hd Hrl.
  destruct o as [n|x|]; cbn [call_op].
  - destruct (Z.lt_ge_cases n 1) as [Hn|Hn].
    + rewrite run_configure_invalid by exact Hn. reflexivity.
    + pose proof (wp_configure w self n l c Hn He Hc) as H.
      apply wp_run in H. destruct H as ([] & w' & -> & [_ _ _ _ _ H6]).
      apply H6; assumption.
  - pose proof (wp_add_profile_data w self x l c Hl He Hc) as H.
    apply wp_run in H. destruct H as ([] & w' & -> & [_ _ _ _ _ H6]).
    apply H6; assumption.
  - pose proof (wp_clear_data w self l c Hl He Hc) as H.
    apply wp_run in H. destruct H as ([] & w' & -> & [_ _ _ _ _ H6]).
    apply H6; assumption.
Qed.

Lemma run_ops_keeps_list (self : loc) (os : list op) (w : world) (r : loc)
    (l : list loc) :
  store_ok w self ->
  heap w !! r = Some (OList l) ->
  data_loc w self <> Some r ->
  heap (run_ops self os w) !! r = Some (OList l).
Proof.
  unfold run_ops. revert w. induction os as [|o os IH]; intros w Hok Hr Hd; simpl.
  - exact Hr.
  - assert (Hrl : (r < length (heap w))%nat) by (eapply lookup_lt_Some; eauto).
    assert (Hrs : r <> self).
    { intros ->. destruct Hok as (l0 & c & He & Hc & _).
      destruct (store_inv _ _ _ _ He Hc) as (d & Hs & _). congruence. }
    apply IH.
    + apply store_ok_call_op. exact Hok.
    + rewrite call_op_frame; assumption.
    + destruct (call_op_data_loc self o w Hok) as [-> | ->]; [exact Hd|].
      intros [= Heq]. lia.
Qed.

(** A snapshot is the caller's own: whatever calls change the store
    afterwards ([configure], [add_profile_data], [clear_data], in any
    number and order), the list the caller holds still lists the entries
    of the moment it was taken. *)
Theorem snapshot_stable (w : world) (self : loc) (l : list loc) (c : Z) :
  _lock w = false ->
  entries w self = Some l ->
  capacity w self = Some c ->
  1 <= c ->
  Z.of_nat (length l) <= c ->
  exists r w1,
    run (FastAPIProfiler.get_profile_data self) w = (Returned r, w1)
    /\ list_at w1 r = Some l
    /\ forall os, list_at (run_ops self os w1) r = Some l.
Proof.
  intros Hl He Hc Hc1 Hlen.
  pose proof (wp_get_profile_data w self l c Hl He Hc) as H.
  apply wp_run in H. destruct H as (r & w1 & Hrun & -> & ->).
  destruct (store_alloc w self l c (OList l) He Hc) as (He1 & Hc1' & Hd).
  eexists _, _. split; [exact Hrun|].
  assert (Hh : heap (set_heap (heap w ++ [OList l]) w) !! length (heap w)
               = Some (OList l)).
  { simpl. apply lookup_alloc_new. }
  split; [unfold list_at; rewrite Hh; reflexivity|].
  intros os. unfold list_at.
  rewrite (run_ops_keeps_list self os _ _ l); [reflexivity | | exact Hh | exact Hd].
  exists l, c. auto.
Qed.

Lemma snapshot_stable_witness :
  Z.of_nat (length [2; 3; 4]%nat) <= 10
  /\ exists r w1,
       run (FastAPIProfiler.get_profile_data 0%nat) (example_store 10 3)
       = (Returned r, w1)
       /\ list_at w1 r = Some [2; 3; 4]%nat
       /\ list_at (run_ops 0%nat [Record 9%nat; Configure 1; Clear] w1) r
          = Some [2; 3; 4]%nat.
Proof.
  split; [simpl; lia|].
  destruct (snapshot_stable (example_store 10 3) 0%nat [2; 3; 4]%nat 10)
    as (r & w1 & H1 & H2 & H3);
    [reflexivity | reflexivity | reflexivity | lia | simpl; lia |].
  exists r, w1. auto.
Defined.

(** * More of the middleware *)

(** Recording an entry: the store gets a reference to the new dictionary,
    and the dictionaries already there stay as they are. *)
Lemma wp_record_entry (rt : pyruntime) (pr : probe) (inst : loc)
    (request : Request) (lcl : ProfilerMiddleware.locals)
    (d : gmap string pyval) (w : world) (l : list loc) (c : Z) :
  ProfilerMiddleware.profile_data rt pr request lcl = Ok d ->
  _lock w = false ->
  entries w inst = Some l ->
  capacity w inst = Some c ->
  wp (ProfilerMiddleware.record_profile_data rt pr inst request lcl)
     (fun _ w' =>
        entries w' inst = Some (prune c (l ++ [length (heap w)]))
        /\ capacity w' inst = Some c
        /\ _lock w' = false
        /\ dict_at w' (length (heap w)) = Some d
        /\ forall x d0, dict_at w x = Some d0 -> dict_at w' x = Some d0) w.
Proof.
  intros Hd Hl He Hc.
  unfold ProfilerMiddleware.record_profile_data. rewrite Hd.
  apply wp_bind_atomic. cbn [fst snd alloc].
  destruct (store_alloc w inst l c (ODict d) He Hc) as (He' & Hc' & Hd').
  destruct (store_inv _ _ _ _ He Hc) as (d0 & Hs & Hd0).
  assert (Hsl : (inst < length (heap w))%nat) by (eapply lookup_lt_Some; eauto).
  eapply wp_mono;
    [| apply (wp_add_profile_data _ inst (length (heap w)) l c);
       [exact Hl | exact He' | exact Hc']].
  cbn beta. intros _ w' [H1 H2 H3 H4 _ H6].
  split; [exact H1|]. split; [exact H2|]. split; [simpl in H3; congruence|].
  split.
  - unfold dict_at. rewrite H6.
    + simpl. rewrite lookup_alloc_new. reflexivity.
    + lia.
    + exact Hd'.
    + simpl. rewrite length_app. simpl. lia.
  - intros x dx Hx. unfold dict_at in *.
    destruct (heap w !! x) as [[dx'| |]|] eqn:Hhx; try discriminate.
    assert (Hxl : (x < length (heap w))%nat) by (eapply lookup_lt_Some; eauto).
    rewrite H6.
    + simpl. rewrite lookup_alloc_old by exact Hxl. rewrite Hhx. exact Hx.
    + intros ->. congruence.
    + unfold data_loc. simpl. rewrite lookup_alloc_old by exact Hsl.
      rewrite Hs. intros [= ->]. congruence.
    + simpl. rewrite length_app. simpl. lia.
Qed.

(** [dispatch] around a handler that returns. *)
Lemma wp_dispatch_returns (rt : pyruntime) (environ : gmap string string)
    (pr : probe) (inst : loc) (self : ProfilerMiddleware.t) (request : Request)
    (call_next : Request -> prog Response) (r : Response)
    (w w1 : world) (l : list loc) (c : Z) :
  run (call_next request) w = (Returned r, w1) ->
  (forall e', cpu_time pr = Err e' -> is_Exception e' = true) ->
  _lock w1 = false ->
  entries w1 inst = Some l ->
  capacity w1 inst = Some c ->
  wp (ProfilerMiddleware.dispatch rt environ pr inst self request call_next)
     (fun res w' =>
        res = Some r
        /\ entries w' inst = Some (prune c (l ++ [length (heap w1)]))
        /\ capacity w' inst = Some c
        /\ _lock w' = false
        /\ (exists d,
              ProfilerMiddleware.profile_data rt pr request
                (ProfilerMiddleware.Locals
                   (ProfilerMiddleware.profile_active self environ request && Profiler pr)
                   (Some r)
                   (recorded_cpu_time_ms rt pr
                      (ProfilerMiddleware.profile_active self environ request)))
              = Ok d
              /\ dict_at w' (length (heap w1)) = Some d)
        /\ forall x d0, dict_at w1 x = Some d0 -> dict_at w' x = Some d0) w.
Proof.
  intros Hcn Hcpu Hl Hen Hc.
  unfold ProfilerMiddleware.dispatch, def, try_finally_stmt, try_except_Exception.
  apply wp_bind. apply wp_bind. apply wp_bind.
  apply wp_call. rewrite Hcn. cbn [snd fst]. apply wp_ret. cbn [snd fst].
  apply wp_bind. unfold seq_stmt at 1. apply wp_bind. unfold if_.
  unfold recorded_cpu_time_ms.
  set (act := ProfilerMiddleware.profile_active self environ request && Profiler pr).
  cbn [ProfilerMiddleware.profiler ProfilerMiddleware.set_response].
  assert (Hstep : forall cpu,
            wp (seq_stmt (R := option Response)
                  (call (ProfilerMiddleware.record_profile_data rt pr inst request)
                        (fun _ l0 => l0))
                  (return_ ProfilerMiddleware.response)
                  (ProfilerMiddleware.Locals act (Some r) cpu))
               (fun a w' =>
                  snd a = Return (Some r)
                  /\ entries w' inst = Some (prune c (l ++ [length (heap w1)]))
                  /\ capacity w' inst = Some c
                  /\ _lock w' = false
                  /\ (exists d,
                        ProfilerMiddleware.profile_data rt pr request
                          (ProfilerMiddleware.Locals act (Some r) cpu) = Ok d
                        /\ dict_at w' (length (heap w1)) = Some d)
                  /\ forall x d0, dict_at w1 x = Some d0 -> dict_at w' x = Some d0) w1).
  { intros cpu. unfold seq_stmt, return_. apply wp_bind. apply wp_call.
    destruct (ProfilerMiddleware.profile_data rt pr request
                (ProfilerMiddleware.Locals act (Some r) cpu)) as [d|e] eqn:Hd;
      [|discriminate Hd].
    pose proof (wp_record_entry rt pr inst request _ d w1 l c Hd Hl Hen Hc) as H.
    unfold wp in H.
    destruct (run (ProfilerMiddleware.record_profile_data rt pr inst request
                     (ProfilerMiddleware.Locals act (Some r) cpu)) w1)
      as [[[]| |] w']; try contradiction.
    destruct H as (H1 & H2 & H3 & H4 & H5).
    cbn [snd fst]. apply wp_ret. cbn [snd fst ProfilerMiddleware.response].
    repeat split; auto. exists d. auto. }
  destruct act;
    [destruct (cpu_time pr) as [ct|e'] eqn:Hct; [| rewrite (Hcpu e' eq_refl)] |];
    unfold assign, skip; apply wp_ret; cbn [snd fst ProfilerMiddleware.set_cpu_time_ms
      ProfilerMiddleware.profiler ProfilerMiddleware.response];
    (eapply wp_mono; [| apply Hstep]);
    cbn beta; intros [lf sg] w' (Hsg & H1 & H2 & H3 & H4 & H5);
    cbn [snd fst] in *; subst sg;
    apply wp_ret; cbn [snd fst]; apply wp_ret; auto 10.
Qed.

(** Every request whose handler returns is recorded, whether or not the
    profiler is active for it: [dispatch] hands the handler's response
    back as it is and appends one entry with the request's path and
    method, the response's status, the time stamp and the rounded
    duration. *)
Theorem dispatch_entry (rt : pyruntime) (environ : gmap string string)
    (pr : probe) (inst : loc) (self : ProfilerMiddleware.t) (request : Request)
    (call_next : Request -> prog Response) (r : Response)
    (w w1 : world) (l : list loc) (c : Z) :
  run (call_next request) w = (Returned r, w1) ->
  (forall e', cpu_time pr = Err e' -> is_Exception e' = true) ->
  _lock w1 = false ->
  entries w1 inst = Some l ->
  capacity w1 inst = Some c ->
  exists w' d,
    run (ProfilerMiddleware.dispatch rt environ pr inst self request call_next) w
    = (Returned (Some r), w')
    /\ entries w' inst = Some (prune c (l ++ [length (heap w1)]))
    /\ dict_at w' (length (heap w1)) = Some d
    /\ d !! "Timestamp"%string = Some (PyStr (strftime_localtime pr))
    /\ d !! "RequestPath"%string = Some (PyStr (url_path request))
    /\ d !! "HTTPMethod"%string = Some (PyStr (method request))
    /\ d !! "StatusCode"%string = Some (PyInt (status_code r))
    /\ d !! "TotalTimeMs"%string
       = Some (PyFloat (round3 rt ((end_time pr - start_time pr) * 1000)%float))
    /\ dom d = list_to_set desired_columns.
Proof.
  intros Hcn Hcpu Hl Hen Hc.
  pose proof (wp_dispatch_returns rt environ pr inst self request call_next r
                w w1 l c Hcn Hcpu Hl Hen Hc) as H.
  apply wp_run in H.
  destruct H as (res & w' & Hrun & -> & H1 & _ & _ & (d & Hd & Hat) & _).
  exists w', d. split; [exact Hrun|]. split; [exact H1|]. split; [exact Hat|].
  unfold ProfilerMiddleware.profile_data in Hd.
  cbn [ProfilerMiddleware.response] in Hd. injection Hd as <-.
  repeat split;
    try (repeat (rewrite lookup_insert_eq || rewrite lookup_insert_ne by discriminate);
         reflexivity).
Qed.

Lemma dispatch_entry_witness :
  exists w' d,
    run (ProfilerMiddleware.dispatch example_runtime ∅ example_probe 0%nat
           (ProfilerMiddleware.Mk false "profile") example_request
           (fun _ => Ret (MkResponse "ok" 200)))
        (example_store 10 0)
    = (Returned (Some (MkResponse "ok" 200)), w')
    /\ entries w' 0%nat = Some (prune 10 ([] ++ [2%nat]))
    /\ dict_at w' 2%nat = Some d
    /\ d !! "RequestPath"%string = Some (PyStr "/items/1")
    /\ d !! "StatusCode"%string = Some (PyInt 200).
Proof.
  destruct (dispatch_entry example_runtime ∅ example_probe 0%nat
              (ProfilerMiddleware.Mk false "profile") example_request
              (fun _ => Ret (MkResponse "ok" 200)) (MkResponse "ok" 200)
              (example_store 10 0) (example_store 10 0) [] 10)
    as (w' & d & H1 & H2 & H3 & _ & H5 & _ & H7 & _);
    [reflexivity | intros e' H; discriminate H | reflexivity | reflexivity
     | reflexivity |].
  exists w', d. auto.
Defined.

(** [CPUTimeMs] is [0.0] unless a profiler ran and its output could be
    read: with profiling not active for the request, with pyinstrument
    missing, or when reading the profile raised, the entry is recorded
    all the same, with a CPU time of zero. *)
Theorem dispatch_cpu_time_zero (rt : pyruntime) (environ : gmap string string)
    (pr : probe) (inst : loc) (self : ProfilerMiddleware.t) (request : Request)
    (call_next : Request -> prog Response) (r : Response)
    (w w1 : world) (l : list loc) (c : Z) :
  run (call_next request) w = (Returned r, w1) ->
  (forall e', cpu_time pr = Err e' -> is_Exception e' = true) ->
  _lock w1 = false ->
  entries w1 inst = Some l ->
  capacity w1 inst = Some c ->
  ProfilerMiddleware.profile_active self environ request = false
  \/ Profiler pr = false
  \/ (exists e', cpu_time pr = Err e') ->
  exists d,
    dict_at (snd (run (ProfilerMiddleware.dispatch rt environ pr inst self request
                         call_next) w))
            (length (heap w1)) = Some d
    /\ d !! "CPUTimeMs"%string = Some (PyFloat 0%float).
Proof.
  intros Hcn Hcpu Hl Hen Hc Hzero.
  pose proof (wp_dispatch_returns rt environ pr inst self request call_next r
                w w1 l c Hcn Hcpu Hl Hen Hc) as H.
  apply wp_run in H.
  destruct H as (res & w' & Hrun & -> & _ & _ & _ & (d & Hd & Hat) & _).
  exists d. rewrite Hrun. split; [exact Hat|].
  unfold ProfilerMiddleware.profile_data in Hd.
  cbn [ProfilerMiddleware.response ProfilerMiddleware.cpu_time_ms] in Hd.
  injection Hd as <-.
  repeat (rewrite lookup_insert_eq || rewrite lookup_insert_ne by discriminate).
  do 2 f_equal. unfold recorded_cpu_time_ms.
  destruct Hzero as [-> | [-> | [e' ->]]].
  - reflexivity.
  - rewrite andb_false_r. reflexivity.
  - destruct (_ && _); reflexivity.
Qed.

Lemma dispatch_cpu_time_zero_witness :
  exists d,
    dict_at (snd (run (ProfilerMiddleware.dispatch example_runtime ∅ example_probe 0%nat
                         (ProfilerMiddleware.Mk false "profile") example_request
                         (fun _ => Ret (MkResponse "ok" 200)))
                      (example_store 10 0)))
            (length (heap (example_store 10 0))) = Some d
    /\ d !! "CPUTimeMs"%string = Some (PyFloat 0%float).
Proof.
  apply (dispatch_cpu_time_zero example_runtime ∅ example_probe 0%nat
           (ProfilerMiddleware.Mk false "profile") example_request
           (fun _ => Ret (MkResponse "ok" 200)) (MkResponse "ok" 200)
           (example_store 10 0) (example_store 10 0) [] 10);
    [reflexivity | intros e' H; discriminate H | reflexivity | reflexivity
     | reflexivity | left; reflexivity].
Defined.

(** With the profiler active, pyinstrument present and its output read,
    [CPUTimeMs] is the profile's CPU time in milliseconds, rounded. *)
Theorem dispatch_cpu_time_measured (rt : pyruntime) (environ : gmap string string)
    (pr : probe) (inst : loc) (self : ProfilerMiddleware.t) (request : Request)
    (call_next : Request -> prog Response) (r : Response)
    (w w1 : world) (l : list loc) (c : Z) (ct : float) :
  run (call_next request) w = (Returned r, w1) ->
  _lock w1 = false ->
  entries w1 inst = Some l ->
  capacity w1 inst = Some c ->
  ProfilerMiddleware.profile_active self environ request = true ->
  Profiler pr = true ->
  cpu_time pr = Ok ct ->
  exists d,
    dict_at (snd (run (ProfilerMiddleware.dispatch rt environ pr inst self request
                         call_next) w))
            (length (heap w1)) = Some d
    /\ d !! "CPUTimeMs"%string = Some (PyFloat (round3 rt (ct * 1000)%float)).
Proof.
  intros Hcn Hl Hen Hc Hact Hprof Hct.
  assert (Hcpu : forall e', cpu_time pr = Err e' -> is_Exception e' = true).
  { intros e' He. rewrite Hct in He. discriminate. }
  pose proof (wp_dispatch_returns rt environ pr inst self request call_next r
                w w1 l c Hcn Hcpu Hl Hen Hc) as H.
  apply wp_run in H.
  destruct H as (res & w' & Hrun & -> & _ & _ & _ & (d & Hd & Hat) & _).
  exists d. rewrite Hrun. split; [exact Hat|].
  unfold ProfilerMiddleware.profile_data in Hd.
  cbn [ProfilerMiddleware.response ProfilerMiddleware.cpu_time_ms] in Hd.
  injection Hd as <-.
  repeat (rewrite lookup_insert_eq || rewrite lookup_insert_ne by discriminate).
  do 2 f_equal. unfold recorded_cpu_time_ms. rewrite Hact, Hprof, Hct. reflexivity.
Qed.

Lemma dispatch_cpu_time_measured_witness :
  exists d,
    dict_at (snd (run (ProfilerMiddleware.dispatch example_runtime ∅ example_probe 0%nat
                         (ProfilerMiddleware.Mk true "profile") example_request
                         (fun _ => Ret (MkResponse "ok" 200)))
                      (example_store 10 0)))
            (length (heap (example_store 10 0))) = Some d
    /\ d !! "CPUTimeMs"%string
       = Some (PyFloat (round3 example_runtime (0 * 1000)%float)).
Proof.
  apply (dispatch_cpu_time_measured example_runtime ∅ example_probe 0%nat
           (ProfilerMiddleware.Mk true "profile") example_request
           (fun _ => Ret (MkResponse "ok" 200)) (MkResponse "ok" 200)
           (example_store 10 0) (example_store 10 0) [] 10 0%float);
    reflexivity.
Defined.

Lemma dispatch_base_exception_witness :
  is_Exception (OtherBaseException "CancelledError") = false
  /\ run (ProfilerMiddleware.dispatch example_runtime ∅ example_probe 0%nat
            (ProfilerMiddleware.Mk false "profile") example_request
            (fun _ => Raise (OtherBaseException "CancelledError")))
         (example_store 10 0)
     = (Raised (AttributeError "status_code"), example_store 10 0).
Proof.
  split; [reflexivity|].
  apply (dispatch_base_exception_not_recorded example_runtime ∅ example_probe 0%nat
           (ProfilerMiddleware.Mk false "profile") example_request
           (fun _ => Raise (OtherBaseException "CancelledError"))
           (OtherBaseException "CancelledError"));
    [reflexivity | reflexivity | intros e' H; discriminate H].
Defined.

(** ** The endpoints of main.py behind the middleware *)

(** [GET /profiler/clear] behind the middleware: the handler empties the
    store, and then the middleware records the request that did it.  The
    store ends with exactly one entry, the one of the clearing request. *)
Theorem clear_endpoint_records_itself (rt : pyruntime) (environ : gmap string string)
    (pr : probe) (inst : loc) (self : ProfilerMiddleware.t) (request : Request)
    (respond : gmap string string -> Response)
    (w : world) (l : list loc) (c : Z) :
  _lock w = false ->
  entries w inst = Some l ->
  capacity w inst = Some c ->
  1 <= c ->
  (forall e', cpu_time pr = Err e' -> is_Exception e' = true) ->
  exists w' x d,
    run (ProfilerMiddleware.dispatch rt environ pr inst self request
           (fun _ => m <- Main.clear_profiler_data inst ;; Ret (respond m))) w
    = (Returned
         (Some (respond (<["message"%string := "Profiler data cleared."%string]> ∅))),
       w')
    /\ entries w' inst = Some [x]
    /\ dict_at w' x = Some d
    /\ d !! "RequestPath"%string = Some (PyStr (url_path request)).
Proof.
  intros Hl He Hc Hc1 Hcpu.
  pose proof (wp_clear_data w inst l c Hl He Hc) as H.
  apply wp_run in H. destruct H as ([] & w1 & Hrun1 & [H1 H2 H3 _ _ _]).
  assert (Happ : run ((fun _ : Request =>
                         m <- Main.clear_profiler_data inst ;; Ret (respond m)) request) w
                 = (Returned (respond (<["message"%string
                                         := "Profiler data cleared."%string]> ∅)), w1)).
  { cbn beta. unfold Main.clear_profiler_data. rewrite !run_bind, Hrun1. reflexivity. }
  pose proof (wp_dispatch_returns rt environ pr inst self request _ _ w w1 [] c
                Happ Hcpu ltac:(congruence) H1 H2) as H.
  apply wp_run in H.
  destruct H as (res & w' & Hrun & -> & E1 & _ & _ & (d & Hd & Hat) & _).
  exists w', (length (heap w1)), d.
  split; [exact Hrun|]. split.
  - rewrite E1. unfold prune. cbn [app length].
    replace (c <? Z.of_nat 1) with false by (symmetry; apply Z.ltb_ge; lia).
    reflexivity.
  - split; [exact Hat|].
    unfold ProfilerMiddleware.profile_data in Hd.
    cbn [ProfilerMiddleware.response] in Hd. injection Hd as <-.
    repeat (rewrite lookup_insert_eq || rewrite lookup_insert_ne by discriminate).
    reflexivity.
Qed.

Lemma clear_endpoint_records_itself_witness :
  1 <= 10
  /\ exists w' x d,
       run (ProfilerMiddleware.dispatch example_runtime ∅ example_probe 0%nat
              (ProfilerMiddleware.Mk false "profile") example_request
              (fun _ => m <- Main.clear_profiler_data 0%nat ;; Ret (MkResponse "ok" 200)))
           (example_store 10 3)
       = (Returned (Some (MkResponse "ok" 200)), w')
       /\ entries w' 0%nat = Some [x]
       /\ dict_at w' x = Some d
       /\ d !! "RequestPath"%string = Some (PyStr (url_path example_request)).
Proof.
  split; [lia|].
  apply (clear_endpoint_records_itself example_runtime ∅ example_probe 0%nat
           (ProfilerMiddleware.Mk false "profile") example_request
           (fun _ => MkResponse "ok" 200) (example_store 10 3) [2; 3; 4]%nat 10);
    [reflexivity | reflexivity | reflexivity | lia | intros e' H; discriminate H].
Defined.

(** [GET /profiler/metrics.csv] behind the middleware: the CSV sent is the
    export of the entries recorded before the request, as [text/csv]; the
    request's own entry is recorded after the export was made. *)
Theorem metrics_endpoint_excludes_itself (rt : pyruntime)
    (environ : gmap string string) (pr : probe) (inst : loc)
    (self : ProfilerMiddleware.t) (request : Request)
    (respond : Main.StreamingResponse -> Response)
    (w : world) (l : list loc) (c : Z) (ds : list (gmap string pyval)) :
  _lock w = false ->
  entries w inst = Some l ->
  capacity w inst = Some c ->
  mapM (dict_at w) l = Some ds ->
  (forall e', cpu_time pr = Err e' -> is_Exception e' = true) ->
  exists w' s x d,
    run (ProfilerMiddleware.dispatch rt environ pr inst self request
           (fun _ => s <- Main.get_profiler_metrics_csv rt inst ;; Ret (respond s))) w
    = (Returned (Some (respond s)), w')
    /\ Main.content s = to_csv rt (Frame desired_columns ds)
    /\ Main.media_type s = "text/csv"%string
    /\ entries w' inst = Some (prune c (l ++ [x]))
    /\ dict_at w x = None
    /\ dict_at w' x = Some d
    /\ d !! "RequestPath"%string = Some (PyStr (url_path request)).
Proof.
  intros Hl He Hc Hds Hcpu.
  pose proof (wp_export_to_csv rt w inst l c ds Hl He Hc Hds) as H.
  apply wp_run in H. destruct H as (s & w1 & Hrun1 & -> & ->).
  destruct (store_alloc w inst l c (OList l) He Hc) as (He1 & Hc1 & _).
  set (sr := Main.MkStreamingResponse (to_csv rt (Frame desired_columns ds)) "text/csv"
               (<["Content-Disposition"%string
                  := "attachment; filename=fastapi_profile_metrics.csv"%string]> ∅)).
  assert (Happ : run ((fun _ : Request =>
                         s <- Main.get_profiler_metrics_csv rt inst ;; Ret (respond s))
                        request) w
                 = (Returned (respond sr), set_heap (heap w ++ [OList l]) w)).
  { cbn beta. unfold Main.get_profiler_metrics_csv. rewrite !run_bind, Hrun1.
    reflexivity. }
  pose proof (wp_dispatch_returns rt environ pr inst self request _ _ w _ l c
                Happ Hcpu Hl He1 Hc1) as H.
  apply wp_run in H.
  destruct H as (res & w' & Hrun & -> & E1 & _ & _ & (d & Hd & Hat) & _).
  exists w', sr, (length (heap (set_heap (heap w ++ [OList l]) w))), d.
  split; [exact Hrun|]. split; [reflexivity|]. split; [reflexivity|].
  split; [exact E1|]. split.
  - unfold dict_at. simpl. rewrite lookup_ge_None_2; [reflexivity|].
    rewrite length_app. simpl. lia.
  - split; [exact Hat|].
    unfold ProfilerMiddleware.profile_data in Hd.
    cbn [ProfilerMiddleware.response] in Hd. injection Hd as <-.
    repeat (rewrite lookup_insert_eq || rewrite lookup_insert_ne by discriminate).
    reflexivity.
Qed.

Lemma metrics_endpoint_excludes_itself_witness :
  exists w' s x d,
    run (ProfilerMiddleware.dispatch example_runtime ∅ example_probe 0%nat
           (ProfilerMiddleware.Mk false "profile") example_request
           (fun _ => s <- Main.get_profiler_metrics_csv example_runtime 0%nat ;;
                     Ret (MkResponse (Main.content s) 200)))
        (example_store_of 10 [example_entry])
    = (Returned (Some (MkResponse (Main.content s) 200)), w')
    /\ Main.content s = to_csv example_runtime (Frame desired_columns [example_entry])
    /\ Main.media_type s = "text/csv"%string
    /\ entries w' 0%nat = Some (prune 10 ([2%nat] ++ [x]))
    /\ dict_at (example_store_of 10 [example_entry]) x = None
    /\ dict_at w' x = Some d
    /\ d !! "RequestPath"%string = Some (PyStr (url_path example_request)).
Proof.
  apply (metrics_endpoint_excludes_itself example_runtime ∅ example_probe 0%nat
           (ProfilerMiddleware.Mk false "profile") example_request
           (fun s => MkResponse (Main.content s) 200)
           (example_store_of 10 [example_entry]) [2%nat] 10 [example_entry]);
    [reflexivity | reflexivity | reflexivity | reflexivity | intros e' H; discriminate H].
Defined.

(** ** Many requests *)

Lemma mapM_prune {A B : Type} (f : A -> option B) (c : Z) (l : list A) (k : list B) :
  mapM f l = Some k -> mapM f (prune c l) = Some (prune c k).
Proof.
  intros H. apply mapM_Some in H. apply mapM_Some.
  unfold prune, slice_from. rewrite (Forall2_length _ _ _ H).
  destruct (_ <? _); [|exact H].
  apply Forall2_drop. exact H.
Qed.

Lemma map_lastn {A B : Type} (f : A -> B) (n : nat) (l : list A) :
  map f (lastn n l) = lastn n (map f l).
Proof.
  unfold lastn. rewrite length_map. generalize (length l - n)%nat as m.
  induction l as [|x l IH]; intros [|m]; simpl; auto.
Qed.

Lemma wp_serve_all (rt : pyruntime) (environ : gmap string string)
    (inst : loc) (self : ProfilerMiddleware.t)
    (rs : list (probe * Request * Response))
    (w : world) (l : list loc) (ds : list (gmap string pyval)) (c : Z) :
  _lock w = false ->
  entries w inst = Some l ->
  capacity w inst = Some c ->
  mapM (dict_at w) l = Some ds ->
  1 <= c ->
  Z.of_nat (length l) <= c ->
  Forall (fun r => forall e', cpu_time (fst (fst r)) = Err e' -> is_Exception e' = true) rs ->
  wp (serve_all rt environ inst self rs)
     (fun _ w' => exists l' ds',
        entries w' inst = Some l'
        /\ mapM (dict_at w') l' = Some ds'
        /\ map entry_path ds'
           = lastn (Z.to_nat c) (map entry_path ds ++ map served_path rs)) w.
Proof.
  intros Hl He Hc Hds Hc1 Hlen Hrs.
  revert w l ds Hl He Hc Hds Hlen.
  induction Hrs as [|[[pr rq] resp] rs Hcpu _ IH]; intros w l ds Hl He Hc Hds Hlen.
  - apply wp_ret. exists l, ds. split; [exact He|]. split; [exact Hds|].
    simpl. rewrite app_nil_r. symmetry. apply lastn_all.
    rewrite length_map. apply length_mapM in Hds. lia.
  - cbn [serve_all]. apply wp_bind.
    eapply wp_mono;
      [| apply (wp_dispatch_returns rt environ pr inst self rq (fun _ => Ret resp) resp
                  w w l c eq_refl Hcpu Hl He Hc)].
    cbn beta. intros res w1 (_ & E1 & E2 & E3 & (d & Hd & Hat) & Hold).
    assert (Hds1 : mapM (dict_at w1) (prune c (l ++ [length (heap w)]))
                   = Some (prune c (ds ++ [d]))).
    { apply mapM_prune. apply mapM_Some. apply Forall2_app.
      - apply mapM_Some in Hds. eapply Forall2_impl; [exact Hds|].
        intros x dx Hx. apply Hold. exact Hx.
      - constructor; [exact Hat | constructor]. }
    eapply wp_mono; [| apply (IH w1 _ _ E3 E1 E2 Hds1)].
    + cbn beta. intros _ w2 (l' & ds' & F1 & F2 & F3).
      exists l', ds'. split; [exact F1|]. split; [exact F2|].
      rewrite F3. rewrite prune_lastn by exact Hc1.
      rewrite map_lastn, lastn_app_lastn, map_app, <- app_assoc. simpl.
      do 3 f_equal. unfold entry_path, served_path. simpl.
      unfold ProfilerMiddleware.profile_data in Hd.
      cbn [ProfilerMiddleware.response] in Hd. injection Hd as <-.
      repeat (rewrite lookup_insert_eq || rewrite lookup_insert_ne by discriminate).
      reflexivity.
    + rewrite length_prune by exact Hc1. lia.
Qed.

(** The middleware in front of handlers that return: after any number of
    requests the store holds the entries of the most recent ones, as
    many as the capacity allows, in the order the requests were
    handled. *)
Theorem serve_all_keeps_latest (rt : pyruntime) (environ : gmap string string)
    (inst : loc) (self : ProfilerMiddleware.t)
    (rs : list (probe * Request * Response))
    (w : world) (l : list loc) (ds : list (gmap string pyval)) (c : Z) :
  _lock w = false ->
  entries w inst = Some l ->
  capacity w inst = Some c ->
  mapM (dict_at w) l = Some ds ->
  1 <= c ->
  Z.of_nat (length l) <= c ->
  Forall (fun r => forall e', cpu_time (fst (fst r)) = Err e' -> is_Exception e' = true) rs ->
  exists w' l' ds',
    run (serve_all rt environ inst self rs) w = (Returned tt, w')
    /\ entries w' inst = Some l'
    /\ mapM (dict_at w') l' = Some ds'
    /\ map entry_path ds'
       = lastn (Z.to_nat c) (map entry_path ds ++ map served_path rs).
Proof.
  intros Hl He Hc Hds Hc1 Hlen Hrs.
  pose proof (wp_serve_all rt environ inst self rs w l ds c
                Hl He Hc Hds Hc1 Hlen Hrs) as H.
  apply wp_run in H. destruct H as ([] & w' & Hrun & l' & ds' & H1 & H2 & H3).
  exists w', l', ds'. auto.
Qed.

(** The application clears the store when it starts, so the store then
    holds entries of this run only: after the start and any number of
    requests, the entries are those of the most recent requests, and
    nothing recorded before the start is among them. *)
Theorem startup_then_requests (rt : pyruntime) (environ : gmap string string)
    (inst : loc) (self : ProfilerMiddleware.t)
    (rs : list (probe * Request * Response))
    (w : world) (l : list loc) (c : Z) :
  _lock w = false ->
  entries w inst = Some l ->
  capacity w inst = Some c ->
  1 <= c ->
  Forall (fun r => forall e', cpu_time (fst (fst r)) = Err e' -> is_Exception e' = true) rs ->
  exists w' l' ds',
    run (Main.startup_event inst ;; serve_all rt environ inst self rs) w
    = (Returned tt, w')
    /\ entries w' inst = Some l'
    /\ mapM (dict_at w') l' = Some ds'
    /\ map entry_path ds' = lastn (Z.to_nat c) (map served_path rs).
Proof.
  intros Hl He Hc Hc1 Hrs.
  enough (H : wp (Main.startup_event inst ;; serve_all rt environ inst self rs)
                 (fun _ w' => exists l' ds',
                    entries w' inst = Some l'
                    /\ mapM (dict_at w') l' = Some ds'
                    /\ map entry_path ds' = lastn (Z.to_nat c) (map served_path rs)) w).
  { apply wp_run in H. destruct H as ([] & w' & Hrun & l' & ds' & H1 & H2 & H3).
    exists w', l', ds'. auto. }
  apply wp_bind. unfold Main.startup_event.
  eapply wp_mono; [| apply (wp_clear_data w inst l c Hl He Hc)].
  cbn beta. intros _ w1 [H1 H2 H3 _ _ _].
  apply (wp_serve_all rt environ inst self rs w1 [] [] c);
    [congruence | exact H1 | exact H2 | reflexivity | exact Hc1 | simpl; lia | exact Hrs].
Qed.

Lemma startup_then_requests_witness :
  let rq p := (example_probe, MkRequest p "GET" ∅, MkResponse "ok" 200) in
  1 <= 2
  /\ exists w' l' ds',
       run (Main.startup_event 0%nat ;;
            serve_all example_runtime ∅ 0%nat (ProfilerMiddleware.Mk false "profile")
              [rq "/a"%string; rq "/b"%string; rq "/c"%string]) (example_store 2 2)
       = (Returned tt, w')
       /\ entries w' 0%nat = Some l'
       /\ mapM (dict_at w') l' = Some ds'
       /\ map entry_path ds' = [Some (PyStr "/b"); Some (PyStr "/c")].
Proof.
  cbv zeta. split; [lia|].
  apply (startup_then_requests example_runtime ∅ 0%nat
           (ProfilerMiddleware.Mk false "profile")
           [(example_probe, MkRequest "/a" "GET" ∅, MkResponse "ok" 200);
            (example_probe, MkRequest "/b" "GET" ∅, MkResponse "ok" 200);
            (example_probe, MkRequest "/c" "GET" ∅, MkResponse "ok" 200)]
           (example_store 2 2) [2; 3]%nat 2);
    [reflexivity | reflexivity | reflexivity | lia |].
  repeat constructor; intros e' H; discriminate H.
Defined.

Lemma serve_all_keeps_latest_witness :
  let rq p := (example_probe, MkRequest p "GET" ∅, MkResponse "ok" 200) in
  1 <= 2
  /\ exists w' l' ds',
       run (serve_all example_runtime ∅ 0%nat (ProfilerMiddleware.Mk false "profile")
              [rq "/a"%string; rq "/b"%string; rq "/c"%string]) (example_store 2 0)
       = (Returned tt, w')
       /\ entries w' 0%nat = Some l'
       /\ mapM (dict_at w') l' = Some ds'
       /\ map entry_path ds' = [Some (PyStr "/b"); Some (PyStr "/c")].
Proof.
  cbv zeta. split; [lia|].
  apply (serve_all_keeps_latest example_runtime ∅ 0%nat
           (ProfilerMiddleware.Mk false "profile")
           [(example_probe, MkRequest "/a" "GET" ∅, MkResponse "ok" 200);
            (example_probe, MkRequest "/b" "GET" ∅, MkResponse "ok" 200);
            (example_probe, MkRequest "/c" "GET" ∅, MkResponse "ok" 200)]
           (example_store 2 0) [] [] 2);
    [reflexivity | reflexivity | reflexivity | reflexivity | lia | simpl; lia |].
  repeat constructor; intros e' H; discriminate H.
Defined.

(** * Threads that create the instance *)

Lemma tstep_fresh (w : world) :
  tstep FastAPIProfiler.__new__ w
  = Some (match _instance w with
          | None => new_waiting
          | Some _ => Atomic get_instance Ret
          end, w).
Proof.
  unfold FastAPIProfiler.__new__. cbn. destruct (_instance w); reflexivity.
Qed.

Lemma tstep_waiting (w : world) :
  tstep new_waiting w
  = if _lock w then None else Some (new_in_lock, set_lock true w).
Proof. reflexivity. Qed.

(** The critical section of the thread that finds no instance: it creates
    the instance at the next free position and sets both attributes
    before it releases the lock. *)
Lemma creator_critical (w : world) :
  _instance w = None ->
  _lock w = true ->
  exists wf,
    holds_until_released (length (heap w)) new_in_lock w wf
    /\ _lock wf = false /\ created (length (heap w)) wf.
Proof.
  destruct w as [h i l]. simpl. intros -> ->.
  set (o := length h).
  assert (Ho : ((h ++ [OProfiler None None]) ++ [OList []]) !! o
               = Some (OProfiler None None)).
  { rewrite lookup_app_l by (rewrite length_app; simpl; lia).
    apply lookup_alloc_new. }
  assert (Hlen : (o < length ((h ++ [OProfiler None None]) ++ [OList []]))%nat).
  { rewrite !length_app. simpl. lia. }
  eexists. split; [|split].
  - unfold new_in_lock, new_waiting, FastAPIProfiler.__new__, with_lock.
    eapply hur_step; [cbn; reflexivity | reflexivity | left; split; reflexivity |].
    eapply hur_step; [cbn; reflexivity | reflexivity | left; split; reflexivity |].
    eapply hur_step; [cbn; reflexivity | reflexivity | right; reflexivity |].
    eapply hur_step; [cbn; reflexivity | reflexivity | right; reflexivity |].
    eapply hur_step; [cbn; reflexivity | reflexivity | right; reflexivity |].
    eapply hur_step;
      [cbn; unfold setattr_profiled_requests_data; cbn; fold o; rewrite Ho; reflexivity
      | reflexivity | right; reflexivity |].
    eapply hur_step; [cbn; reflexivity | reflexivity | right; reflexivity |].
    eapply hur_step;
      [cbn; unfold setattr_max_retained_requests; cbn; fold o;
       rewrite list_lookup_insert_eq by exact Hlen; reflexivity
      | reflexivity | right; reflexivity |].
    apply hur_last. cbn. reflexivity.
  - reflexivity.
  - split; [reflexivity|]. cbn. rewrite list_insert_insert_eq. split.
    + eapply entries_intro; simpl.
      * apply list_lookup_insert_eq. exact Hlen.
      * rewrite length_app. simpl.
        rewrite list_lookup_insert_ne by (unfold o; lia).
        replace (length h + 1)%nat with (length (h ++ [OProfiler None None]))
          by (rewrite length_app; reflexivity).
        apply lookup_alloc_new.
    + unfold capacity. simpl. rewrite list_lookup_insert_eq by exact Hlen.
      reflexivity.
Qed.

(** The critical section of a thread that waited while the instance was
    made: the second check finds it, and the thread only releases the
    lock. *)
Lemma recheck_critical (o : loc) (w : world) :
  _lock w = true ->
  created o w ->
  holds_until_released o new_in_lock w (set_lock false w)
  /\ created o (set_lock false w).
Proof.
  intros Hl (Hi & He & Hc). split.
  - unfold new_in_lock, new_waiting, FastAPIProfiler.__new__, with_lock.
    eapply hur_step;
      [cbn; rewrite Hi; reflexivity | exact Hl | right; exact Hi |].
    apply hur_last. reflexivity.
  - split; [exact Hi|]. split; [exact He | exact Hc].
Qed.

Lemma holds_until_released_running (o : loc) (p : prog (option loc)) (w wf : world) :
  holds_until_released o p w wf -> finished p = false.
Proof.
  intros H. destruct H as [p w wf H|p p' w w' wf H _ _ _];
    destruct p; simpl in H; try discriminate; reflexivity.
Qed.

Lemma early_insert (st : list caller_state) (j : nat) (s : caller_state) :
  early s = true ->
  Forall (fun s => early s = true) st ->
  Forall (fun s => early s = true) (<[j := s]> st).
Proof.
  intros Hs H. apply Forall_insert; assumption.
Qed.

(** One step of any thread keeps the threads calling. *)
Lemma calling_step (o : loc) (st : list caller_state)
    (cf cf' : config (option loc)) (j : nat) :
  calling o st cf ->
  sched_step j cf = Some cf' ->
  exists st', length st' = length st /\ calling o st' cf'.
Proof.
  intros Hcall Hstep. destruct cf as [w ts]. unfold sched_step in Hstep.
  cbn [fst snd] in *.
  destruct Hcall as [(Hl & Hts & Hph)
                    |(i & p & wf & Hi & Hl & Hts & Hhur & Hlf & Hcr & Hph)];
    cbn [fst snd] in *; subst ts.
  - rewrite lookup_map in Hstep.
    destruct (st !! j) as [s|] eqn:Hj; simpl in Hstep; [|discriminate].
    destruct s; cbn [caller] in Hstep.
    + rewrite tstep_fresh in Hstep. injection Hstep as <-.
      destruct Hph as [(Hi0 & Hlen & Hearly)|Hcr].
      * rewrite Hi0. exists (<[j := Waiting]> st).
        split; [apply length_insert|]. left. cbn [fst snd].
        split; [exact Hl|]. split; [rewrite map_insert; reflexivity|].
        left. split; [exact Hi0|]. split; [exact Hlen|].
        apply early_insert; [reflexivity | exact Hearly].
      * pose proof Hcr as (Hi1 & _). rewrite Hi1. exists (<[j := Reading]> st).
        split; [apply length_insert|]. left. cbn [fst snd].
        split; [exact Hl|]. split; [rewrite map_insert; reflexivity|].
        right. exact Hcr.
    + rewrite tstep_waiting, Hl in Hstep. injection Hstep as <-.
      exists st. split; [reflexivity|]. right.
      destruct Hph as [(Hi0 & Hlen & Hearly)|Hcr].
      * destruct (creator_critical (set_lock true w) Hi0 eq_refl)
          as (wf & Hhur & Hlf & Hcr).
        cbn [heap set_lock] in Hhur, Hcr. rewrite Hlen in Hhur, Hcr.
        exists j, new_in_lock, wf. cbn [fst snd].
        split; [exact Hj|]. split; [reflexivity|]. split; [reflexivity|].
        split; [exact Hhur|]. split; [exact Hlf|]. split; [exact Hcr|].
        left. split; [exact Hi0 | exact Hearly].
      * destruct (recheck_critical o (set_lock true w) eq_refl Hcr) as [Hhur Hcr'].
        exists j, new_in_lock, (set_lock false (set_lock true w)). cbn [fst snd].
        split; [exact Hj|]. split; [reflexivity|]. split; [reflexivity|].
        split; [exact Hhur|]. split; [reflexivity|]. split; [exact Hcr'|].
        right. apply Hcr.
    + injection Hstep as <-.
      destruct Hph as [(Hi0 & Hlen & Hearly)|Hcr].
      * rewrite Forall_lookup in Hearly. specialize (Hearly j Reading Hj).
        discriminate Hearly.
      * pose proof Hcr as (Hi1 & _). cbn [get_instance fst]. rewrite Hi1.
        exists (<[j := Done]> st).
        split; [apply length_insert|]. left. cbn [fst snd].
        split; [exact Hl|]. split; [rewrite map_insert; reflexivity|].
        right. exact Hcr.
    + discriminate Hstep.
  - assert (Hil : (i < length (map (caller o) st))%nat).
    { rewrite length_map. eapply lookup_lt_Some; eauto. }
    destruct (decide (j = i)) as [->|Hji].
    + rewrite list_lookup_insert_eq in Hstep by exact Hil.
      destruct (tstep p w) as [[p' w']|] eqn:Hp; [|discriminate].
      injection Hstep as <-.
      destruct Hhur as [p w wf Hlast|p p'' w w'' wf Hnext Hl' Hinst Hhur].
      * rewrite Hlast in Hp. injection Hp as <- <-.
        exists (<[i := Reading]> st).
        split; [apply length_insert|]. left. cbn [fst snd].
        split; [exact Hlf|].
        split; [rewrite list_insert_insert_eq, map_insert; reflexivity|].
        right. exact Hcr.
      * rewrite Hnext in Hp. injection Hp as <- <-.
        exists st. split; [reflexivity|]. right.
        exists i, p'', wf. cbn [fst snd].
        rewrite list_insert_insert_eq.
        split; [exact Hi|]. split; [exact Hl'|]. split; [reflexivity|].
        split; [exact Hhur|]. split; [exact Hlf|]. split; [exact Hcr|].
        destruct Hinst as [[Hn Hn']|Hs]; [|right; exact Hs].
        destruct Hph as [[_ Hearly]|Hs]; [|congruence].
        left. split; [exact Hn' | exact Hearly].
    + rewrite list_lookup_insert_ne in Hstep by congruence.
      rewrite lookup_map in Hstep.
      destruct (st !! j) as [s|] eqn:Hj; simpl in Hstep; [|discriminate].
      assert (Hi' : forall s', <[j := s']> st !! i = Some Waiting).
      { intros s'. rewrite list_lookup_insert_ne by congruence. exact Hi. }
      assert (Hts : forall s',
                 <[j := caller o s']> (<[i := p]> (map (caller o) st))
                 = <[i := p]> (map (caller o) (<[j := s']> st))).
      { intros s'. rewrite map_insert. apply list_insert_insert_ne. congruence. }
      destruct s; cbn [caller] in Hstep.
      * rewrite tstep_fresh in Hstep. injection Hstep as <-.
        destruct Hph as [[Hi0 Hearly]|Hi1].
        -- rewrite Hi0. exists (<[j := Waiting]> st).
           split; [apply length_insert|]. right.
           exists i, p, wf. cbn [fst snd].
           split; [apply Hi'|]. split; [exact Hl|]. split; [apply (Hts Waiting)|].
           split; [exact Hhur|]. split; [exact Hlf|]. split; [exact Hcr|].
           left. split; [exact Hi0|]. apply early_insert; [reflexivity | exact Hearly].
        -- rewrite Hi1. exists (<[j := Reading]> st).
           split; [apply length_insert|]. right.
           exists i, p, wf. cbn [fst snd].
           split; [apply Hi'|]. split; [exact Hl|]. split; [apply (Hts Reading)|].
           split; [exact Hhur|]. split; [exact Hlf|]. split; [exact Hcr|].
           right. exact Hi1.
      * rewrite tstep_waiting, Hl in Hstep. discriminate Hstep.
      * injection Hstep as <-.
        destruct Hph as [[Hi0 Hearly]|Hi1].
        -- rewrite Forall_lookup in Hearly. specialize (Hearly j Reading Hj).
           discriminate Hearly.
        -- cbn [get_instance fst]. rewrite Hi1. exists (<[j := Done]> st).
           split; [apply length_insert|]. right.
           exists i, p, wf. cbn [fst snd].
           split; [apply Hi'|]. split; [exact Hl|]. split; [apply (Hts Done)|].
           split; [exact Hhur|]. split; [exact Hlf|]. split; [exact Hcr|].
           right. exact Hi1.
      * discriminate Hstep.
Qed.

Lemma calling_run (o : loc) (s : list nat) (st : list caller_state)
    (cf cf' : config (option loc)) :
  calling o st cf ->
  run_schedule s cf = Some cf' ->
  exists st', length st' = length st /\ calling o st' cf'.
Proof.
  revert st cf. induction s as [|j s IH]; intros st cf Hcall Hrun; simpl in Hrun.
  - injection Hrun as <-. exists st. auto.
  - destruct (sched_step j cf) as [cf1|] eqn:Hstep; [|discriminate].
    destruct (calling_step o st cf cf1 j Hcall Hstep) as (st1 & E1 & C1).
    destruct (IH st1 cf1 C1 Hrun) as (st' & E' & C').
    exists st'. split; [congruence | exact C'].
Qed.

Lemma caller_finished (o : loc) (s : caller_state) :
  finished (caller o s) = true -> caller o s = Ret (Some o).
Proof. destruct s; simpl; intros H; try discriminate H; reflexivity. Qed.

(** Any number of threads call [FastAPIProfiler()] at once, with no
    instance yet.  However they are scheduled, every call that has
    returned has returned the same instance; and once all have returned,
    that instance is in place with no entries and capacity 1000, and the
    lock is free. *)
Theorem concurrent_singleton (n : nat) (w : world) (s : list nat) (w' : world)
    (ps : list (prog (option loc))) :
  _instance w = None ->
  _lock w = false ->
  run_schedule s (w, replicate n FastAPIProfiler.__new__) = Some (w', ps) ->
  length ps = n
  /\ (forall j p, ps !! j = Some p -> finished p = true ->
        p = Ret (Some (length (heap w))))
  /\ (n <> 0%nat -> Forall (fun p => finished p = true) ps ->
      _lock w' = false /\ created (length (heap w)) w').
Proof.
  intros Hi Hl Hrun. set (o := length (heap w)).
  assert (H0 : calling o (replicate n Fresh) (w, replicate n FastAPIProfiler.__new__)).
  { left. cbn [fst snd]. split; [exact Hl|]. split.
    - clear. induction n; simpl; [reflexivity | f_equal; assumption].
    - left. split; [exact Hi|]. split; [reflexivity|].
      clear. induction n; simpl; constructor; auto. }
  destruct (calling_run o s _ _ _ H0 Hrun) as (st & Hlen & Hcall).
  rewrite length_replicate in Hlen.
  destruct Hcall as [(Hl' & Hts & Hph)
                    |(i & p & wf & Hwi & Hl' & Hts & Hhur & Hlf & Hcr & Hph)];
    cbn [fst snd] in *; subst ps.
  - split; [rewrite length_map; exact Hlen|]. split.
    + intros j p Hj Hfin. rewrite lookup_map in Hj.
      destruct (st !! j) as [sj|]; simpl in Hj; [|discriminate].
      injection Hj as <-. apply caller_finished. exact Hfin.
    + intros Hn Hfin. split; [exact Hl'|].
      destruct Hph as [(_ & _ & Hearly)|Hcr]; [|exact Hcr].
      destruct st as [|s0 st]; [simpl in Hlen; congruence|].
      inversion Hearly as [|? ? He _]; subst.
      inversion Hfin as [|? ? Hf _]; subst.
      destruct s0; discriminate.
  - assert (Hil : (i < length (map (caller o) st))%nat).
    { rewrite length_map. eapply lookup_lt_Some; eauto. }
    split; [rewrite length_insert, length_map; exact Hlen|]. split.
    + intros j q Hj Hfin. destruct (decide (j = i)) as [->|Hji].
      * rewrite list_lookup_insert_eq in Hj by exact Hil. injection Hj as <-.
        rewrite (holds_until_released_running o p w' wf Hhur) in Hfin.
        discriminate Hfin.
      * rewrite list_lookup_insert_ne in Hj by congruence.
        rewrite lookup_map in Hj.
        destruct (st !! j) as [sj|]; simpl in Hj; [|discriminate].
        injection Hj as <-. apply caller_finished. exact Hfin.
    + intros _ Hfin. exfalso. rewrite Forall_lookup in Hfin.
      specialize (Hfin i p (list_lookup_insert_eq _ _ _ Hil)).
      rewrite (holds_until_released_running o p w' wf Hhur) in Hfin.
      discriminate Hfin.
Qed.

(** Two threads: the second makes the first check, the first then runs
    its whole call, and the second takes the lock, checks again and
    returns. *)
Lemma concurrent_singleton_witness :
  match run_schedule ([1] ++ replicate 12 0 ++ replicate 4 1)%nat
          (World [] None false, replicate 2 FastAPIProfiler.__new__) with
  | Some (w', ps) =>
      ps = [Ret (Some 0%nat); Ret (Some 0%nat)]
      /\ entries w' 0%nat = Some [] /\ capacity w' 0%nat = Some 1000
  | None => False
  end.
Proof.
  destruct (run_schedule ([1] ++ replicate 12 0 ++ replicate 4 1)%nat
              (World [] None false, replicate 2 FastAPIProfiler.__new__))
    as [[w' ps]|] eqn:Hr; [|vm_compute in Hr; discriminate Hr].
  destruct (concurrent_singleton 2 (World [] None false)
              ([1] ++ replicate 12 0 ++ replicate 4 1)%nat w' ps eq_refl eq_refl Hr)
    as (Hlen & Hret & Hall).
  assert (E : exists a b, ps = [a; b] /\ finished a = true /\ finished b = true).
  { vm_compute in Hr. injection Hr as _ <-. eexists _, _. repeat split. }
  destruct E as (a & b & -> & Ha & Hb).
  split.
  - rewrite (Hret 0%nat a eq_refl Ha), (Hret 1%nat b eq_refl Hb). reflexivity.
  - destruct Hall as (_ & _ & He & Hc); [discriminate | repeat constructor; assumption |].
    split; [exact He | exact Hc].
Defined.

(** The instance is published before its attributes are set.  While the
    creating thread is still inside the lock, a second caller finds
    [cls._instance] set, skips the lock and returns the instance; at that
    moment the instance has neither entries nor capacity, and
    [configure] on it raises [AttributeError]. *)
Theorem instance_returned_before_initialised (w : world) (n : Z) :
  _instance w = None ->
  _lock w = false ->
  1 <= n ->
  exists w' p,
    run_schedule [0; 0; 0; 0; 0; 1; 1]%nat
      (w, [FastAPIProfiler.__new__; FastAPIProfiler.__new__])
    = Some (w', [p; Ret (Some (length (heap w)))])
    /\ finished p = false
    /\ entries w' (length (heap w)) = None
    /\ capacity w' (length (heap w)) = None
    /\ fst (run (FastAPIProfiler.configure (length (heap w)) n) w')
       = Raised (AttributeError "profiled_requests_data").
Proof.
  destruct w as [h i l]. simpl. intros -> -> Hn.
  eexists _, _. split; [reflexivity|]. split; [reflexivity|].
  assert (Ho : (h ++ [OProfiler None None]) !! length h = Some (OProfiler None None))
    by apply lookup_alloc_new.
  split; [|split].
  - unfold entries, data_loc. simpl. rewrite Ho. reflexivity.
  - unfold capacity. simpl. rewrite Ho. reflexivity.
  - unfold FastAPIProfiler.configure.
    replace (n <? 1) with false by (symmetry; apply Z.ltb_ge; lia).
    cbn. unfold setattr_max_retained_requests. cbn. rewrite Ho. cbn.
    rewrite list_lookup_insert_eq by (rewrite length_app; simpl; lia).
    reflexivity.
Qed.

Lemma instance_returned_before_initialised_witness :
  exists w' p,
    run_schedule [0; 0; 0; 0; 0; 1; 1]%nat
      (World [] None false, [FastAPIProfiler.__new__; FastAPIProfiler.__new__])
    = Some (w', [p; Ret (Some 0%nat)])
    /\ finished p = false
    /\ entries w' 0%nat = None
    /\ capacity w' 0%nat = None
    /\ fst (run (FastAPIProfiler.configure 0%nat 5) w')
       = Raised (AttributeError "profiled_requests_data").
Proof.
  apply (instance_returned_before_initialised (World [] None false) 5);
    [reflexivity | reflexivity | lia].
Defined.

(** * A request, then the export *)

(** The middleware and the export together.  On an empty store, after one
    request whose handler returns, [export_to_csv] gives the header row
    and one row for that request: the time stamp, the path, the method,
    the status and the two durations. *)
Theorem request_then_export (rt : pyruntime) (environ : gmap string string)
    (pr : probe) (inst : loc) (self : ProfilerMiddleware.t) (request : Request)
    (call_next : Request -> prog Response) (r : Response)
    (w w1 : world) (c : Z) :
  run (call_next request) w = (Returned r, w1) ->
  (forall e', cpu_time pr = Err e' -> is_Exception e' = true) ->
  _lock w1 = false ->
  entries w1 inst = Some [] ->
  capacity w1 inst = Some c ->
  1 <= c ->
  exists w',
    run (ProfilerMiddleware.dispatch rt environ pr inst self request call_next ;;
         FastAPIProfiler.export_to_csv rt inst) w
    = (Returned
         (String.append header_line
            (csv_row
               [strftime_localtime pr; url_path request; method request;
                int_repr (status_code r);
                field_text rt (Some (PyFloat
                  (round3 rt ((end_time pr - start_time pr) * 1000)%float)));
                field_text rt (Some (PyFloat
                  (recorded_cpu_time_ms rt pr
                     (ProfilerMiddleware.profile_active self environ request))))])),
       w').
Proof.
  intros Hcn Hcpu Hl He Hc Hc1.
  enough (H : wp (ProfilerMiddleware.dispatch rt environ pr inst self request call_next ;;
                  FastAPIProfiler.export_to_csv rt inst)
                 (fun s _ =>
                    s = String.append header_line
                          (csv_row
                             [strftime_localtime pr; url_path request; method request;
                              int_repr (status_code r);
                              field_text rt (Some (PyFloat
                                (round3 rt ((end_time pr - start_time pr) * 1000)%float)));
                              field_text rt (Some (PyFloat
                                (recorded_cpu_time_ms rt pr
                                   (ProfilerMiddleware.profile_active self environ
                                      request))))])) w).
  { apply wp_run in H. destruct H as (s & w' & Hrun & ->). exists w'. exact Hrun. }
  apply wp_bind.
  eapply wp_mono;
    [| apply (wp_dispatch_returns rt environ pr inst self request call_next r
                w w1 [] c Hcn Hcpu Hl He Hc)].
  cbn beta. intros res w2 (_ & E1 & E2 & E3 & (d & Hd & Hat) & _).
  assert (E1' : entries w2 inst = Some [length (heap w1)]).
  { rewrite E1. unfold prune. cbn [app length].
    replace (c <? Z.of_nat 1) with false by (symmetry; apply Z.ltb_ge; lia).
    reflexivity. }
  assert (Hds : mapM (dict_at w2) [length (heap w1)] = Some [d]).
  { simpl. rewrite Hat. reflexivity. }
  eapply wp_mono; [| apply (wp_export_to_csv rt w2 inst _ c [d] E3 E1' E2 Hds)].
  cbn beta. intros s w3 [-> _].
  unfold to_csv. cbn [columns rows map String.concat].
  rewrite csv_row_desired_columns. f_equal.
  destruct (profile_data_row rt pr request
              (ProfilerMiddleware.Locals
                 (ProfilerMiddleware.profile_active self environ request && Profiler pr)
                 (Some r)
                 (recorded_cpu_time_ms rt pr
                    (ProfilerMiddleware.profile_active self environ request)))
              r eq_refl) as (d' & Hd' & Hrow).
  rewrite Hd in Hd'. injection Hd' as <-.
  cbn [ProfilerMiddleware.cpu_time_ms] in Hrow. rewrite <- Hrow.
  f_equal. apply map_ext. intros col. apply render_cell_alone.
Qed.

Lemma request_then_export_witness :
  1 <= 10
  /\ exists w',
       run (ProfilerMiddleware.dispatch example_runtime ∅ example_probe 0%nat
              (ProfilerMiddleware.Mk false "profile") example_request
              (fun _ => Ret (MkResponse "ok" 200)) ;;
            FastAPIProfiler.export_to_csv example_runtime 0%nat)
           (example_store 10 0)
       = (Returned
            (String.append header_line
               (csv_row
                  [strftime_localtime example_probe; url_path example_request;
                   method example_request; int_repr 200;
                   field_text example_runtime (Some (PyFloat
                     (round3 example_runtime
                        ((end_time example_probe - start_time example_probe) * 1000)%float)));
                   field_text example_runtime (Some (PyFloat
                     (recorded_cpu_time_ms example_runtime example_probe
                        (ProfilerMiddleware.profile_active
                           (ProfilerMiddleware.Mk false "profile") ∅
                           example_request))))])),
          w').
Proof.
  split; [lia|].
  apply (request_then_export example_runtime ∅ example_probe 0%nat
           (ProfilerMiddleware.Mk false "profile") example_request
           (fun _ => Ret (MkResponse "ok" 200)) (MkResponse "ok" 200)
           (example_store 10 0) (example_store 10 0) 10);
    [reflexivity | intros e' H; discriminate H | reflexivity | reflexivity
    | reflexivity | lia].
Defined.
